(* ===== verification/_CoqProject ===== *)
-Q . S2P
Prelude.v
DemoRender.v
JsValue.v
JsNumber.v
Http.v
Jwt.v
JwtModel.v
Student.v
JsonText.v
Store.v
Samples.v
Auth.v
Students.v
StoreSpec.v
Server.v
XlsxExport.v
Process.v
DataFile.v
