(* ===== verification/Prelude.v ===== *)
(** * Verification of the API practice server (server.js, routes/students.js)

    ** The program

    An Express application.  server.js (src/unnamed/part_002) registers
    the middleware (express.json, cookie-parser, cors, a logger), two
    authentication middlewares ([requireJwt]: an Authorization header
    [Bearer <token>] verified with jsonwebtoken; [requireCookieLogin]: the
    cookie [sessionId] equal to the fixed ["dummy-session-id"]), test
    routes (/health, /test/...), the login routes (/auth/...), the
    students router mounted at /students, a 404 handler and an error
    handler.  routes/students.js (src/routes/students.js) keeps the
    module-level array [students], loaded once from data/students.json
    and written back whole after each change, and serves list, get,
    create (POST), replace (PUT), partial update (PATCH) and delete on it,
    the writing routes behind [requireJwt].  Node serves one request at a
    time and every handler is synchronous (jwt.verify with a callback and
    no key function calls it at once), so a run of the server is a
    sequence of request steps on the store.

    ** Files

    - Prelude.v: the state monad with early exit in which every handler
      is written ([prog]: [Halt] for [return res.status(..).json(..)],
      [Go] for falling through, the state reached kept in both), the
      invariant-preservation calculus [preserves], the array primitives
      the handlers call ([find], [findIndex], [splice]) and their lemmas,
      the hint databases [api] and [prog_simpl].
    - JsValue.v: the JSON values of request bodies, truthiness, [typeof],
      property reads, [toLowerCase] on Latin-1, [split(" ")]; the
      case-insensitive equivalence [ci_equiv] with its setoid instances.
    - JsNumber.v: [Number(string)] (the StringNumericLiteral grammar) and
      [Number::toString], used for the [:id] parameter and the 404 text.
    - Http.v: requests, responses, cookie operations, middleware results.
    - Jwt.v: the interface [TokenScheme] of jsonwebtoken ([jwt.sign],
      [jwt.verify] and their laws); JwtModel.v: an instance of it.
    - Student.v: the student record and the validation engine
      (routes/students.js lines 64-97, 133-166, 201-249).
    - JsonText.v: the text of data/students.json: [JSON.stringify(students,
      null, 2)] ([print_value], the serializer with a two-space gap) and
      [JSON.parse] ([p_value], [p_elems], [p_members] over the characters,
      with fuel), [save_text] and [load_text] of routes/students.js lines
      11-24; the round trip of the file and the termination of the parser.
    - Store.v: the store [db] (the array and the file), [loadStudents],
      [saveStudents], [max_id], the invariants (unique ids, e-mails unique
      up to case) and their preservation by push, overwrite, in-place
      update and splice.
    - Samples.v: a two-student store and requests the examples run on.
    - Auth.v: [requireJwt], [requireCookieLogin], the login, me and
      logout handlers (server.js lines 36-87, 130-229).
    - Students.v: every route of routes/students.js as a [prog] over the
      store and the router ([students_router], a Section over the two
      guards it receives); PATCH mutates the object [find] returned, kept
      as its index, field by field.  Then the properties of the handlers.
    - Server.v: the application [app] (middleware order, routes, the
      mount, 404, error handler), [serve] one request, [reachable] states
      of a run from the loaded file; the properties of the whole server.
    - StoreSpec.v: the specification's Student Store as a finite map
      from id to entry ([spec_create], [spec_get], [spec_replace],
      [spec_delete], the step [route_step] a request names) and the abstraction [abs]
      of the array; the handlers refine it.
    - XlsxExport.v: scripts/generate_xlsx.js over the parsed collection:
      [safeJoinExec], [collect] ([collectItems]), the row of a request
      (URL, the status regular expression, notes), the sheet sorting and
      [main]; the script's exceptions are the values [TypeError] of an
      error monad [xres].
    - Process.v: the process of server.js: dotenv filling [process.env]
      from .env ([dotenv_config]), [PORT] and [JWT_SECRET] read from it
      with their fallbacks, the [app.listen] log,
      [loadStudents()] at module load, and [run_server], which serves a
      sequence of arrivals in order with the process's secret; a client
      that empties the store.
    - DataFile.v: the shipped data/students.json, as the setup guide
      appended to routes/students.js quotes it (lines 1022-1046), and its
      three records; the guide's .env files and expected start-up output.
    - DemoRender.v: scripts/render_demo_with_terminalizer.sh
      (src/unnamed/part_001) as a function from the arguments and what
      the commands answer to the effects in order and the exit status,
      with GNU [dirname]; its lemmas show the defaults, that rendering
      always follows a successful [mkdir -p] of a non-empty directory,
      and when the script exits 0; the two commands of the demo
      instructions (src/unnamed/part_000) that concern the script.

    The application and the router share the store: [serve] runs [app],
    which hands /students requests to [students_router], whose handlers
    read and write the [db] record of Store.v and call the guards of
    Auth.v; the guards call jsonwebtoken only through [TokenScheme].  [run_server]
    (Process.v) composes [loadStudents] at start-up with [serve] over the
    arrivals, every request checked with the one secret of the process.  The
    export script shares nothing with the server; it reads the Postman
    collection the tests run from.

    ** What is proved

    - Invariants of every run (C1, C26): from a file with unique ids and
      e-mails unique up to case (positive ages), every reachable store
      keeps them; proved by rule induction on [reachable] from
      [preserves] facts of each handler, through a Section whose
      hypotheses are the per-handler obligations.  DataFile.v checks that
      the shipped data/students.json meets these hypotheses.
    - Refinement (C2, C15-C18): each successful POST, PUT, DELETE and GET
      is the abstract operation on the map [abs]; in every reachable
      state the next request changes the table only by the step its
      route, id and body name ([serve_step], [route_step]).
    - Liveness (C6): from every state a run of the process reaches, a
      client holding a token signed with the process's secret empties the
      store and the file, one DELETE per record, each answered 200.
    - Safety (C5, C9, C11, C14): a request [requireJwt] rejects changes
      nothing; the guard passes only well-formed Bearer headers whose
      token verifies with the server's secret; with [JWT_SECRET] unset
      that secret is the fallback literal of server.js, and a token any
      client signs with it opens the write routes.
    - Functional behaviour and error paths of each handler: create (C3,
      C4), PATCH (C7, C8, C25), PUT (C19, C20, C23), DELETE (C22), GET
      after POST (C24), ages (C21), the guard's rejections (C10), logins
      and sessions (C12, C27-C29), routing and errors (C30, C31).
    - Round trip of the store file: what [saveStudents] writes,
      [loadStudents] reads back as the same students (C13).
    - The export script: [collectItems] terminates and its fuel does not
      matter (C32); the workbook has non-empty sheets in a fixed order
      (C33); the expected status is read as the regular expression reads
      it, dots matching any character (C34); the notes and the sheet
      disagree on upper-case URLs (C35).
    Every claim with hypotheses has a witness running it on Samples.v, on
    two students of JsonText.v or on the sample collection of
    XlsxExport.v.

    ** Bounds and modelling choices

    - Numbers are exact decimals [m * 10^e]; binary64 rounding (more than
      15 significant digits, magnitudes beyond 1.8e308) is not modelled.
      In particular [maxId + 1] is exact here, while in the program it
      stops growing at 2^53: the id claims (C1, C3, C15, C24) hold of
      the program for stores whose ids stay below 2^53.  [Number] reads
      back the [toString] text of every integer below [10^21], where
      [Number::toString] stops printing integers in full
      ([num_to_string_dec], [js_Number_dec_text]).
    - The digit loops of the printer take fuel [Pos.size_nat p], the
      number of bits of [p], which is at least its number of decimal
      digits, so they never run out (lemmas [digits_rev_value],
      [digits_lsf_value]).
    - The JSON parser takes fuel [2 * length + 2] for a text: each value
      costs one unit and each element or member list one more, and every
      nested call starts at least one character later ([parse_consumes]);
      a printed value needs [jweight] units, at most the length of its
      text ([jweight_length]).  The round trip holds for values without
      [undefined] whose numbers are integers below [10^21] ([json_ok]),
      which the stored students are when ids and ages are.
    - [collect] takes one unit of fuel per folder level; [main] gives it
      the size [jsize] of the items (the number of constructors of the
      JSON value), which is more than their depth: [collect_total] shows
      it never runs out, [collect_fuel_mono] that more fuel changes
      nothing.
    - Strings are Latin-1: [toLowerCase] is exact on code units below 256;
      the regular expression's line terminators are LF and CR (U+2028 and
      U+2029 lie beyond Latin-1).
    - Header names are lower case and each header or cookie has one value,
      as Node and cookie-parser present them.  Times are seconds.

    ** Not modelled

    The console beyond the request logger's line (output only), the CORS response
    headers, the JSON text of request bodies (express.json hands the
    handlers parsed values; its SyntaxError is an input of [serve]) and of
    the Postman collection (the export script receives it parsed),
    characters above U+00FF and non-integer numbers in the file (the
    parser reports them as [Unrepresentable]), a failing [writeFileSync]
    (the spec leaves it open), the xlsx library (main returns the sheets
    it would write), dotenv's quoted and multi-line values and the binding
    of the port (requests arrive as a list), the
    demo instructions other than the two helper commands (tools outside
    the repository), and the README and test plan (prose). *)

From stdpp Require Export base list strings decidable sets.
From Stdlib Require Export ZArith Ascii Lia.

(** * Prelude: the state-and-early-exit monad of the handlers, the
    JavaScript array primitives the handlers call ([find], [findIndex],
    [reduce], [splice]), and the hint databases of the development. *)

Create HintDb api discriminated.
Create Rewrite HintDb prog_simpl.

(** ** A state monad with early exit

    An Express handler runs against the module-level state and either
    falls through to its end or leaves early with [return res.status(..)
    .json(..)].  Mutations made before an early return stay visible: the
    exit carries the state reached at the point of the return. *)

Inductive exit (S E A : Type) : Type :=
| Halt (e : E) (s : S)
| Go (a : A) (s : S).
Arguments Halt {S E A} e s.
Arguments Go {S E A} a s.

Definition prog (S E A : Type) : Type := S -> exit S E A.

Section Prog.
  Context {S E : Type}.

Definition pret {A} (a : A) : prog S E A := fun s => Go a s.

Definition pbind {A B} (m : prog S E A) (k : A -> prog S E B) : prog S E B :=
    fun s => match m s with
             | Halt e s' => Halt e s'
             | Go a s' => k a s'
             end.

Definition halt {A} (e : E) : prog S E A := fun s => Halt e s.
Definition pget : prog S E S := fun s => Go s s.
Definition pput (s' : S) : prog S E unit := fun _ => Go tt s'.
Definition pmodify (f : S -> S) : prog S E unit := fun s => Go tt (f s).

  (** Run a handler whose normal end also produces a response. *)
Definition run_prog (m : prog S E E) (s : S) : E * S :=
    match m s with
    | Halt e s' => (e, s')
    | Go e s' => (e, s')
    end.

End Prog.


(** ** Invariants of programs

    [preserves P m]: from a state satisfying [P], [m] reaches a state
    satisfying [P], whether it runs to its end or exits early. *)

Definition exit_state {S E A} (x : exit S E A) : S :=
  match x with Halt _ s => s | Go _ s => s end.

Definition preserves {S E A} (P : S -> Prop) (m : prog S E A) : Prop :=
  forall s, P s -> P (exit_state (m s)).



Declare Scope prog_scope.
Delimit Scope prog_scope with prog.
Notation "x <- m ;; k" := (pbind m (fun x => k))
  (at level 100, m at next level, k at level 200, right associativity)
  : prog_scope.
Notation "m ;; k" := (pbind m (fun _ => k)) : prog_scope.

(** ** JavaScript array primitives *)

Section ArrayPrims.
  Context {A : Type}.

  (** [arr.find(p)]: the first element satisfying [p]. *)
Fixpoint js_find (p : A -> bool) (l : list A) : option A :=
    match l with
    | [] => None
    | x :: l' => if p x then Some x else js_find p l'
    end.

  (** [arr.findIndex(p)]: the index of the first such element, or -1. *)
Fixpoint js_findIndex (p : A -> bool) (l : list A) : Z :=
    match l with
    | [] => (-1)%Z
    | x :: l' => if p x then 0%Z
                 else match js_findIndex p l' with
                      | (-1)%Z => (-1)%Z
                      | i => (i + 1)%Z
                      end
    end.

  (** [arr.splice(i, 1)]: the array without its element at index [i]. *)
Fixpoint splice1 (i : nat) (l : list A) : list A :=
    match l, i with
    | [], _ => []
    | _ :: l', O => l'
    | x :: l', S i' => x :: splice1 i' l'
    end.
End ArrayPrims.

(** ** Laws of the monad *)

Section ProgLemmas.
  Context {S E : Type}.

Lemma pbind_ret_l {A B} (a : A) (k : A -> prog S E B) s :
    pbind (pret a) k s = k a s.
  Proof. reflexivity. Qed.

Lemma pbind_halt {A B} (e : E) (k : A -> prog S E B) s :
    pbind (halt e) k s = Halt e s.
  Proof. reflexivity. Qed.

Lemma pbind_assoc {A B C} (m : prog S E A) (k : A -> prog S E B)
        (h : B -> prog S E C) s :
    pbind (pbind m k) h s = pbind m (fun a => pbind (k a) h) s.
  Proof. unfold pbind. destruct (m s); reflexivity. Qed.

Lemma run_prog_halt (e : E) (s : S) : run_prog (halt e) s = (e, s).
  Proof. reflexivity. Qed.
End ProgLemmas.

#[export] Hint Rewrite @pbind_ret_l @pbind_halt @pbind_assoc @run_prog_halt
  : prog_simpl.

(** ** Invariants of programs: lemmas *)

Section Preserves.
  Context {S E : Type} (P : S -> Prop).

Lemma preserves_ret {A} (a : A) : preserves (E:=E) P (pret a).
  Proof. intros s Hs. exact Hs. Qed.

Lemma preserves_halt {A} (e : E) : preserves (A:=A) P (halt e).
  Proof. intros s Hs. exact Hs. Qed.

Lemma preserves_modify (f : S -> S) :
    (forall s, P s -> P (f s)) -> preserves (E:=E) P (pmodify f).
  Proof. intros Hf s Hs. by apply Hf. Qed.

Lemma preserves_bind {A B} (m : prog S E A) (k : A -> prog S E B) :
    preserves P m -> (forall a, preserves P (k a)) -> preserves P (pbind m k).
  Proof.
    intros Hm Hk s Hs. specialize (Hm s Hs). unfold pbind.
    destruct (m s) as [e s'|a s']; simpl in *; [done|]. by apply Hk.
  Qed.

  (** [d <- pget ;; k d]: [k] may use the state it was handed. *)
Lemma preserves_bind_get {B} (k : S -> prog S E B) :
    (forall s, P s -> P (exit_state (k s s))) -> preserves P (pbind pget k).
  Proof. intros Hk s Hs. by apply Hk. Qed.

Lemma run_prog_state (m : prog S E E) s : snd (run_prog m s) = exit_state (m s).
  Proof. unfold run_prog. by destruct (m s). Qed.
End Preserves.

#[export] Hint Resolve preserves_ret preserves_halt : api.

(** ** Generic lemmas on the array primitives *)

Section ArrayLemmas.
  Context {A : Type}.
  Implicit Types (p : A -> bool) (l : list A) (x : A).

Lemma js_find_Some p l x :
    js_find p l = Some x -> x ∈ l /\ p x = true.
  Proof.
    induction l as [|y l IH]; simpl; [discriminate|].
    destruct (p y) eqn:Hy; [intros [= ->]; split; [left|]; done|].
    intros H. destruct (IH H). split; [right|]; done.
  Qed.

Lemma js_find_None p l :
    js_find p l = None <-> Forall (fun y => p y = false) l.
  Proof.
    induction l as [|y l IH]; simpl; [split; auto|].
    rewrite Forall_cons_iff, <- IH.
    destruct (p y); naive_solver.
  Qed.

Lemma js_findIndex_spec p l :
    (js_findIndex p l = (-1)%Z /\ js_find p l = None) \/
    (exists i x, js_findIndex p l = Z.of_nat i /\ l !! i = Some x /\
                 js_find p l = Some x /\ p x = true /\
                 forall j y, (j < i)%nat -> l !! j = Some y -> p y = false).
  Proof.
    induction l as [|y l IH]; simpl; [left; done|].
    destruct (p y) eqn:Hy.
    - right. exists 0%nat, y. repeat split; try done. intros j z Hj. lia.
    - destruct IH as [[E F] | (i & x & E & Hl & Hf & Hp & Hmin)]; rewrite E.
      + left; done.
      + right. exists (S i), x. split; [destruct i; simpl; lia|].
        repeat split; try done.
        intros [|j] z Hj Hz; simpl in *; [congruence|].
        apply (Hmin j); [lia|done].
  Qed.

Lemma js_findIndex_neg p l :
    js_findIndex p l = (-1)%Z <-> js_find p l = None.
  Proof.
    destruct (js_findIndex_spec p l) as [[-> ->]|(i & x & -> & _ & -> & _)];
      [done|split; [lia|discriminate]].
  Qed.

  (** Overwriting an element the predicate rejects by another it rejects
      does not change the search. *)
Lemma js_find_insert_rejected p l i x y :
    l !! i = Some x -> p x = false -> p y = false -> js_find p (<[i:=y]> l) = js_find p l.
  Proof.
    revert i; induction l as [|z l IH]; intros [|i] Hi Hx Hy; simpl in *; try discriminate.
    - injection Hi as ->. by rewrite Hx, Hy.
    - destruct (p z); [done|]. by apply IH.
  Qed.

Lemma js_findIndex_insert_same p l k x y :
    l !! k = Some x -> p y = p x -> js_findIndex p (<[k:=y]> l) = js_findIndex p l.
  Proof.
    revert k; induction l as [|z l IH]; intros [|k] Hk Hy; simpl in *; try discriminate.
    - injection Hk as ->. by rewrite Hy.
    - by rewrite (IH k Hk Hy).
  Qed.

Lemma js_find_app p l1 l2 :
    js_find p (l1 ++ l2) = match js_find p l1 with Some x => Some x | None => js_find p l2 end.
  Proof. induction l1 as [|x l1 IH]; simpl; [done|]. by destruct (p x). Qed.

Lemma js_find_None_not_found p l :
    js_find p l = None <-> forall x, x ∈ l -> p x = false.
  Proof. rewrite js_find_None, Forall_forall. done. Qed.

Lemma length_splice1 i l :
    (i < length l)%nat -> length (splice1 i l) = pred (length l).
  Proof.
    revert i; induction l as [|y l IH]; intros [|i] Hi; simpl in *; try lia.
    rewrite IH by lia. destruct l; simpl in *; lia.
  Qed.

Lemma elem_of_splice1 i l x :
    x ∈ splice1 i l -> x ∈ l.
  Proof.
    revert i; induction l as [|y l IH]; intros [|i]; simpl;
      rewrite ?elem_of_cons; naive_solver.
  Qed.
End ArrayLemmas.

(** Overwriting one element keeps the keys distinct when no other
    element has the new key. *)
Lemma NoDup_fmap_insert {A K} (f : A -> K) (l : list A) k old new :
  NoDup (f <$> l) -> l !! k = Some old ->
  (forall j y, j <> k -> l !! j = Some y -> f y <> f new) ->
  NoDup (f <$> <[k:=new]> l).
Proof.
  intros Hnd Hk Hother. rewrite list_fmap_insert, NoDup_alt.
  intros i j x Hi Hj.
  assert (Hlen : (k < length (f <$> l))%nat) by (rewrite length_fmap; by eapply lookup_lt_Some).
  rewrite list_lookup_insert in Hi, Hj by done.
  rewrite NoDup_alt in Hnd.
  rewrite !list_lookup_fmap in Hi, Hj.
  repeat case_decide; destruct_and?; subst; simplify_eq/=; [done|..].
  - apply fmap_Some in Hi as (y & Hy & Hfy).
    destruct (Hother i y); [naive_solver|done|done].
  - apply fmap_Some in Hj as (y & Hy & Hfy).
    destruct (Hother j y); [naive_solver|done|done].
  - apply (Hnd i j x); by rewrite list_lookup_fmap.
Qed.

Lemma splice1_delete {A} (i : nat) (l : list A) : splice1 i l = delete i l.
Proof. revert i; induction l as [|x l IH]; intros [|i]; simpl; rewrite ?IH; done. Qed.

Lemma NoDup_fmap_splice1 {A K} (f : A -> K) (l : list A) k :
  NoDup (f <$> l) -> NoDup (f <$> splice1 k l).
Proof.
  rewrite splice1_delete, list_fmap_delete. intros Hnd.
  eapply sublist_NoDup; [exact Hnd|apply sublist_delete].
Qed.

(** ** Strings as lists of characters *)

Lemma list_ascii_of_string_append s t :
  String.list_ascii_of_string (s +:+ t) =
  String.list_ascii_of_string s ++ String.list_ascii_of_string t.
Proof. induction s as [|c s IH]; simpl; [done|by rewrite IH]. Qed.

Lemma string_of_list_ascii_app (l1 l2 : list ascii) :
  String.string_of_list_ascii (l1 ++ l2) =
  (String.string_of_list_ascii l1 +:+ String.string_of_list_ascii l2)%string.
Proof. induction l1 as [|c l1 IH]; simpl; [done|by rewrite IH]. Qed.

(** Unfold the monad combinators of a handler. *)
Ltac prog_unfold :=
  unfold run_prog, pbind, pret, halt, pget, pput, pmodify in *; cbv beta iota in *.

#[export] Hint Resolve js_find_Some elem_of_splice1 : api.
