(* ===== verification/DemoRender.v ===== *)
(** * The demo rendering script (scripts/render_demo_with_terminalizer.sh)

    The Bash script of src/unnamed/part_001 renders a recorded
    Terminalizer session into a GIF: it reads the cast name and the
    output path from its arguments with the defaults [demo] and
    [docs/demo.gif] ([${1:-demo}]: an absent or empty argument takes the
    default), stops with status 1 when [terminalizer] is not on the PATH,
    creates the output's directory with [mkdir -p "$(dirname ...)"] and
    runs [terminalizer render].  Under [set -e] the first failing command
    ends the script with its status.

    The shell is a record of what the commands would answer; a run is the
    list of the commands' effects in order and the exit status. *)

From S2P Require Import Prelude.

Local Open Scope string_scope.

(** ** [dirname] (GNU coreutils) *)

Definition slash : ascii := "/"%char.

Fixpoint drop_slashes (l : list ascii) : list ascii :=
  match l with
  | c :: l' => if Ascii.eqb c slash then drop_slashes l' else l
  | [] => []
  end.

Fixpoint drop_name (l : list ascii) : list ascii :=
  match l with
  | c :: l' => if Ascii.eqb c slash then l else drop_name l'
  | [] => []
  end.

(** Strip the trailing slashes, the last component, and the slashes
    before it, working on the reversed path; [.] when no slash is left
    to stop at, [/] when only slashes are. *)
Definition dirname (s : string) : string :=
  match drop_slashes (rev (String.list_ascii_of_string s)) with
  | [] => if String.eqb s "" then "." else "/"
  | r1 =>
      match drop_name r1 with
      | [] => "."
      | r2 =>
          match drop_slashes r2 with
          | [] => "/"
          | r3 => String.string_of_list_ascii (rev r3)
          end
      end
  end.

(** ** The script *)

(** [${n:-default}] *)
Definition param_or_default (args : list string) (n : nat) (dflt : string) : string :=
  match args !! n with
  | Some a => if String.eqb a "" then dflt else a
  | None => dflt
  end.

(** What the commands the script runs would do. *)
Record shell : Type := mk_shell {
  has_terminalizer : bool;                       (** [command -v terminalizer] *)
  mkdir_status : string -> Z;                    (** [mkdir -p dir] *)
  render_status : string -> string -> Z          (** [terminalizer render cast ... -o out] *)
}.

Inductive effect : Type :=
| Echo (line : string)
| Mkdir (dir : string)
| Render (cast out : string).

Definition not_found_msg : string :=
  "terminalizer not found. Install it with: npm install -g terminalizer".

(** The whole script: its effects in order and its exit status. *)
Definition render_demo (sh : shell) (args : list string) : list effect * Z :=
  let CAST_NAME := param_or_default args 0 "demo" in
  let OUT_PATH := param_or_default args 1 "docs/demo.gif" in
  if negb (has_terminalizer sh) then ([Echo not_found_msg], 1%Z) else
  let dir := dirname OUT_PATH in
  let st := mkdir_status sh dir in
  if negb (st =? 0)%Z then ([Mkdir dir], st) else
  let e1 := Echo ("Rendering terminalizer recording '" +:+ CAST_NAME +:+ "' to GIF at " +:+ OUT_PATH) in
  let rs := render_status sh CAST_NAME OUT_PATH in
  if negb (rs =? 0)%Z then ([Mkdir dir; e1; Render CAST_NAME OUT_PATH], rs) else
  ([Mkdir dir; e1; Render CAST_NAME OUT_PATH; Echo ("Done. GIF saved to " +:+ OUT_PATH)], 0%Z).

(** ** The commands of the demo instructions (src/unnamed/part_000) *)

(** [terminalizer render demo --format gif -o docs/demo.gif] *)
Definition doc_render_command : effect := Render "demo" "docs/demo.gif".

(** [./scripts/render_demo_with_terminalizer.sh demo docs/demo.gif] *)
Definition doc_helper_args : list string := ["demo"; "docs/demo.gif"].

(** A shell where everything succeeds. *)
Definition ok_shell : shell := mk_shell true (fun _ => 0%Z) (fun _ _ => 0%Z).

(** ** [dirname] *)

Lemma drop_slashes_keep c l : c <> slash -> drop_slashes (c :: l) = c :: l.
Proof. intros Hc. cbn. by destruct (Ascii.eqb_spec c slash). Qed.

Lemma drop_name_app l r :
  Forall (fun x => x <> slash) l -> drop_name (l ++ slash :: r) = slash :: r.
Proof.
  induction 1 as [|x l Hx _ IH]; cbn; [by unfold slash|].
  by destruct (Ascii.eqb_spec x slash).
Qed.

(** The directory [mkdir -p] receives is never empty. *)
Lemma dirname_not_empty s : dirname s <> "".
Proof.
  unfold dirname. destruct (drop_slashes _) as [|c1 r1]; [by case_match|].
  destruct (drop_name _) as [|c2 r2]; [done|].
  destruct (drop_slashes (c2 :: r2)) as [|c3 r3]; [done|].
  cbn [rev]. destruct (rev r3 ++ [c3])%list as [|a l] eqn:E; [by destruct (rev r3)|done].
Qed.

(** [dirname "d/f"] is [d] when [f] is a non-empty name without slash
    and [d] does not end with one. *)
Lemma dirname_join d f c :
  last (String.list_ascii_of_string d) = Some c -> c <> slash ->
  f <> "" -> Forall (fun x => x <> slash) (String.list_ascii_of_string f) ->
  dirname (d +:+ "/" +:+ f) = d.
Proof.
  intros Hd Hc Hf0 Hf. unfold dirname.
  rewrite !list_ascii_of_string_append. cbn [String.list_ascii_of_string].
  apply last_Some in Hd as [ld Hd].
  assert (Hrf : Forall (fun x => x <> slash) (rev (String.list_ascii_of_string f)))
    by by apply Forall_rev.
  assert (Hne : rev (String.list_ascii_of_string f) <> []).
  { destruct f as [|a f]; [done|]. cbn [String.list_ascii_of_string rev].
    by destruct (rev (String.list_ascii_of_string f)). }
  rewrite Hd, rev_app_distr, (rev_app_distr _ [c]). cbn [rev app].
  destruct (rev (String.list_ascii_of_string f)) as [|y r] eqn:Er; [done|].
  apply Forall_cons_iff in Hrf as [Hy Hr].
  rewrite <- app_assoc. cbn [app]. rewrite drop_slashes_keep by done.
  change ("/"%char) with slash.
  change (y :: r ++ slash :: ?t)%list with ((y :: r) ++ slash :: t)%list.
  rewrite (drop_name_app (y :: r)) by (constructor; done).
  cbv beta iota.
  change (drop_slashes (slash :: c :: rev ld)) with (drop_slashes (c :: rev ld)).
  rewrite drop_slashes_keep by done. cbv beta iota.
  rewrite rev_involutive, <- Hd. apply String.string_of_list_ascii_of_string.
Qed.

(** ** The script *)

Section Run.
Variables (sh : shell) (args : list string).

Let cast := param_or_default args 0 "demo".
Let out := param_or_default args 1 "docs/demo.gif".

Lemma render_demo_no_terminalizer :
  has_terminalizer sh = false -> render_demo sh args = ([Echo not_found_msg], 1%Z).
Proof. intros H. unfold render_demo. by rewrite H. Qed.

(** The script succeeds exactly when [terminalizer] is found and both
    [mkdir -p] and the rendering succeed. *)
Lemma render_demo_exit_zero :
  (render_demo sh args).2 = 0%Z <->
  has_terminalizer sh = true /\ mkdir_status sh (dirname out) = 0%Z /\
  render_status sh cast out = 0%Z.
Proof.
  unfold render_demo, out, cast. destruct (has_terminalizer sh); cbn; [|intuition congruence].
  destruct (Z.eqb_spec (mkdir_status sh (dirname (param_or_default args 1 "docs/demo.gif"))) 0)
    as [Hm|Hm]; cbn; [|intuition congruence].
  destruct (Z.eqb_spec (render_status sh (param_or_default args 0 "demo")
                          (param_or_default args 1 "docs/demo.gif")) 0); cbn; intuition congruence.
Qed.

(** Whenever the script renders, it renders the cast of its first
    argument to the path of its second, after [mkdir -p] created that
    path's directory. *)
Lemma render_demo_mkdir_first c o :
  Render c o ∈ (render_demo sh args).1 ->
  c = cast /\ o = out /\ mkdir_status sh (dirname out) = 0%Z /\
  head (render_demo sh args).1 = Some (Mkdir (dirname out)).
Proof.
  unfold render_demo, out, cast. destruct (has_terminalizer sh); cbn;
    [|rewrite list_elem_of_singleton; discriminate].
  destruct (Z.eqb_spec (mkdir_status sh (dirname (param_or_default args 1 "docs/demo.gif"))) 0)
    as [Hm|Hm]; cbn;
    [|rewrite list_elem_of_singleton; discriminate].
  case_match; cbn; rewrite !elem_of_cons, ?elem_of_nil; intros Hin;
    destruct_or!; simplify_eq; done.
Qed.
End Run.

(** With no arguments and every command succeeding, the script renders
    [demo] to [docs/demo.gif] after creating [docs]. *)
Example render_demo_defaults :
  render_demo ok_shell [] =
    ([Mkdir "docs"; Echo "Rendering terminalizer recording 'demo' to GIF at docs/demo.gif";
      Render "demo" "docs/demo.gif"; Echo "Done. GIF saved to docs/demo.gif"], 0%Z).
Proof. reflexivity. Qed.

(** The documented invocation of the helper is its default one, and it
    runs the documented render step once [terminalizer] is found and
    [docs] exists or can be created. *)
Lemma doc_helper_runs_render sh :
  render_demo sh doc_helper_args = render_demo sh [] /\
  (has_terminalizer sh = true -> mkdir_status sh "docs" = 0%Z ->
   doc_render_command ∈ (render_demo sh doc_helper_args).1).
Proof.
  split; [reflexivity|]. intros Ht Hm. unfold render_demo. cbn. rewrite Ht, Hm. cbn.
  case_match; apply elem_of_cons; right; apply elem_of_cons; right; by apply elem_of_cons; left.
Qed.
