(* ===== verification/JsValue.v ===== *)
(** * JavaScript values as the handlers see them

    The request bodies reach the handlers as the values [JSON.parse]
    builds (through express.json()), and the handlers inspect them with
    truthiness ([!x]), [typeof], [===] and property access ([req.body.name],
    destructuring).  This file models those values and operations, and the
    two string methods the code calls: [toLowerCase] (duplicate e-mail
    check, routes/students.js) and [split(" ")] (Authorization header,
    server.js [requireJwt]).

    Strings are Stdlib strings whose characters stand for UTF-16 code units
    below 256 (Latin-1); numbers parsed from JSON bodies are integers. *)

From S2P Require Import Prelude.

Inductive jsval : Type :=
| JUndefined
| JNull
| JBool (b : bool)
| JNum (n : Z)
| JStr (s : string)
| JArr (elems : list jsval)
| JObj (fields : list (string * jsval)).

(** The [typeof] results reachable from parsed JSON and [undefined]. *)
Inductive jstype : Type := TUndefined | TObject | TBoolean | TNumber | TString.

#[export] Instance jstype_eq_dec : EqDecision jstype.
Proof. solve_decision. Defined.

Definition typeof (v : jsval) : jstype :=
  match v with
  | JUndefined => TUndefined
  | JNull | JArr _ | JObj _ => TObject
  | JBool _ => TBoolean
  | JNum _ => TNumber
  | JStr _ => TString
  end.

(** ToBoolean: [undefined], [null], [false], [0] and [""] are falsy. *)
Definition truthy (v : jsval) : bool :=
  match v with
  | JUndefined | JNull => false
  | JBool b => b
  | JNum n => negb (n =? 0)%Z
  | JStr s => negb (String.eqb s "")
  | JArr _ | JObj _ => true
  end.

(** Property read [o[k]] on an object built by [JSON.parse]: when a key
    occurs twice in the text, the later member overwrites the earlier.
    The keys read by the code ([name], [age], [email], [isActive],
    [username], [password]; in the export script [item], [info],
    [request], [method], [url], [raw], [host], [protocol], [path],
    [event], [listen], [script], [exec]) are not properties of arrays,
    primitives or [Object.prototype], so every other value yields
    [undefined]. *)
Definition get_prop (v : jsval) (k : string) : jsval :=
  match v with
  | JObj fs => fold_left (fun acc '(k', x) => if String.eqb k' k then x else acc)
                         fs JUndefined
  | _ => JUndefined
  end.

(** [req.body || {}] *)
Definition body_or_empty (v : jsval) : jsval :=
  if truthy v then v else JObj [].

(** ** [String.prototype.toLowerCase] on Latin-1 code units

    Within code units 0..255 the uppercase letters are A-Z (65..90),
    À-Ö (192..214) and Ø-Þ (216..222); each maps to the code unit 32
    above it.  Every other unit is unchanged. *)

Definition is_upper_code (n : nat) : bool :=
  ((65 <=? n) && (n <=? 90)) || ((192 <=? n) && (n <=? 214))
  || ((216 <=? n) && (n <=? 222)).

Definition lower_char (c : ascii) : ascii :=
  let n := nat_of_ascii c in
  if is_upper_code n then ascii_of_nat (n + 32) else c.

Fixpoint js_toLowerCase (s : string) : string :=
  match s with
  | EmptyString => EmptyString
  | String c s' => String (lower_char c) (js_toLowerCase s')
  end.

(** ** [s.split(" ")] with a one-character separator *)

Definition space : ascii := " "%char.

(** [cur] is the part read since the last separator, reversed. *)
Fixpoint split_on_acc (sep : ascii) (cur : list ascii) (s : string) : list string :=
  match s with
  | EmptyString => [String.string_of_list_ascii (rev cur)]
  | String c s' =>
      if Ascii.eqb c sep
      then String.string_of_list_ascii (rev cur) :: split_on_acc sep [] s'
      else split_on_acc sep (c :: cur) s'
  end.

Definition js_split (sep : ascii) (s : string) : list string :=
  split_on_acc sep [] s.

(** Case-insensitive equality, the equivalence the e-mail check decides. *)
Definition ci_equiv (s t : string) : Prop := js_toLowerCase s = js_toLowerCase t.

Definition ci_eqb (s t : string) : bool :=
  String.eqb (js_toLowerCase s) (js_toLowerCase t).

Definition no_char (c : ascii) (s : string) : Prop :=
  Forall (fun ch => ch <> c) (String.list_ascii_of_string s).

(** ** Lemmas *)

Lemma lower_char_idem c : lower_char (lower_char c) = lower_char c.
Proof.
  destruct c as [b0 b1 b2 b3 b4 b5 b6 b7].
  destruct b0, b1, b2, b3, b4, b5, b6, b7; reflexivity.
Qed.

Lemma js_toLowerCase_idem s :
  js_toLowerCase (js_toLowerCase s) = js_toLowerCase s.
Proof. induction s as [|c s IH]; simpl; [done|]. by rewrite lower_char_idem, IH. Qed.

Lemma js_toLowerCase_length s : String.length (js_toLowerCase s) = String.length s.
Proof. induction s; simpl; auto. Qed.

Lemma js_toLowerCase_empty s : js_toLowerCase s = "" <-> s = ""%string.
Proof. destruct s; simpl; split; congruence. Qed.

#[export] Hint Rewrite js_toLowerCase_idem : prog_simpl.

Lemma ci_eqb_spec s t : ci_eqb s t = true <-> ci_equiv s t.
Proof. unfold ci_eqb, ci_equiv. apply String.eqb_eq. Qed.

#[export] Instance ci_equiv_equivalence : Equivalence ci_equiv.
Proof. unfold ci_equiv. split; repeat intro; congruence. Qed.

#[export] Instance js_toLowerCase_proper :
  Proper (ci_equiv ==> eq) js_toLowerCase.
Proof. intros s t H. exact H. Qed.

#[export] Instance ci_eqb_proper : Proper (ci_equiv ==> ci_equiv ==> eq) ci_eqb.
Proof. intros s s' Hs t t' Ht. unfold ci_eqb. by rewrite Hs, Ht. Qed.

Lemma ci_equiv_lower s : ci_equiv (js_toLowerCase s) s.
Proof. apply js_toLowerCase_idem. Qed.

Lemma truthy_str s : truthy (JStr s) = true <-> s <> ""%string.
Proof.
  simpl. rewrite negb_true_iff, String.eqb_neq. done.
Qed.

#[export] Hint Resolve ci_equiv_lower : api.

(** ** [split] and [join] *)

Lemma split_on_acc_cons sep cur s : exists x l, split_on_acc sep cur s = x :: l.
Proof.
  revert cur; induction s as [|c s IH]; intros cur; simpl; [by eexists _, _|].
  destruct (Ascii.eqb c sep); [by eexists _, _|apply IH].
Qed.

Lemma append_empty_r s : (s +:+ "")%string = s.
Proof.
  induction s as [|c s IH]; [done|].
  change (String c (s +:+ "") = String c s). by rewrite IH.
Qed.

Lemma append_String c t s : (String c t +:+ s)%string = String c (t +:+ s).
Proof. reflexivity. Qed.

Lemma string_of_list_ascii_snoc (l : list ascii) c s :
  (String.string_of_list_ascii (l ++ [c]) +:+ s)%string =
  (String.string_of_list_ascii l +:+ String c s)%string.
Proof. induction l as [|x l IH]; [done|]. simpl. by rewrite !append_String, IH. Qed.

(** Joining the parts with the separator gives the string back, and no
    part contains the separator. *)
Lemma concat_cons2 sep a b l :
  String.concat sep (a :: b :: l) = (a +:+ (sep +:+ String.concat sep (b :: l)))%string.
Proof. reflexivity. Qed.

Lemma no_char_list sep (cur : list ascii) :
  Forall (fun ch => ch <> sep) cur -> no_char sep (String.string_of_list_ascii (rev cur)).
Proof.
  intros Hc. unfold no_char. rewrite String.list_ascii_of_string_of_list_ascii.
  by apply List.Forall_rev.
Qed.

Lemma split_on_acc_join sep cur s :
  String.concat (String sep EmptyString) (split_on_acc sep cur s) =
    (String.string_of_list_ascii (rev cur) +:+ s)%string /\
  (Forall (fun ch => ch <> sep) cur ->
   Forall (no_char sep) (split_on_acc sep cur s)).
Proof.
  revert cur; induction s as [|c s IH]; intros cur; cbn [split_on_acc].
  - split; [cbn [String.concat]; by rewrite append_empty_r|].
    intros Hc. constructor; [by apply no_char_list|constructor].
  - destruct (Ascii.eqb_spec c sep) as [->|Hne].
    + destruct (IH []) as [IHj IHf]. destruct (split_on_acc_cons sep [] s) as (x & l & Hxl).
      split.
      * rewrite Hxl, concat_cons2, <- Hxl, IHj. reflexivity.
      * intros Hc. constructor; [by apply no_char_list|by apply IHf].
    + destruct (IH (c :: cur)) as [IHj IHf]. split.
      * rewrite IHj. cbn [rev]. apply string_of_list_ascii_snoc.
      * intros Hc. apply IHf. by constructor.
Qed.

Lemma split_on_acc_no_sep sep cur s :
  no_char sep s -> split_on_acc sep cur s = [(String.string_of_list_ascii (rev cur) +:+ s)%string].
Proof.
  revert cur; induction s as [|c s IH]; intros cur Hs; simpl.
  - by rewrite append_empty_r.
  - inversion Hs as [|? ? Hc Hs']; subst.
    destruct (Ascii.eqb_spec c sep); [done|]. rewrite IH by done. f_equal.
    cbn [rev]. apply string_of_list_ascii_snoc.
Qed.

Lemma split_on_acc_sep sep cur a b :
  no_char sep a ->
  split_on_acc sep cur (a +:+ String sep b) =
    (String.string_of_list_ascii (rev cur) +:+ a)%string :: split_on_acc sep [] b.
Proof.
  revert cur; induction a as [|c a IH]; intros cur Ha.
  - change (EmptyString +:+ String sep b)%string with (String sep b). cbn [split_on_acc].
    rewrite Ascii.eqb_refl. by rewrite append_empty_r.
  - rewrite append_String. cbn [split_on_acc]. inversion Ha as [|? ? Hc Ha']; subst.
    destruct (Ascii.eqb_spec c sep); [done|]. rewrite IH by done. f_equal.
    cbn [rev]. apply string_of_list_ascii_snoc.
Qed.

(** Splitting parts joined with the separator gives the parts back. *)
Lemma js_split_concat sep x parts :
  Forall (no_char sep) (x :: parts) ->
  js_split sep (String.concat (String sep EmptyString) (x :: parts)) = x :: parts.
Proof.
  revert x; induction parts as [|y parts IH]; intros x Hp;
    apply Forall_cons_iff in Hp as [Hx Hp]; unfold js_split.
  - cbn [String.concat]. by rewrite split_on_acc_no_sep.
  - rewrite concat_cons2. change (String sep EmptyString +:+ ?t)%string with (String sep t).
    rewrite split_on_acc_sep by done. f_equal. by apply IH.
Qed.
