(* ===== verification/JsNumber.v ===== *)
(** * JavaScript numbers from route parameters

    Every [/:id] handler of routes/students.js starts with
    [const id = Number(req.params.id)], rejects [Number.isNaN(id)] with 400,
    compares [s.id === id] and prints the id in
    [`Student with id ${id} not found`].  This file models [Number] on
    strings (the StringNumericLiteral grammar of ECMAScript: surrounding
    white space, the empty string as 0, signed decimals with fraction and
    exponent, [Infinity], and the 0x / 0o / 0b integer forms),
    strict equality with an integer id, and [Number::toString].

    A finite number is kept exactly as [m * 10^e]; the rounding of
    binary64 (beyond 15 significant digits, or beyond 1.8e308) is not
    modelled. *)

From S2P Require Import Prelude.

Inductive jsnum : Type :=
| NNaN
| NFin (m : Z) (e : Z)      (** the value m * 10^e *)
| NInf (neg : bool).

(** ** Characters *)

Definition code (c : ascii) : Z := Z.of_nat (nat_of_ascii c).

(** StrWhiteSpaceChar below 256: TAB, LF, VT, FF, CR, SP, NBSP. *)
Definition is_ws (c : ascii) : bool :=
  let n := code c in
  ((9 <=? n) && (n <=? 13))%Z || (n =? 32)%Z || (n =? 160)%Z.

(** The value of [c] as a digit in [radix] (2, 8, 10 or 16). *)
Definition digit_val (radix : Z) (c : ascii) : option Z :=
  let n := code c in
  let v := if ((48 <=? n) && (n <=? 57))%Z then Some (n - 48)%Z
           else if ((97 <=? n) && (n <=? 102))%Z then Some (n - 87)%Z
           else if ((65 <=? n) && (n <=? 70))%Z then Some (n - 55)%Z
           else None in
  match v with
  | Some d => if (d <? radix)%Z then Some d else None
  | None => None
  end.

(** ** Trimming *)

Fixpoint drop_ws (l : list ascii) : list ascii :=
  match l with
  | c :: l' => if is_ws c then drop_ws l' else l
  | [] => []
  end.

Definition trim (l : list ascii) : list ascii := rev (drop_ws (rev (drop_ws l))).

(** ** Digit sequences *)

(** The longest prefix of digits: its digits and the rest. *)
Fixpoint take_digits (radix : Z) (l : list ascii) : list Z * list ascii :=
  match l with
  | c :: l' => match digit_val radix c with
               | Some d => let '(ds, r) := take_digits radix l' in (d :: ds, r)
               | None => ([], l)
               end
  | [] => ([], [])
  end.

Definition digits_value (radix : Z) (ds : list Z) : Z :=
  fold_left (fun acc d => acc * radix + d)%Z ds 0%Z.

(** [0x..], [0o..], [0b..]: a non-empty digit sequence and nothing after. *)
Definition parse_radix (radix : Z) (l : list ascii) : jsnum :=
  match take_digits radix l with
  | ([], _) => NNaN
  | (ds, []) => NFin (digits_value radix ds) 0
  | (_, _ :: _) => NNaN
  end.

(** ExponentPart without its letter: an optional sign and digits. *)
Definition parse_exponent (l : list ascii) : option Z :=
  let '(sgn, l1) := match l with
                    | "+"%char :: r => (1%Z, r)
                    | "-"%char :: r => ((-1)%Z, r)
                    | _ => (1%Z, l)
                    end in
  match take_digits 10 l1 with
  | ([], _) | (_, _ :: _) => None
  | (ds, []) => Some (sgn * digits_value 10 ds)%Z
  end.

Definition infinity_chars : list ascii := String.list_ascii_of_string "Infinity".

(** StrUnsignedDecimalLiteral. *)
Definition parse_unsigned (l : list ascii) : option (Z * Z + unit) :=
  if decide (l = infinity_chars) then Some (inr tt) else
  let '(ip, r1) := take_digits 10 l in
  let '(fp, r2) := match r1 with
                   | "."%char :: r => take_digits 10 r
                   | _ => ([], r1)
                   end in
  if (length ip =? 0)%nat && (length fp =? 0)%nat then None else
  let mant := digits_value 10 (ip ++ fp) in
  let scale := (- Z.of_nat (length fp))%Z in
  match r2 with
  | [] => Some (inl (mant, scale))
  | c :: r3 =>
      if (Ascii.eqb c "e" || Ascii.eqb c "E")%char
      then match parse_exponent r3 with
           | Some x => Some (inl (mant, scale + x)%Z)
           | None => None
           end
      else None
  end.

(** StrDecimalLiteral: an optional sign in front. *)
Definition parse_decimal (l : list ascii) : jsnum :=
  let '(neg, l1) := match l with
                    | "+"%char :: r => (false, r)
                    | "-"%char :: r => (true, r)
                    | _ => (false, l)
                    end in
  match parse_unsigned l1 with
  | None => NNaN
  | Some (inr _) => NInf neg
  | Some (inl (m, e)) => NFin (if neg then - m else m)%Z e
  end.

(** [Number(s)] for a string [s]. *)
Definition js_Number (s : string) : jsnum :=
  match trim (String.list_ascii_of_string s) with
  | [] => NFin 0 0
  | "0"%char :: c :: r =>
      if (Ascii.eqb c "x" || Ascii.eqb c "X")%char then parse_radix 16 r
      else if (Ascii.eqb c "o" || Ascii.eqb c "O")%char then parse_radix 8 r
      else if (Ascii.eqb c "b" || Ascii.eqb c "B")%char then parse_radix 2 r
      else parse_decimal ("0"%char :: c :: r)
  | l => parse_decimal l
  end.

Definition js_isNaN (n : jsnum) : bool :=
  match n with NNaN => true | _ => false end.

(** [x === z] for a number [x] and an integer [z]. *)
Definition num_eq_int (x : jsnum) (z : Z) : bool :=
  match x with
  | NFin m e =>
      if (0 <=? e)%Z then (m * 10 ^ e =? z)%Z
      else ((m mod 10 ^ (- e) =? 0) && (m / 10 ^ (- e) =? z))%Z
  | _ => false
  end.

(** The integer a finite number that equals an integer stands for
    (the truncation of its decimal expansion otherwise). *)
Definition num_int_value (x : jsnum) : Z :=
  match x with
  | NFin m e => if (0 <=? e)%Z then (m * 10 ^ e)%Z else (m / 10 ^ (- e))%Z
  | _ => 0%Z
  end.

(** ** [Number::toString] *)

(** Decimal digits of [n > 0], least significant first; [fuel] is the
    bit length of [n], which bounds its number of decimal digits. *)
Fixpoint digits_rev (fuel : nat) (n : Z) : list Z :=
  match fuel with
  | O => []
  | S f => if (n <=? 0)%Z then [] else (n mod 10)%Z :: digits_rev f (n / 10)
  end.

Definition digits_lsf (n : Z) : list Z := digits_rev (Pos.size_nat (Z.to_pos n)) n.

Definition char_of_digit (d : Z) : ascii := ascii_of_nat (48 + Z.to_nat d).

Definition digits_string (ds : list Z) : string :=
  String.string_of_list_ascii (map char_of_digit ds).

Definition zeros (k : Z) : string := String.string_of_list_ascii (repeat "0"%char (Z.to_nat k)).

(** A non-negative integer in decimal. *)
Definition z_to_dec (z : Z) : string :=
  if (z <=? 0)%Z then "0" else digits_string (rev (digits_lsf z)).

(** Least significant zeros move into the exponent. *)
Fixpoint drop_low_zeros (ds : list Z) (e : Z) : list Z * Z :=
  match ds with
  | 0%Z :: ds' => drop_low_zeros ds' (e + 1)%Z
  | _ => (ds, e)
  end.

(** The exponent part [e+n] / [e-n] of the exponential form. *)
Definition exp_string (x : Z) : string :=
  ((if (x <? 0)%Z then "-" else "+") +:+ z_to_dec (Z.abs x))%string.

(** Number::toString of the positive value [ds * 10^(n - k)], where [ds]
    are its [k] significant digits, most significant first. *)
Definition pos_to_string (ds : list Z) (n : Z) : string :=
  let k := Z.of_nat (length ds) in
  if ((k <=? n) && (n <=? 21))%Z then (digits_string ds +:+ zeros (n - k))%string
  else if ((0 <? n) && (n <=? 21))%Z then
    (digits_string (take (Z.to_nat n) ds) +:+ "." +:+ digits_string (drop (Z.to_nat n) ds))%string
  else if ((-6 <? n) && (n <=? 0))%Z then ("0." +:+ zeros (- n) +:+ digits_string ds)%string
  else match ds with
       | [d] => (digits_string [d] +:+ "e" +:+ exp_string (n - 1))%string
       | d :: rest => (digits_string [d] +:+ "." +:+ digits_string rest +:+ "e"
                        +:+ exp_string (n - 1))%string
       | [] => "0"
       end.

Definition num_to_string (x : jsnum) : string :=
  match x with
  | NNaN => "NaN"
  | NInf false => "Infinity"
  | NInf true => "-Infinity"
  | NFin m e =>
      if (m =? 0)%Z then "0" else
      let '(ds, e') := drop_low_zeros (digits_lsf (Z.abs m)) e in
      ((if (m <? 0)%Z then "-" else "") +:+
         pos_to_string (rev ds) (e' + Z.of_nat (length ds)))%string
  end.

(** ** Lemmas: decimal digits *)

Lemma size_nat_bound p : (Z.pos p < 2 ^ Z.of_nat (Pos.size_nat p))%Z.
Proof.
  induction p as [p IH|p IH|]; simpl Pos.size_nat; rewrite ?Nat2Z.inj_succ, ?Z.pow_succ_r by lia;
    [rewrite Pos2Z.inj_xI|rewrite Pos2Z.inj_xO|]; lia.
Qed.

Lemma digits_value_snoc ds d : digits_value 10 (ds ++ [d]) = (10 * digits_value 10 ds + d)%Z.
Proof. unfold digits_value. rewrite fold_left_app. simpl. lia. Qed.

Lemma digits_rev_value f n :
  (0 <= n < 10 ^ Z.of_nat f)%Z -> digits_value 10 (rev (digits_rev f n)) = n.
Proof.
  revert n; induction f as [|f IH]; intros n Hn; simpl.
  - simpl in Hn. unfold digits_value. simpl. lia.
  - destruct (Z.leb_spec n 0); [unfold digits_value; simpl; lia|].
    rewrite Nat2Z.inj_succ, Z.pow_succ_r in Hn by lia.
    cbn [rev]. rewrite digits_value_snoc, IH; [|split; [apply Z.div_pos|apply Z.div_lt_upper_bound]; lia].
    pose proof (Z.div_mod n 10). lia.
Qed.

Lemma digits_rev_range f n : Forall (fun d => (0 <= d < 10)%Z) (digits_rev f n).
Proof.
  revert n; induction f as [|f IH]; intros n; simpl; [constructor|].
  destruct (n <=? 0)%Z; constructor; [|apply IH]. apply Z.mod_pos_bound. lia.
Qed.

Lemma digits_rev_length f n (m : nat) :
  (n < 10 ^ Z.of_nat m)%Z -> (length (digits_rev f n) <= m)%nat.
Proof.
  revert n m; induction f as [|f IH]; intros n m Hn; simpl; [lia|].
  destruct (Z.leb_spec n 0); simpl; [lia|].
  destruct m as [|m]; [simpl in Hn; lia|].
  rewrite Nat2Z.inj_succ, Z.pow_succ_r in Hn by lia.
  enough (length (digits_rev f (n / 10)) <= m)%nat by lia.
  apply IH. apply Z.div_lt_upper_bound; lia.
Qed.

Lemma pow2_le_pow10 (f : nat) : (2 ^ Z.of_nat f <= 10 ^ Z.of_nat f)%Z.
Proof. apply Z.pow_le_mono_l. lia. Qed.

(** The digits of [n > 0] read back as [n]. *)
Lemma digits_lsf_value n : (0 < n)%Z -> digits_value 10 (rev (digits_lsf n)) = n.
Proof.
  intros Hn. unfold digits_lsf. apply digits_rev_value.
  pose proof (size_nat_bound (Z.to_pos n)). pose proof (pow2_le_pow10 (Pos.size_nat (Z.to_pos n))).
  rewrite Z2Pos.id in * by lia. lia.
Qed.

Lemma drop_low_zeros_spec ds e ds' e' :
  drop_low_zeros ds e = (ds', e') ->
  (e <= e')%Z /\ ds = repeat 0%Z (Z.to_nat (e' - e)) ++ ds'.
Proof.
  revert e; induction ds as [|d ds IH]; intros e; simpl.
  - intros [= <- <-]. split; [lia|]. by rewrite Z.sub_diag.
  - destruct d as [|p|p]; [|intros [= <- <-]; split; [lia|by rewrite Z.sub_diag]..].
    intros H. destruct (IH _ H) as [He ->]. split; [lia|].
    replace (Z.to_nat (e' - e)) with (S (Z.to_nat (e' - (e + 1)))) by lia. done.
Qed.

Lemma digits_string_app a b :
  digits_string (a ++ b) = (digits_string a +:+ digits_string b)%string.
Proof. unfold digits_string. by rewrite fmap_app, string_of_list_ascii_app. Qed.

Lemma digits_string_zeros (t : nat) : digits_string (repeat 0%Z t) = zeros (Z.of_nat t).
Proof.
  unfold digits_string, zeros. rewrite Nat2Z.id. f_equal.
  induction t as [|t IH]; simpl; [done|by rewrite IH].
Qed.

Lemma digit_cases d :
  (0 <= d < 10)%Z ->
  d = 0%Z \/ d = 1%Z \/ d = 2%Z \/ d = 3%Z \/ d = 4%Z \/ d = 5%Z \/ d = 6%Z \/
  d = 7%Z \/ d = 8%Z \/ d = 9%Z.
Proof. lia. Qed.

(** The most significant digit of [n > 0] is not 0. *)
Lemma digits_rev_head f n :
  (0 < n < 10 ^ Z.of_nat f)%Z ->
  exists d D', rev (digits_rev f n) = d :: D' /\ (1 <= d <= 9)%Z.
Proof.
  revert n; induction f as [|f IH]; intros n Hn; [simpl in Hn; lia|].
  rewrite Nat2Z.inj_succ, Z.pow_succ_r in Hn by lia. simpl.
  destruct (Z.leb_spec n 0); [lia|].
  destruct (Z.eq_dec (n / 10) 0) as [Hq|Hq].
  - destruct f; simpl; [|rewrite Hq; simpl];
      exists (n mod 10)%Z, []; (split; [done|]);
      pose proof (Z.div_mod n 10); pose proof (Z.mod_pos_bound n 10); lia.
  - destruct (IH (n / 10)%Z) as (d & D' & HD & Hd).
    + split; [|apply Z.div_lt_upper_bound; lia].
      assert (0 <= n / 10)%Z by (apply Z.div_pos; lia). lia.
    + exists d, (D' ++ [(n mod 10)%Z]). cbn [rev]. rewrite HD. done.
Qed.

Lemma digits_lsf_head n :
  (0 < n)%Z -> exists d D', rev (digits_lsf n) = d :: D' /\ (1 <= d <= 9)%Z.
Proof.
  intros Hn. apply digits_rev_head. split; [done|].
  pose proof (size_nat_bound (Z.to_pos n)). pose proof (pow2_le_pow10 (Pos.size_nat (Z.to_pos n))).
  rewrite Z2Pos.id in * by lia. lia.
Qed.

(** [Number::toString] of an integer below [10^21] is its decimal
    representation. *)
Lemma num_to_string_int z :
  z <> 0%Z -> (Z.abs z < 10 ^ 21)%Z ->
  num_to_string (NFin z 0) =
    ((if (z <? 0)%Z then "-" else "") +:+ digits_string (rev (digits_lsf (Z.abs z))))%string.
Proof.
  intros Hz Hb. unfold num_to_string. rewrite (proj2 (Z.eqb_neq _ _) Hz).
  destruct (drop_low_zeros (digits_lsf (Z.abs z)) 0) as [ds e'] eqn:Hd.
  destruct (drop_low_zeros_spec _ _ _ _ Hd) as [He Hds].
  assert (Hlen : (length (digits_lsf (Z.abs z)) <= 21)%nat)
    by (apply digits_rev_length; simpl; lia).
  f_equal. rewrite Hds in Hlen |- *. rewrite length_app, repeat_length in Hlen.
  unfold pos_to_string. rewrite length_rev.
  replace ((Z.of_nat (length ds) <=? e' + Z.of_nat (length ds)) &&
           (e' + Z.of_nat (length ds) <=? 21))%Z with true by (symmetry; apply andb_true_iff; lia).
  rewrite rev_app_distr, rev_repeat, digits_string_app, digits_string_zeros.
  f_equal. f_equal. lia.
Qed.

Lemma char_of_digit_facts d :
  (0 <= d < 10)%Z ->
  digit_val 10 (char_of_digit d) = Some d /\ is_ws (char_of_digit d) = false /\
  char_of_digit d <> "I"%char.
Proof. intros Hd. apply digit_cases in Hd. destruct_or! Hd; subst; done. Qed.

Lemma take_digits_all D :
  Forall (fun d => (0 <= d < 10)%Z) D -> take_digits 10 (map char_of_digit D) = (D, []).
Proof.
  induction 1 as [|d D Hd HD IH]; [done|]. cbn [map take_digits].
  destruct (char_of_digit_facts d Hd) as [-> _]. by rewrite IH.
Qed.

Lemma drop_ws_id l : Forall (fun c => is_ws c = false) l -> drop_ws l = l.
Proof. destruct 1 as [|c l Hc _]; simpl; [done|by rewrite Hc]. Qed.

Lemma trim_id l : Forall (fun c => is_ws c = false) l -> trim l = l.
Proof.
  intros Hl. unfold trim. rewrite (drop_ws_id l Hl).
  rewrite drop_ws_id; [apply rev_involutive|]. by apply List.Forall_rev.
Qed.

Lemma parse_unsigned_digits D :
  D <> [] -> Forall (fun d => (0 <= d < 10)%Z) D ->
  parse_unsigned (map char_of_digit D) = Some (inl (digits_value 10 D, 0%Z)).
Proof.
  intros Hne HD. unfold parse_unsigned.
  rewrite decide_False.
  2:{ destruct D as [|d D]; [done|]. apply Forall_cons_iff in HD as [Hd _].
      destruct (char_of_digit_facts d Hd) as (_ & _ & HI). simpl. by intros [= ?]. }
  rewrite take_digits_all by done. simpl.
  destruct D; [done|]. simpl. by rewrite app_nil_r.
Qed.

(** [Number] reads back the decimal representation [toString] prints. *)
Lemma js_Number_digits (neg : bool) d D :
  (1 <= d <= 9)%Z -> Forall (fun x => (0 <= x < 10)%Z) D ->
  js_Number ((if neg then "-" else "") +:+ digits_string (d :: D))%string =
  NFin (if neg then - digits_value 10 (d :: D) else digits_value 10 (d :: D))%Z 0.
Proof.
  intros Hd HD.
  assert (HdD : Forall (fun x => (0 <= x < 10)%Z) (d :: D)) by (constructor; [lia|done]).
  pose proof (parse_unsigned_digits (d :: D) ltac:(done) HdD) as Hp.
  assert (Hws : Forall (fun c => is_ws c = false) (map char_of_digit (d :: D))).
  { apply Forall_map. eapply Forall_impl; [exact HdD|]. intros x Hx.
    apply (char_of_digit_facts x Hx). }
  unfold js_Number. rewrite list_ascii_of_string_append. unfold digits_string.
  rewrite String.list_ascii_of_string_of_list_ascii.
  destruct neg; simpl String.list_ascii_of_string; simpl app;
    (rewrite trim_id; [|first [exact Hws|constructor; [reflexivity|exact Hws]]]);
    cbn [map] in Hp |- *;
    assert (Hd' : d = 1%Z \/ d = 2%Z \/ d = 3%Z \/ d = 4%Z \/ d = 5%Z \/ d = 6%Z \/
                  d = 7%Z \/ d = 8%Z \/ d = 9%Z) by lia;
    destruct_or! Hd'; subst d;
    match goal with
    | |- context [char_of_digit ?x] =>
        let c := eval vm_compute in (char_of_digit x) in
        change (char_of_digit x) with c in Hp |- *
    end;
    cbv beta iota; unfold parse_decimal; cbv beta iota; by rewrite Hp.
Qed.

(** [Number] of any non-empty digit string, leading zeros included, is
    its decimal value: [0] followed by a digit is not a radix prefix. *)
Lemma js_Number_digit_string D :
  D <> [] -> Forall (fun x => (0 <= x < 10)%Z) D ->
  js_Number (digits_string D) = NFin (digits_value 10 D) 0.
Proof.
  destruct D as [|d D]; [done|]. intros _ HD.
  pose proof HD as [Hd HD']%Forall_cons_iff.
  destruct (Z.eq_dec d 0) as [->|Hd0].
  2:{ pose proof (js_Number_digits false d D ltac:(lia) HD') as H. exact H. }
  assert (Hws : Forall (fun c => is_ws c = false) (map char_of_digit (0%Z :: D))).
  { apply Forall_map. eapply Forall_impl; [exact HD|]. intros x Hx.
    apply (char_of_digit_facts x Hx). }
  unfold js_Number, digits_string. rewrite String.list_ascii_of_string_of_list_ascii.
  rewrite trim_id by exact Hws.
  destruct D as [|d' D]; [reflexivity|].
  apply Forall_cons_iff in HD' as [Hd' _].
  assert (Hp := parse_unsigned_digits (0%Z :: d' :: D) ltac:(done) HD).
  cbn [map] in Hp |- *. change (char_of_digit 0) with "0"%char in Hp |- *.
  apply digit_cases in Hd'. destruct_or! Hd'; subst d';
    match goal with
    | |- context [char_of_digit ?x] =>
        let c := eval vm_compute in (char_of_digit x) in
        change (char_of_digit x) with c in Hp |- *
    end;
    cbv beta iota; unfold parse_decimal; cbv beta iota; by rewrite Hp.
Qed.

(** [Number] reads back the signed decimal text of every integer. *)
Lemma js_Number_dec_text z :
  js_Number ((if (z <? 0)%Z then "-" else "") +:+ z_to_dec (Z.abs z))%string = NFin z 0.
Proof.
  destruct (Z.eq_dec z 0) as [->|Hz]; [reflexivity|].
  unfold z_to_dec. rewrite (proj2 (Z.leb_gt _ _)) by lia.
  destruct (digits_lsf_head (Z.abs z)) as (d & D & HD & Hd); [lia|].
  pose proof (digits_lsf_value (Z.abs z)) as Hv. rewrite HD in Hv.
  assert (Hr : Forall (fun x => (0 <= x < 10)%Z) D).
  { pose proof (digits_rev_range (Pos.size_nat (Z.to_pos (Z.abs z))) (Z.abs z)) as Hr.
    apply List.Forall_rev in Hr. unfold digits_lsf in HD. rewrite HD in Hr.
    by apply Forall_cons_iff in Hr as [_ Hr]. }
  rewrite HD. destruct (Z.ltb_spec z 0);
    [rewrite (js_Number_digits true) by done|rewrite (js_Number_digits false) by done];
    rewrite Hv by lia; f_equal; lia.
Qed.

(** ** Round trip *)

(** Below [10^21], [Number::toString] of an integer is its signed decimal
    text. *)
Lemma num_to_string_dec z :
  (Z.abs z < 10 ^ 21)%Z ->
  num_to_string (NFin z 0) = ((if (z <? 0)%Z then "-" else "") +:+ z_to_dec (Z.abs z))%string.
Proof.
  intros Hb. destruct (Z.eq_dec z 0) as [->|Hz]; [reflexivity|].
  rewrite num_to_string_int by done. unfold z_to_dec.
  by rewrite (proj2 (Z.leb_gt _ _)) by lia.
Qed.

