(* ===== verification/Http.v ===== *)
(** * Requests, responses and middleware results

    What an Express handler of server.js and routes/students.js reads from
    [req] and writes to [res]: the method and path, the header and cookie
    tables that Node and cookie-parser build, the parsed body; the status,
    the JSON body and the cookies set or cleared.  A middleware such as
    [requireJwt] either answers the request or calls [next()] after
    setting [req.user]: a [guard] returns the response or the user. *)

From S2P Require Import Prelude JsValue.

Inductive http_method : Type :=
| GET | HEAD | POST | PUT | PATCH | DELETE | OPTIONS
| OTHER_METHOD (m : string).

#[export] Instance http_method_eq_dec : EqDecision http_method.
Proof. solve_decision. Defined.

(** [req.method] *)
Definition method_name (m : http_method) : string :=
  match m with
  | GET => "GET" | HEAD => "HEAD" | POST => "POST" | PUT => "PUT"
  | PATCH => "PATCH" | DELETE => "DELETE" | OPTIONS => "OPTIONS"
  | OTHER_METHOD s => s
  end.

(** The body after express.json(): parsed ([{}] when the request has no
    JSON body), or rejected by the parser, which passes an error with
    status 400 and a message to [next(err)]. *)
Inductive body_input : Type :=
| BodyJson (v : jsval)
| BodyMalformed (msg : string).

Record request : Type := mk_request {
  req_method : http_method;
  req_url : string;                       (** [req.originalUrl] *)
  req_path : list string;                 (** its path split at the slashes *)
  req_headers : list (string * string);   (** lower-cased names, first value kept *)
  req_cookies : list (string * string);   (** cookie-parser's [req.cookies] *)
  req_body : body_input
}.

(** [res.cookie(name, value, ...)] and [res.clearCookie(name)]. *)
Inductive cookie_op : Type :=
| SetCookie (name value : string)
| ClearCookie (name : string).

Record response : Type := mk_response {
  status : Z;
  resp_body : jsval;
  resp_cookies : list cookie_op
}.

(** [res.status(code).json(body)] *)
Definition json (code : Z) (body : jsval) : response := mk_response code body [].

(** [{ error: msg }] *)
Definition error_body (msg : string) : jsval := JObj [("error", JStr msg)].

(** A middleware run before a handler: [inl r] answers with [r], [inr u]
    calls [next()] with [req.user = u]. *)
Definition guard : Type := request -> response + jsval.

(** First binding of a key in a header or cookie table. *)
Fixpoint assoc_first (k : string) (l : list (string * string)) : option string :=
  match l with
  | [] => None
  | (k', v) :: l' => if String.eqb k' k then Some v else assoc_first k l'
  end.

(** [req.body] as the handlers see it. *)
Definition body_value (r : request) : jsval :=
  match req_body r with
  | BodyJson v => v
  | BodyMalformed _ => JUndefined
  end.
