(* ===== verification/Jwt.v ===== *)
(** * What server.js uses of jsonwebtoken

    [jwt.sign(payload, secret, { expiresIn })] and [jwt.verify(token,
    secret, callback)] as the class [TokenScheme]: its laws are what the
    library promises and what the guards of Auth.v rely on.  A fresh
    token verifies to its payload with [iat] and [exp] added, a token
    whose [exp] has been reached fails with ["jwt expired"], a token
    signed with another secret fails, and a compact token has no space
    (so that [split(" ")] of the Authorization header keeps it whole). *)

From S2P Require Import Prelude JsValue.

Local Open Scope string_scope.

(** [{ username, role }], the payload [/auth/login-jwt] signs. *)
Record claims : Type := mk_claims { c_username : string; c_role : string }.

(** What [jwt.verify] decodes: the payload with [iat] and [exp] added. *)
Definition decoded_to_js (c : claims) (iat exp : Z) : jsval :=
  JObj [("username", JStr (c_username c)); ("role", JStr (c_role c));
        ("iat", JNum iat); ("exp", JNum exp)].

Class TokenScheme : Type := {
  (** [jwt.sign(payload, secret, { expiresIn })] at time [iat] *)
  jwt_sign : claims -> string -> Z -> Z -> string;
  (** [jwt.verify(token, secret)] at time [now]: [err.message] or the
      decoded payload *)
  jwt_verify : string -> string -> Z -> string + jsval;
  jwt_verify_sign c sec iat life now :
    (now < iat + life)%Z ->
    jwt_verify (jwt_sign c sec iat life) sec now = inr (decoded_to_js c iat (iat + life));
  jwt_verify_expired c sec iat life now :
    (iat + life <= now)%Z ->
    jwt_verify (jwt_sign c sec iat life) sec now = inl "jwt expired";
  jwt_verify_secret c sec sec' iat life now :
    sec <> sec' -> exists msg, jwt_verify (jwt_sign c sec iat life) sec' now = inl msg;
  (** a compact JWT is base64url text and dots: no space *)
  jwt_sign_no_space c sec iat life :
    Forall (fun ch => ch <> space) (String.list_ascii_of_string (jwt_sign c sec iat life))
}.

