(* ===== verification/JwtModel.v ===== *)
(** * A token scheme satisfying the laws of [TokenScheme]

    jsonwebtoken is a library server.js only calls; Jwt.v states what it
    promises as the class [TokenScheme].  This file gives one instance,
    so that the theorems proved against the class can be run on concrete
    requests: a token is five fields joined by dots, the two claims, the
    signing secret (standing for the HMAC signature, which only the
    secret reproduces), [iat] and [exp], each written with the
    characters [0], [1], [h], [p], [n] and [z] only.  [toy_verify] checks
    the secret before the expiry, as [jwt.verify] checks the signature
    before [exp], and a token is expired when [now >= exp]. *)

From S2P Require Import Prelude JsValue Jwt.

Local Open Scope string_scope.

(** ** Encoding *)

Definition bit_char (b : bool) : ascii := if b then "1"%char else "0"%char.

Definition enc_char (c : ascii) : string :=
  match c with
  | Ascii b0 b1 b2 b3 b4 b5 b6 b7 =>
      String (bit_char b0) (String (bit_char b1) (String (bit_char b2) (String (bit_char b3)
      (String (bit_char b4) (String (bit_char b5) (String (bit_char b6) (String (bit_char b7)
      EmptyString)))))))
  end.

Fixpoint enc_str (s : string) : string :=
  match s with
  | EmptyString => EmptyString
  | String c s' => enc_char c +:+ enc_str s'
  end.

Definition char_bit (c : ascii) : option bool :=
  if Ascii.eqb c "1" then Some true else if Ascii.eqb c "0" then Some false else None.

Fixpoint dec_str (s : string) : option string :=
  match s with
  | EmptyString => Some EmptyString
  | String c0 (String c1 (String c2 (String c3 (String c4 (String c5 (String c6 (String c7 s'))))))) =>
      b0 ← char_bit c0; b1 ← char_bit c1; b2 ← char_bit c2; b3 ← char_bit c3;
      b4 ← char_bit c4; b5 ← char_bit c5; b6 ← char_bit c6; b7 ← char_bit c7;
      t ← dec_str s'; Some (String (Ascii b0 b1 b2 b3 b4 b5 b6 b7) t)
  | _ => None
  end.

Fixpoint enc_pos (p : positive) : string :=
  match p with
  | xI p' => String "1" (enc_pos p')
  | xO p' => String "0" (enc_pos p')
  | xH => "h"
  end.

Fixpoint dec_pos (s : string) : option positive :=
  match s with
  | EmptyString => None
  | String c s' =>
      if Ascii.eqb c "1" then xI <$> dec_pos s'
      else if Ascii.eqb c "0" then xO <$> dec_pos s'
      else if Ascii.eqb c "h" && String.eqb s' "" then Some xH
      else None
  end.

Definition enc_Z (z : Z) : string :=
  match z with
  | Z0 => "z"
  | Zpos p => String "p" (enc_pos p)
  | Zneg p => String "n" (enc_pos p)
  end.

Definition dec_Z (s : string) : option Z :=
  match s with
  | String c t =>
      if Ascii.eqb c "z" && String.eqb t "" then Some Z0
      else if Ascii.eqb c "p" then Zpos <$> dec_pos t
      else if Ascii.eqb c "n" then Zneg <$> dec_pos t
      else None
  | EmptyString => None
  end.

Definition dot : ascii := "."%char.

Definition toy_sign (c : claims) (secret : string) (iat life : Z) : string :=
  String.concat (String dot EmptyString)
    [enc_str (c_username c); enc_str (c_role c); enc_str secret; enc_Z iat; enc_Z (iat + life)].

Definition toy_verify (token secret : string) (now : Z) : string + jsval :=
  match js_split dot token with
  | [u; r; s; i; e] =>
      match dec_str u, dec_str r, dec_str s, dec_Z i, dec_Z e with
      | Some u', Some r', Some s', Some iat, Some exp =>
          if negb (String.eqb s' secret) then inl "invalid signature"
          else if (now <? exp)%Z then inr (decoded_to_js (mk_claims u' r') iat exp)
          else inl "jwt expired"
      | _, _, _, _, _ => inl "invalid token"
      end
  | _ => inl "jwt malformed"
  end.

(** Only the characters [0 1 h p n z] occur in an encoded field. *)
Definition field_char (ch : ascii) : Prop :=
  ch = "0"%char \/ ch = "1"%char \/ ch = "h"%char \/ ch = "p"%char \/ ch = "n"%char \/ ch = "z"%char.

Definition field_string (s : string) : Prop := Forall field_char (String.list_ascii_of_string s).

(** ** Round trips *)

Lemma dec_enc_str s : dec_str (enc_str s) = Some s.
Proof.
  induction s as [|[b0 b1 b2 b3 b4 b5 b6 b7] s IH]; [done|].
  cbn [enc_str enc_char]. rewrite !append_String.
  change (EmptyString +:+ ?t)%string with t. cbn [dec_str].
  rewrite IH. by destruct b0, b1, b2, b3, b4, b5, b6, b7.
Qed.

Lemma dec_enc_pos p : dec_pos (enc_pos p) = Some p.
Proof. induction p as [p IH|p IH|]; simpl; rewrite ?IH; done. Qed.

Lemma dec_enc_Z z : dec_Z (enc_Z z) = Some z.
Proof. destruct z as [|p|p]; simpl; rewrite ?dec_enc_pos; done. Qed.

Lemma field_string_app s t : field_string s -> field_string t -> field_string (s +:+ t).
Proof.
  unfold field_string. rewrite list_ascii_of_string_append. apply Forall_app_2.
Qed.

Lemma field_bit_char b : field_char (bit_char b).
Proof. unfold field_char. destruct b; auto. Qed.

Lemma field_enc_str s : field_string (enc_str s).
Proof.
  induction s as [|[b0 b1 b2 b3 b4 b5 b6 b7] s IH]; [constructor|].
  apply field_string_app; [|done].
  unfold field_string. cbn [enc_char String.list_ascii_of_string].
  repeat (apply Forall_cons_2; [apply field_bit_char|]). apply Forall_nil_2.
Qed.

Lemma field_enc_pos p : field_string (enc_pos p).
Proof.
  unfold field_string, field_char.
  induction p; simpl; constructor; auto 7.
Qed.

Lemma field_enc_Z z : field_string (enc_Z z).
Proof.
  pose proof (field_enc_pos). unfold field_string, field_char in *.
  destruct z; simpl; constructor; auto 7.
Qed.

Lemma field_no_char c s :
  ~ field_char c -> field_string s -> no_char c s.
Proof. intros Hc Hs. eapply Forall_impl; [exact Hs|]. intros ch Hch ->. done. Qed.

Lemma dot_not_field : ~ field_char dot.
Proof. unfold field_char, dot. intuition discriminate. Qed.

Lemma space_not_field : ~ field_char space.
Proof. unfold field_char, space. intuition discriminate. Qed.

#[export] Hint Resolve field_enc_str field_enc_Z : api.

Lemma toy_sign_split c secret iat life :
  js_split dot (toy_sign c secret iat life) =
    [enc_str (c_username c); enc_str (c_role c); enc_str secret; enc_Z iat; enc_Z (iat + life)].
Proof.
  apply js_split_concat.
  repeat constructor; apply field_no_char; auto using dot_not_field with api.
Qed.

Lemma toy_verify_sign c sec iat life now :
  toy_verify (toy_sign c sec iat life) sec now =
    if negb true then inl "invalid signature"
    else if (now <? iat + life)%Z then inr (decoded_to_js (mk_claims (c_username c) (c_role c)) iat (iat + life))
    else inl "jwt expired".
Proof.
  unfold toy_verify. rewrite toy_sign_split, !dec_enc_str, !dec_enc_Z.
  by rewrite String.eqb_refl.
Qed.

(** A token has only field characters and dots. *)
Lemma concat_dot_chars parts :
  Forall field_string parts ->
  Forall (fun ch => field_char ch \/ ch = dot)
         (String.list_ascii_of_string (String.concat (String dot EmptyString) parts)).
Proof.
  induction parts as [|x [|y l] IH]; intros Hp; [constructor|..];
    apply Forall_cons_iff in Hp as [Hx Hp].
  - cbn [String.concat]. eapply Forall_impl; [exact Hx|]. by left.
  - rewrite concat_cons2, list_ascii_of_string_append. apply Forall_app_2.
    + eapply Forall_impl; [exact Hx|]. by left.
    + change (String dot EmptyString +:+ ?t)%string with (String dot t).
      constructor; [by right|]. by apply IH.
Qed.

Lemma toy_sign_chars c secret iat life :
  Forall (fun ch => field_char ch \/ ch = dot)
         (String.list_ascii_of_string (toy_sign c secret iat life)).
Proof. apply concat_dot_chars. repeat constructor; auto with api. Qed.

Definition toy_token_scheme : TokenScheme.
Proof.
  refine {| jwt_sign := toy_sign; jwt_verify := toy_verify |}.
  - intros [u r] sec iat life now Hnow. rewrite toy_verify_sign.
    simpl. by destruct (Z.ltb_spec now (iat + life)); [|lia].
  - intros [u r] sec iat life now Hnow. rewrite toy_verify_sign.
    simpl. by destruct (Z.ltb_spec now (iat + life)); [lia|].
  - intros c sec sec' iat life now Hne. unfold toy_verify.
    rewrite toy_sign_split, !dec_enc_str, !dec_enc_Z.
    apply String.eqb_neq in Hne. rewrite Hne. by eexists.
  - intros c sec iat life. eapply Forall_impl; [apply toy_sign_chars|].
    intros ch [Hf| ->]; [intros ->; by apply space_not_field|done].
Defined.
