(* ===== verification/Student.v ===== *)
(** * Student records and the validation engine (routes/students.js)

    A stored student is the object literal [{ id, name, age, email,
    isActive }] built by POST and PUT.  The handlers validate the body
    fields with the conditions of routes/students.js lines 68-79 (POST;
    PUT repeats them at lines 136-147, collecting every message), check
    the fields of a PATCH one at a time (lines 203-249), and search the
    store for an e-mail that is equal up to case (lines 89-91, 157-160,
    228-232). *)

From S2P Require Import Prelude JsValue JsNumber.

Record Student : Type := mk_student {
  sid : Z;            (** [id] *)
  name : string;
  age : Z;
  email : string;
  isActive : bool
}.

#[export] Instance Student_eq_dec : EqDecision Student.
Proof. solve_decision. Defined.

(** [res.json(student)]: the keys in the order of the object literal. *)
Definition student_to_js (s : Student) : jsval :=
  JObj [("id", JNum (sid s)); ("name", JStr (name s)); ("age", JNum (age s));
        ("email", JStr (email s)); ("isActive", JBool (isActive s))].

(** ** Field extraction: [const { name, age, email, isActive } = req.body || {}] *)

Record fields : Type := mk_fields {
  f_name : jsval; f_age : jsval; f_email : jsval; f_isActive : jsval
}.

Definition body_fields (body : jsval) : fields :=
  let b := body_or_empty body in
  mk_fields (get_prop b "name") (get_prop b "age") (get_prop b "email")
            (get_prop b "isActive").

(** ** The conditions of the POST and PUT validation *)

(** [!name || typeof name !== "string"] (also for [email]) *)
Definition string_field_invalid (v : jsval) : bool :=
  negb (truthy v) || negb (bool_decide (typeof v = TString)).

(** [age <= 0] on a number *)
Definition num_le_zero (v : jsval) : bool :=
  match v with JNum n => (n <=? 0)%Z | _ => false end.

Definition is_undefined (v : jsval) : bool :=
  match v with JUndefined => true | _ => false end.

(** [age === undefined || typeof age !== "number" || age <= 0] *)
Definition age_invalid (v : jsval) : bool :=
  is_undefined v || negb (bool_decide (typeof v = TNumber)) || num_le_zero v.

(** [typeof isActive !== "boolean"] *)
Definition isActive_invalid (v : jsval) : bool :=
  negb (bool_decide (typeof v = TBoolean)).

Definition msg_name : string := "name is required and must be a string".
Definition msg_age : string := "age is required and must be a positive number".
Definition msg_email : string := "email is required and must be a string".
Definition msg_isActive : string := "isActive is required and must be a boolean".

(** The [errors] array after the four [if (...) errors.push(...)]. *)
Definition validation_errors (f : fields) : list string :=
  (if string_field_invalid (f_name f) then [msg_name] else []) ++
  (if age_invalid (f_age f) then [msg_age] else []) ++
  (if string_field_invalid (f_email f) then [msg_email] else []) ++
  (if isActive_invalid (f_isActive f) then [msg_isActive] else []).

(** The typed field values, read once the checks have passed. *)
Record payload : Type := mk_payload {
  p_name : string; p_age : Z; p_email : string; p_isActive : bool
}.

(** [if (errors.length > 0) return 400 ...]; otherwise the values. *)
Definition validate_full (f : fields) : list string + payload :=
  match validation_errors f with
  | [] =>
      match f_name f, f_age f, f_email f, f_isActive f with
      | JStr n, JNum a, JStr e, JBool b => inr (mk_payload n a e b)
      | _, _, _, _ => inl []
      end
  | errs => inl errs
  end.

Definition with_id (i : Z) (p : payload) : Student :=
  mk_student i (p_name p) (p_age p) (p_email p) (p_isActive p).

(** ** The e-mail searches *)

(** [s.email.toLowerCase() === email.toLowerCase()] *)
Definition same_email (e : string) (s : Student) : bool :=
  String.eqb (js_toLowerCase (email s)) (js_toLowerCase e).

(** POST: [students.find(s => same email)] *)
Definition find_dup (l : list Student) (e : string) : option Student :=
  js_find (same_email e) l.

(** PUT, PATCH: [students.find(s => same email && s.id !== id)] *)
Definition find_dup_other (l : list Student) (e : string) (i : jsnum) : option Student :=
  js_find (fun s => same_email e s && negb (num_eq_int i (sid s))) l.

(** ** Lemmas *)

Lemma same_email_ci e s : same_email e s = true <-> ci_equiv (email s) e.
Proof. unfold same_email. rewrite String.eqb_eq. done. Qed.

#[export] Instance same_email_proper : Proper (ci_equiv ==> eq ==> eq) same_email.
Proof. intros e e' He s ? <-. unfold same_email. by rewrite He. Qed.

Lemma validation_errors_nil f :
  validation_errors f = [] <->
  string_field_invalid (f_name f) = false /\ age_invalid (f_age f) = false /\
  string_field_invalid (f_email f) = false /\ isActive_invalid (f_isActive f) = false.
Proof.
  unfold validation_errors.
  repeat match goal with |- context [if ?b then _ else _] => destruct b end;
    simpl; naive_solver.
Qed.

Lemma string_field_valid v :
  string_field_invalid v = false <-> exists s, v = JStr s /\ s <> ""%string.
Proof.
  unfold string_field_invalid. rewrite orb_false_iff, !negb_false_iff, bool_decide_eq_true.
  split.
  - intros [Ht Hty]. destruct v; try discriminate. eexists; split; [done|].
    by apply truthy_str.
  - intros (s & -> & Hs). split; [by apply truthy_str|done].
Qed.

Lemma age_valid v : age_invalid v = false <-> exists n, v = JNum n /\ (0 < n)%Z.
Proof.
  unfold age_invalid. rewrite !orb_false_iff, negb_false_iff, bool_decide_eq_true.
  split.
  - intros [[_ Hty] Hle]. destruct v; try discriminate. simpl in Hle.
    exists n. split; [done|]. apply Z.leb_gt. done.
  - intros (n & -> & Hn). simpl. split; [done|]. apply Z.leb_gt. done.
Qed.

Lemma isActive_valid v : isActive_invalid v = false <-> exists b, v = JBool b.
Proof.
  unfold isActive_invalid. rewrite negb_false_iff, bool_decide_eq_true.
  split; [destruct v; try discriminate; eauto | intros [b ->]; done].
Qed.

(** The validation accepts exactly the well-typed fields with a non-empty
    name and e-mail and a positive age; the collected messages are then
    empty. *)
Lemma validate_full_inr f p :
  validate_full f = inr p <->
  f = mk_fields (JStr (p_name p)) (JNum (p_age p)) (JStr (p_email p)) (JBool (p_isActive p)) /\
  p_name p <> ""%string /\ (0 < p_age p)%Z /\ p_email p <> ""%string.
Proof.
  destruct f as [n a e b]. unfold validate_full.
  destruct (validation_errors _) eqn:E.
  - apply validation_errors_nil in E as (Hn & Ha & He & Hb); simpl in *.
    apply string_field_valid in Hn as (sn & -> & ?), He as (se & -> & ?).
    apply age_valid in Ha as (na & -> & ?). apply isActive_valid in Hb as [bb ->].
    split; [intros [= <-]; simpl; done|].
    destruct p; simpl; intros ([= -> -> -> ->] & _); done.
  - split; [discriminate|]. destruct p as [pn pa pe pb]; simpl.
    intros ([= -> -> -> ->] & ? & ? & ?).
    assert (validation_errors (mk_fields (JStr pn) (JNum pa) (JStr pe) (JBool pb)) = [])
      as E'; [|congruence].
    apply validation_errors_nil; simpl.
    rewrite string_field_valid, age_valid, string_field_valid, isActive_valid.
    naive_solver.
Qed.

Lemma validate_full_inl f errs :
  validate_full f = inl errs -> errs = validation_errors f /\ errs <> [].
Proof.
  destruct f as [n a e b]. unfold validate_full.
  destruct (validation_errors _) eqn:E; [|intros [= <-]; done].
  apply validation_errors_nil in E as (Hn & Ha & He & Hb); simpl in *.
  apply string_field_valid in Hn as (? & -> & _), He as (? & -> & _).
  apply age_valid in Ha as (? & -> & _). apply isActive_valid in Hb as [? ->].
  discriminate.
Qed.

Lemma validate_full_errors f :
  validation_errors f <> [] -> validate_full f = inl (validation_errors f).
Proof. unfold validate_full. destruct (validation_errors f); [done|reflexivity]. Qed.

Lemma age_invalid_msg f : age_invalid (f_age f) = true -> msg_age ∈ validation_errors f.
Proof.
  intros H. unfold validation_errors. rewrite H.
  rewrite !elem_of_app. right; left. by apply list_elem_of_singleton.
Qed.

Lemma num_le_zero_age_invalid a : (a <= 0)%Z -> age_invalid (JNum a) = true.
Proof. intros Ha. unfold age_invalid. simpl. apply Z.leb_le in Ha. by rewrite Ha. Qed.
