(* ===== verification/JsonText.v ===== *)
(** * The text of data/students.json (routes/students.js lines 10-24)

    [saveStudents] writes [JSON.stringify(students, null, 2)] and
    [loadStudents] reads the file back with [JSON.parse], falling back to
    the empty array when reading or parsing throws.  Store.v abstracts the
    file as the list it encodes; this file models the text: the printer
    [stringify] (the ECMAScript [SerializeJSONProperty] with a gap of two
    spaces) and the parser [JSON_parse] (the JSON grammar of ECMA-404), and
    proves that what a save writes a restart reads back.

    Characters are Latin-1 code units as everywhere in the development;
    numbers are exact integers ([JNum]).  The parser therefore reports
    [Unrepresentable] for a number whose value is not an integer and for a
    [\u] escape above U+00FF, where [JSON.parse] succeeds with a value the
    model has no room for; every other failure is the [SyntaxError]
    [JSON.parse] throws.  The parser recurses with fuel [2 * length + 2],
    which is enough for every input ([parse_consumes]). *)

From S2P Require Import Prelude JsValue JsNumber Student.

Local Open Scope list_scope.

(** ** Characters *)

Definition dq : ascii := "034"%char.   (** the double quote *)
Definition bs : ascii := "092"%char.   (** the backslash *)
Definition nl : ascii := "010"%char.   (** line feed *)

(** JSON white space: tab, line feed, carriage return, space. *)
Definition is_json_ws (c : ascii) : bool :=
  let n := nat_of_ascii c in (n =? 9) || (n =? 10) || (n =? 13) || (n =? 32).

(** A lower-case hexadecimal digit, as [JSON.stringify] writes them. *)
Definition hex_char (d : nat) : ascii :=
  if d <? 10 then ascii_of_nat (48 + d) else ascii_of_nat (87 + d).

(** ** [JSON.stringify(value, null, 2)] *)

(** QuoteJSONString: the short escapes, [\u00XX] for the other control
    characters, every other code unit as it is. *)
Definition escape_char (c : ascii) : list ascii :=
  let n := nat_of_ascii c in
  if n =? 8 then [bs; "b"%char] else if n =? 9 then [bs; "t"%char]
  else if n =? 10 then [bs; "n"%char] else if n =? 12 then [bs; "f"%char]
  else if n =? 13 then [bs; "r"%char] else if n =? 34 then [bs; dq]
  else if n =? 92 then [bs; bs]
  else if n <? 32 then [bs; "u"%char; "0"%char; "0"%char; hex_char (n / 16); hex_char (n mod 16)]
  else [c].

Definition quote (s : string) : list ascii :=
  dq :: flat_map escape_char (String.list_ascii_of_string s) ++ [dq].

(** The indentation of nesting level [k]: [k] times the gap. *)
Definition indent (k : nat) : list ascii := repeat " "%char (2 * k).

Fixpoint join_with (sep : list ascii) (ps : list (list ascii)) : list ascii :=
  match ps with
  | [] => []
  | [p] => p
  | p :: ps' => p ++ sep ++ join_with sep ps'
  end.

Definition lit (s : string) : list ascii := String.list_ascii_of_string s.

(** An array or object at nesting level [k] from the texts of its
    elements or members: [[]] or [{}] when there are none, otherwise one
    per line, indented one level deeper, the closing bracket on a line of
    its own at level [k]. *)
Definition wrap (o c : ascii) (k : nat) (parts : list (list ascii)) : list ascii :=
  match parts with
  | [] => [o; c]
  | _ => o :: nl :: indent (S k) ++ join_with (","%char :: nl :: indent (S k)) parts
           ++ nl :: indent k ++ [c]
  end.

(** SerializeJSONProperty at nesting level [k]: [undefined] in an array
    is written [null], a property whose value is [undefined] is left
    out. *)
Fixpoint print_value (k : nat) (v : jsval) : list ascii :=
  match v with
  | JUndefined | JNull => lit "null"
  | JBool b => lit (if b then "true" else "false")
  | JNum n => lit (num_to_string (NFin n 0))
  | JStr s => quote s
  | JArr vs =>
      wrap "["%char "]"%char k
        ((fix go (l : list jsval) : list (list ascii) :=
            match l with
            | [] => []
            | x :: l' => print_value (S k) x :: go l'
            end) vs)
  | JObj fs =>
      wrap "{"%char "}"%char k
        ((fix go (l : list (string * jsval)) : list (list ascii) :=
            match l with
            | [] => []
            | (key, JUndefined) :: l' => go l'
            | (key, x) :: l' => (quote key ++ [":"%char; " "%char] ++ print_value (S k) x) :: go l'
            end) fs)
  end.

(** The text of the member [key: x] at nesting level [k]. *)
Definition member_text (k : nat) (key : string) (x : jsval) : list ascii :=
  quote key ++ [":"%char; " "%char] ++ print_value k x.

(** [JSON.stringify(v, null, 2)]: [undefined] at the top gives
    [undefined] ([None]). *)
Definition stringify (v : jsval) : option string :=
  match v with
  | JUndefined => None
  | _ => Some (String.string_of_list_ascii (print_value 0 v))
  end.

(** ** [JSON.parse(text)] *)

Inductive perr : Type :=
| SyntaxError
| Unrepresentable
| OutOfFuelJ.

Definition pres (A : Type) : Type := perr + A.

#[export] Instance pres_ret : MRet pres := fun _ x => inr x.
#[export] Instance pres_bind : MBind pres := fun _ _ k m =>
  match m with inl e => inl e | inr x => k x end.

Fixpoint skip_ws (l : list ascii) : list ascii :=
  match l with
  | c :: r => if is_json_ws c then skip_ws r else l
  | [] => []
  end.

(** The rest of a literal ([ull] after [n], ...). *)
Fixpoint expect (w l : list ascii) : pres (list ascii) :=
  match w with
  | [] => inr l
  | c :: w' =>
      match l with
      | x :: l' => if Ascii.eqb x c then expect w' l' else inl SyntaxError
      | [] => inl SyntaxError
      end
  end.

(** The one-character escapes. *)
Definition unescape (e : ascii) : option ascii :=
  let n := nat_of_ascii e in
  if n =? 34 then Some dq else if n =? 92 then Some bs else if n =? 47 then Some e
  else if Ascii.eqb e "b" then Some (ascii_of_nat 8) else if Ascii.eqb e "f" then Some (ascii_of_nat 12)
  else if Ascii.eqb e "n" then Some (ascii_of_nat 10) else if Ascii.eqb e "r" then Some (ascii_of_nat 13)
  else if Ascii.eqb e "t" then Some (ascii_of_nat 9) else None.

(** The characters of a string after its opening quote, and the input
    after its closing quote. *)
Fixpoint p_string (l : list ascii) : pres (list ascii * list ascii) :=
  match l with
  | [] => inl SyntaxError
  | c :: r =>
      if Ascii.eqb c dq then inr ([], r)
      else if Ascii.eqb c bs then
        match r with
        | [] => inl SyntaxError
        | e :: r' =>
            if Ascii.eqb e "u" then
              match r' with
              | h1 :: h2 :: h3 :: h4 :: r'' =>
                  match digit_val 16 h1, digit_val 16 h2, digit_val 16 h3, digit_val 16 h4 with
                  | Some a, Some b, Some c', Some d =>
                      let n := (a * 4096 + b * 256 + c' * 16 + d)%Z in
                      if (n <? 256)%Z then
                        '(s, rest) ← p_string r''; inr (ascii_of_nat (Z.to_nat n) :: s, rest)
                      else inl Unrepresentable
                  | _, _, _, _ => inl SyntaxError
                  end
              | _ => inl SyntaxError
              end
            else
              match unescape e with
              | Some x => '(s, rest) ← p_string r'; inr (x :: s, rest)
              | None => inl SyntaxError
              end
        end
      else if nat_of_ascii c <? 32 then inl SyntaxError
      else '(s, rest) ← p_string r; inr (c :: s, rest)
  end.

(** A value given by a decimal mantissa and exponent, if it is an
    integer. *)
Definition int_of_dec (m e : Z) : option Z :=
  if (0 <=? e)%Z then Some (m * 10 ^ e)%Z
  else if (m mod 10 ^ (- e) =? 0)%Z then Some (m / 10 ^ (- e))%Z
  else None.

(** A non-empty digit sequence. *)
Definition p_digits (l : list ascii) : pres (list Z * list ascii) :=
  match take_digits 10 l with
  | ([], _) => inl SyntaxError
  | p => inr p
  end.

(** [-? (0 | [1-9][0-9]* ) (. [0-9]+)? ([eE] [+-]? [0-9]+)?] *)
Definition p_number (l : list ascii) : pres (jsval * list ascii) :=
  let '(neg, l1) := match l with
                    | c :: r => if Ascii.eqb c "-" then (true, r) else (false, l)
                    | [] => (false, l)
                    end in
  '(ip, l2) ← match l1 with
              | c :: r => if Ascii.eqb c "0" then inr ([0%Z], r) else p_digits l1
              | [] => inl SyntaxError
              end;
  '(fp, l3) ← match l2 with
              | c :: r => if Ascii.eqb c "." then p_digits r else inr ([], l2)
              | [] => inr ([], l2)
              end;
  '(ex, l4) ← match l3 with
              | c :: r =>
                  if Ascii.eqb c "e" || Ascii.eqb c "E" then
                    let '(sg, r1) := match r with
                                     | s :: r' => if Ascii.eqb s "+" then (1%Z, r')
                                                  else if Ascii.eqb s "-" then ((-1)%Z, r')
                                                  else (1%Z, r)
                                     | [] => (1%Z, r)
                                     end in
                    '(ds, r2) ← p_digits r1; inr ((sg * digits_value 10 ds)%Z, r2)
                  else inr (0%Z, l3)
              | [] => inr (0%Z, l3)
              end;
  match int_of_dec (digits_value 10 (ip ++ fp)) (ex - Z.of_nat (length fp)) with
  | Some z => inr (JNum (if neg then - z else z)%Z, l4)
  | None => inl Unrepresentable
  end.

Fixpoint p_value (fuel : nat) (l : list ascii) : pres (jsval * list ascii) :=
  match fuel with
  | O => inl OutOfFuelJ
  | S f =>
      match skip_ws l with
      | [] => inl SyntaxError
      | c :: r =>
          if Ascii.eqb c "n" then r' ← expect (lit "ull") r; inr (JNull, r')
          else if Ascii.eqb c "t" then r' ← expect (lit "rue") r; inr (JBool true, r')
          else if Ascii.eqb c "f" then r' ← expect (lit "alse") r; inr (JBool false, r')
          else if Ascii.eqb c dq then '(s, r') ← p_string r; inr (JStr (String.string_of_list_ascii s), r')
          else if Ascii.eqb c "[" then
            match skip_ws r with
            | x :: r' =>
                if Ascii.eqb x "]" then inr (JArr [], r')
                else '(vs, r'') ← p_elems f (x :: r'); inr (JArr vs, r'')
            | [] => inl SyntaxError
            end
          else if Ascii.eqb c "{" then
            match skip_ws r with
            | x :: r' =>
                if Ascii.eqb x "}" then inr (JObj [], r')
                else '(ms, r'') ← p_members f (x :: r'); inr (JObj ms, r'')
            | [] => inl SyntaxError
            end
          else p_number (c :: r)
      end
  end
with p_elems (fuel : nat) (l : list ascii) : pres (list jsval * list ascii) :=
  match fuel with
  | O => inl OutOfFuelJ
  | S f =>
      '(v, r) ← p_value f l;
      match skip_ws r with
      | x :: r' =>
          if Ascii.eqb x "," then '(vs, r'') ← p_elems f r'; inr (v :: vs, r'')
          else if Ascii.eqb x "]" then inr ([v], r')
          else inl SyntaxError
      | [] => inl SyntaxError
      end
  end
with p_members (fuel : nat) (l : list ascii) : pres (list (string * jsval) * list ascii) :=
  match fuel with
  | O => inl OutOfFuelJ
  | S f =>
      match skip_ws l with
      | x :: r =>
          if Ascii.eqb x dq then
            '(key, r1) ← p_string r;
            match skip_ws r1 with
            | y :: r2 =>
                if Ascii.eqb y ":" then
                  '(v, r3) ← p_value f r2;
                  match skip_ws r3 with
                  | z :: r4 =>
                      if Ascii.eqb z "," then
                        '(ms, r5) ← p_members f r4;
                        inr ((String.string_of_list_ascii key, v) :: ms, r5)
                      else if Ascii.eqb z "}" then inr ([(String.string_of_list_ascii key, v)], r4)
                      else inl SyntaxError
                  | [] => inl SyntaxError
                  end
                else inl SyntaxError
            | [] => inl SyntaxError
            end
          else inl SyntaxError
      | [] => inl SyntaxError
      end
  end.

(** [JSON.parse(text)]: one value and nothing but white space after it. *)
Definition JSON_parse (text : string) : pres jsval :=
  let l := String.list_ascii_of_string text in
  '(v, r) ← p_value (2 * length l + 2) l;
  match skip_ws r with
  | [] => inr v
  | _ => inl SyntaxError
  end.

(** ** Values the text represents exactly

    No [undefined] (written [null] or left out), and integers below
    [10^21] in magnitude, which [Number::toString] writes as plain digits. *)
Fixpoint json_ok (v : jsval) : bool :=
  match v with
  | JUndefined => false
  | JNum n => (Z.abs n <? 10 ^ 21)%Z
  | JArr vs =>
      (fix go (l : list jsval) : bool :=
         match l with [] => true | x :: l' => json_ok x && go l' end) vs
  | JObj fs =>
      (fix go (l : list (string * jsval)) : bool :=
         match l with [] => true | (_, x) :: l' => json_ok x && go l' end) fs
  | _ => true
  end.

(** The fuel [p_value] needs for the text of [v]: one unit per value and
    one more per element or member. *)
Fixpoint jweight (v : jsval) : nat :=
  match v with
  | JArr vs =>
      S ((fix go (l : list jsval) : nat :=
            match l with [] => 0 | x :: l' => S (jweight x + go l') end) vs)
  | JObj fs =>
      S ((fix go (l : list (string * jsval)) : nat :=
            match l with [] => 0 | (_, x) :: l' => S (jweight x + go l') end) fs)
  | _ => 1
  end.

(** ** Predicates of the proofs *)

Section jsval_ind'.
Variable P : jsval -> Prop.
Hypotheses (HU : P JUndefined) (HN : P JNull) (HB : forall b, P (JBool b))
  (HZ : forall n, P (JNum n)) (HS : forall s, P (JStr s))
  (HA : forall vs, Forall P vs -> P (JArr vs))
  (HO : forall fs, Forall (fun kv => P kv.2) fs -> P (JObj fs)).

(** Induction on values with a hypothesis for every element and member. *)
Fixpoint jsval_ind' (v : jsval) : P v :=
  match v with
  | JUndefined => HU | JNull => HN | JBool b => HB b | JNum n => HZ n | JStr s => HS s
  | JArr vs =>
      HA vs ((fix go l : Forall P l :=
                match l with
                | [] => Forall_nil_2 _
                | x :: l' => Forall_cons_2 _ _ _ (jsval_ind' x) (go l')
                end) vs)
  | JObj fs =>
      HO fs ((fix go l : Forall (fun kv => P kv.2) l :=
                match l with
                | [] => Forall_nil_2 _
                | kv :: l' => Forall_cons_2 _ _ _ (jsval_ind' kv.2) (go l')
                end) fs)
  end.
End jsval_ind'.

(** What may follow the text of a value in the printed file: nothing, the
    comma before the next element or member, or the line break before a
    closing bracket; none of them continues a number. *)
Definition stops (r : list ascii) : Prop :=
  match r with [] => True | c :: _ => c = ","%char \/ c = nl end.

(** The first character of a value's text. *)
Definition value_start (c : ascii) : Prop :=
  is_json_ws c = false /\ c <> "]"%char /\ c <> "}"%char.

(** The parser reads the text of [x] at nesting level [j] back, given the
    fuel [jweight x]. *)
Definition reads_back (j : nat) (x : jsval) : Prop :=
  forall f rest, jweight x <= f -> stops rest ->
  p_value f (print_value j x ++ rest) = inr (x, rest).

(** A parse of [l] that did not run out of fuel and, when it succeeded,
    read at least one character. *)
Definition consumes {A} (l : list ascii) (r : pres (A * list ascii)) : Prop :=
  match r with
  | inl OutOfFuelJ => False
  | inl _ => True
  | inr (_, rest) => length rest < length l
  end.

(** ** The file *)

(** [fs.writeFileSync(dataFilePath, JSON.stringify(students, null, 2))] *)
Definition save_text (l : list Student) : string :=
  String.string_of_list_ascii (print_value 0 (JArr (student_to_js <$> l))).

(** [students = JSON.parse(fs.readFileSync(dataFilePath, "utf-8"))], or
    [[]] when the file cannot be read ([None]) or does not parse. *)
Definition load_text (raw : option string) : jsval :=
  match raw with
  | Some text => match JSON_parse text with inr v => v | inl _ => JArr [] end
  | None => JArr []
  end.

(** ** Lemmas: the shape of the printed text *)

Lemma print_arr k vs : print_value k (JArr vs) = wrap "["%char "]"%char k (print_value (S k) <$> vs).
Proof. reflexivity. Qed.

Lemma print_obj k fs :
  Forall (fun kv => kv.2 <> JUndefined) fs ->
  print_value k (JObj fs) = wrap "{"%char "}"%char k ((fun kv => member_text (S k) kv.1 kv.2) <$> fs).
Proof.
  intros Hfs. cbn [print_value]. f_equal.
  induction Hfs as [|[key x] fs Hx _ IH]; [done|]. cbn in Hx.
  destruct x; try done; cbn; f_equal; exact IH.
Qed.

Lemma json_ok_arr vs : json_ok (JArr vs) = forallb json_ok vs.
Proof. induction vs as [|x vs IH]; cbn; [done|by rewrite <- IH]. Qed.

Lemma json_ok_obj fs : json_ok (JObj fs) = forallb (fun kv => json_ok kv.2) fs.
Proof. induction fs as [|[key x] fs IH]; cbn; [done|by rewrite <- IH]. Qed.

Lemma json_ok_defined v : json_ok v = true -> v <> JUndefined.
Proof. by intros H ->. Qed.

Lemma jweight_arr vs : jweight (JArr vs) = S (sum_list_with (fun x => S (jweight x)) vs).
Proof. induction vs as [|x vs IH]; cbn in *; [done|lia]. Qed.

Lemma jweight_obj fs : jweight (JObj fs) = S (sum_list_with (fun kv => S (jweight kv.2)) fs).
Proof. induction fs as [|[key x] fs IH]; cbn in *; [done|lia]. Qed.

Lemma wrap_ne o c k ps :
  ps <> [] ->
  wrap o c k ps =
    o :: nl :: indent (S k) ++ join_with (","%char :: nl :: indent (S k)) ps ++ nl :: indent k ++ [c].
Proof. by destruct ps. Qed.

Lemma join_cons sep p ps :
  ps <> [] -> join_with sep (p :: ps) = p ++ sep ++ join_with sep ps.
Proof. by destruct ps. Qed.

Lemma ws_indent j : Forall (fun c => is_json_ws c = true) (indent j).
Proof. unfold indent. generalize (2 * j). induction n; by constructor. Qed.

Lemma ws_nl_indent j : Forall (fun c => is_json_ws c = true) (nl :: indent j).
Proof. constructor; [done|apply ws_indent]. Qed.

(** The text of a number: an optional minus sign, then its digits, the
    first of them not 0 unless the number is 0. *)
Lemma num_text n :
  n <> 0%Z -> (Z.abs n < 10 ^ 21)%Z ->
  exists d D, (1 <= d <= 9)%Z /\ Forall (fun x => (0 <= x < 10)%Z) D /\
    digits_value 10 (d :: D) = Z.abs n /\
    lit (num_to_string (NFin n 0)) =
      (if (n <? 0)%Z then ["-"%char] else []) ++ char_of_digit d :: map char_of_digit D.
Proof.
  intros Hz Hb. rewrite num_to_string_int by done.
  destruct (digits_lsf_head (Z.abs n)) as (d & D & HD & Hd); [lia|].
  pose proof (digits_lsf_value (Z.abs n)) as Hv. rewrite HD in Hv.
  pose proof (digits_rev_range (Pos.size_nat (Z.to_pos (Z.abs n))) (Z.abs n)) as Hr.
  apply List.Forall_rev in Hr. unfold digits_lsf in HD. rewrite HD in Hr.
  apply Forall_cons_iff in Hr as [_ Hr].
  exists d, D. refine (conj Hd (conj Hr (conj (Hv ltac:(lia)) _))).
  unfold lit, digits_string. unfold digits_lsf. rewrite HD, list_ascii_of_string_append.
  rewrite String.list_ascii_of_string_of_list_ascii. by destruct (n <? 0)%Z.
Qed.

(** The text of a value starts with a character that is neither white
    space nor a closing bracket. *)
Lemma print_value_start k v :
  json_ok v = true ->
  exists c t, print_value k v = c :: t /\ value_start c.
Proof.
  intros Hok. destruct v as [| |b|n|s|vs|fs]; try discriminate.
  - by eexists _, _.
  - destruct b; by eexists _, _.
  - change (print_value k (JNum n)) with (lit (num_to_string (NFin n 0))).
    destruct (Z.eq_dec n 0) as [->|Hz]; [by eexists _, _|].
    destruct (num_text n) as (d & D & Hd & _ & _ & ->); [done|by apply Z.ltb_lt|].
    destruct (n <? 0)%Z; [by eexists _, _|].
    assert (Hd' : (0 <= d < 10)%Z) by lia. apply digit_cases in Hd'.
    eexists _, _. split; [done|]. unfold value_start. destruct_or! Hd'; subst; done.
  - by eexists _, _.
  - rewrite print_arr. destruct (print_value (S k) <$> vs); by eexists _, _.
  - cbn [print_value]. unfold wrap. case_match; by eexists _, _.
Qed.

(** ** Lemmas: the parser on printed text *)

Lemma bind_inr {A B} (x : A) (f : A -> pres B) : (inr x : pres A) ≫= f = f x.
Proof. reflexivity. Qed.

Lemma skip_ws_app w l : Forall (fun c => is_json_ws c = true) w -> skip_ws (w ++ l) = skip_ws l.
Proof. induction 1 as [|c w Hc _ IH]; [done|]. by cbn; rewrite Hc. Qed.

Lemma skip_ws_nl_indent j l : skip_ws (nl :: indent j ++ l) = skip_ws l.
Proof. apply (skip_ws_app (nl :: indent j)), ws_nl_indent. Qed.

Lemma skip_ws_stop c l : is_json_ws c = false -> skip_ws (c :: l) = c :: l.
Proof. by cbn; intros ->. Qed.

Lemma p_value_ws f w l :
  Forall (fun c => is_json_ws c = true) w -> p_value f (w ++ l) = p_value f l.
Proof. intros Hw. destruct f; [done|]. cbn [p_value]. by rewrite skip_ws_app. Qed.

Lemma p_value_nl_indent f j l : p_value f (nl :: indent j ++ l) = p_value f l.
Proof. apply (p_value_ws f (nl :: indent j)), ws_nl_indent. Qed.

Lemma p_value_space f l : p_value f (" "%char :: l) = p_value f l.
Proof. apply (p_value_ws f [" "%char]). by repeat constructor. Qed.

Lemma p_elems_nl_indent f j l : p_elems f (nl :: indent j ++ l) = p_elems f l.
Proof. destruct f; [done|]. cbn [p_elems]. by rewrite p_value_nl_indent. Qed.

Lemma p_members_nl_indent f j l : p_members f (nl :: indent j ++ l) = p_members f l.
Proof. destruct f; [done|]. cbn [p_members]. by rewrite skip_ws_nl_indent. Qed.

(** [p_string] reads back every escaped character. *)
Lemma p_string_char c r :
  p_string (escape_char c ++ r) = '(s, rest) ← p_string r; inr (c :: s, rest).
Proof. destruct c as [[] [] [] [] [] [] [] []]; reflexivity. Qed.

Lemma p_string_escape l rest :
  p_string (flat_map escape_char l ++ dq :: rest) = inr (l, rest).
Proof.
  induction l as [|c l IH]; [reflexivity|].
  cbn [flat_map]. rewrite <- app_assoc, p_string_char, IH. reflexivity.
Qed.

Lemma take_digits_stop D r :
  Forall (fun d => (0 <= d < 10)%Z) D -> stops r ->
  take_digits 10 (map char_of_digit D ++ r) = (D, r).
Proof.
  induction 1 as [|d D Hd _ IH]; intros Hr.
  - destruct r as [|c r]; [done|]. by destruct Hr as [-> | ->].
  - cbn [map app take_digits]. destruct (char_of_digit_facts d Hd) as [-> _]. by rewrite IH.
Qed.

Lemma p_number_digits (neg : bool) d D rest :
  (1 <= d <= 9)%Z -> Forall (fun x => (0 <= x < 10)%Z) D -> stops rest ->
  p_number ((if neg then ["-"%char] else []) ++ char_of_digit d :: map char_of_digit D ++ rest) =
    inr (JNum (if neg then - digits_value 10 (d :: D) else digits_value 10 (d :: D))%Z, rest).
Proof.
  intros Hd HD Hr. assert (Hd' : (0 <= d < 10)%Z) by lia. apply digit_cases in Hd'.
  assert (Hm : Ascii.eqb (char_of_digit d) "-" = false /\ Ascii.eqb (char_of_digit d) "0" = false)
    by (destruct_or! Hd'; subst; (lia || done)).
  unfold p_number. destruct neg; cbn [app]; [rewrite Ascii.eqb_refl|rewrite (proj1 Hm)];
  cbn iota beta; rewrite (proj2 Hm); unfold p_digits;
  change (char_of_digit d :: map char_of_digit D ++ rest) with (map char_of_digit (d :: D) ++ rest);
  (rewrite take_digits_stop; [|by constructor; [lia|]|done]); cbn iota beta;
  (destruct rest as [|c r]; [|destruct Hr as [-> | ->]]); cbn; unfold int_of_dec; cbn;
  rewrite ?app_nil_r, ?Z.mul_1_r; reflexivity.
Qed.

Lemma p_number_int n rest :
  (Z.abs n < 10 ^ 21)%Z -> stops rest ->
  p_number (lit (num_to_string (NFin n 0)) ++ rest) = inr (JNum n, rest).
Proof.
  intros Hb Hr. destruct (Z.eq_dec n 0) as [->|Hz].
  { destruct rest as [|c r]; [|destruct Hr as [-> | ->]]; reflexivity. }
  destruct (num_text n) as (d & D & Hd & HD & Hv & ->); [done|done|].
  rewrite <- app_assoc. cbn [app]. rewrite p_number_digits by done. rewrite Hv.
  assert (E : (if (n <? 0)%Z then - Z.abs n else Z.abs n)%Z = n) by (destruct (Z.ltb_spec n 0); lia).
  by rewrite E.
Qed.

Lemma p_value_num_start f c r :
  c = "-"%char \/ (exists d, (0 <= d < 10)%Z /\ c = char_of_digit d) ->
  p_value (S f) (c :: r) = p_number (c :: r).
Proof.
  intros [->|(d & Hd & ->)]; [reflexivity|].
  apply digit_cases in Hd. destruct_or! Hd; subst; reflexivity.
Qed.

Lemma p_value_num f n rest :
  (Z.abs n < 10 ^ 21)%Z -> stops rest ->
  p_value (S f) (lit (num_to_string (NFin n 0)) ++ rest) = inr (JNum n, rest).
Proof.
  intros Hb Hr. rewrite <- p_number_int by done.
  destruct (Z.eq_dec n 0) as [->|Hz]; [by apply (p_value_num_start f _ _); right; exists 0%Z|].
  destruct (num_text n) as (d & D & Hd & HD & Hv & ->); [done|done|].
  destruct (n <? 0)%Z; apply p_value_num_start; [by left|right; exists d; split; [lia|done]].
Qed.

Section Elems.
Variable k : nat.
Let sep := ","%char :: nl :: indent (S k).

Lemma p_elems_print xs f rest :
  Forall (reads_back (S k)) xs -> xs <> [] -> sum_list_with (fun x => S (jweight x)) xs <= f ->
  p_elems f (join_with sep (print_value (S k) <$> xs) ++ nl :: indent k ++ "]"%char :: rest) =
    inr (xs, rest).
Proof.
  intros Hxs. revert f. induction Hxs as [|x xs Hx Hxs IH]; intros f Hne Hf; [done|].
  destruct f as [|f]; [cbn in Hf; lia|]. cbn in Hf. cbn [p_elems].
  destruct xs as [|y ys]; cbn [fmap list_fmap].
  - cbn [join_with]. rewrite Hx by (cbn; lia || auto).
    rewrite bind_inr. cbn beta iota. rewrite skip_ws_nl_indent, skip_ws_stop by done. reflexivity.
  - rewrite join_cons, <- !app_assoc by discriminate. unfold sep at 1. cbn [app].
    rewrite Hx by (cbn; lia || auto). rewrite bind_inr. cbn beta iota.
    rewrite skip_ws_stop by done. cbn -[indent p_elems join_with].
    rewrite p_elems_nl_indent. specialize (IH f ltac:(done) ltac:(cbn in Hf |- *; lia)).
    cbn [fmap list_fmap] in IH. rewrite IH. reflexivity.
Qed.

Lemma p_members_member f key x r :
  p_value f (print_value (S k) x ++ r) = inr (x, r) ->
  p_members (S f) (member_text (S k) key x ++ r) =
    match skip_ws r with
    | z :: r4 =>
        if Ascii.eqb z "," then '(ms, r5) ← p_members f r4; inr ((key, x) :: ms, r5)
        else if Ascii.eqb z "}" then inr ([(key, x)], r4)
        else inl SyntaxError
    | [] => inl SyntaxError
    end.
Proof.
  intros Hx. unfold member_text, quote. rewrite <- !app_assoc. cbn [app p_members].
  rewrite skip_ws_stop by done. cbn -[p_string p_value p_members].
  rewrite <- app_assoc. cbn [app]. rewrite p_string_escape, bind_inr. cbn beta iota.
  rewrite skip_ws_stop by done. cbn -[p_value p_members].
  rewrite p_value_space, Hx, bind_inr. cbn beta iota.
  by rewrite String.string_of_list_ascii_of_string.
Qed.

Lemma p_members_print fs f rest :
  Forall (fun kv => reads_back (S k) kv.2) fs -> fs <> [] ->
  sum_list_with (fun kv => S (jweight kv.2)) fs <= f ->
  p_members f (join_with sep ((fun kv => member_text (S k) kv.1 kv.2) <$> fs)
               ++ nl :: indent k ++ "}"%char :: rest) = inr (fs, rest).
Proof.
  intros Hfs. revert f. induction Hfs as [|[key x] fs Hx Hfs IH]; intros f Hne Hf; [done|].
  destruct f as [|f]; [cbn in Hf; lia|]. cbn in Hf, Hx.
  destruct fs as [|[key' y] fs]; cbn [fmap list_fmap].
  - cbn [join_with]. rewrite p_members_member by (apply Hx; cbn; lia || auto).
    rewrite skip_ws_nl_indent, skip_ws_stop by done. reflexivity.
  - rewrite join_cons, <- !app_assoc by discriminate. unfold sep at 1. cbn [app].
    rewrite p_members_member by (apply Hx; cbn in Hf |- *; lia || auto). rewrite skip_ws_stop by done.
    cbn -[indent p_members join_with member_text].
    rewrite p_members_nl_indent. specialize (IH f ltac:(done) ltac:(cbn in Hf |- *; lia)).
    cbn [fmap list_fmap fst snd] in IH. rewrite IH. reflexivity.
Qed.
End Elems.

Lemma join_start sep ps l :
  (exists p ps' c t, ps = p :: ps' /\ p = c :: t /\ value_start c) ->
  exists c r, join_with sep ps ++ l = c :: r /\ value_start c.
Proof.
  intros (p & ps' & c & t & -> & -> & Hc). exists c.
  destruct ps'; cbn; eexists; by split.
Qed.

Lemma Forall_reads_back k vs :
  Forall (fun x => json_ok x = true -> forall j, reads_back j x) vs ->
  forallb json_ok vs = true -> Forall (reads_back k) vs.
Proof.
  induction 1 as [|x vs Hx _ IH]; cbn; [constructor|].
  intros [Hx' Hvs]%andb_prop. constructor; auto.
Qed.

Lemma Forall_reads_back_members k (fs : list (string * jsval)) :
  Forall (fun kv => json_ok kv.2 = true -> forall j, reads_back j kv.2) fs ->
  forallb (fun kv => json_ok kv.2) fs = true ->
  Forall (fun kv => reads_back k kv.2) fs /\ Forall (fun kv => kv.2 <> JUndefined) fs.
Proof.
  induction 1 as [|kv fs Hx _ IH]; cbn; [done|].
  intros [Hx' Hfs]%andb_prop. destruct (IH Hfs). split; constructor; auto.
  by apply json_ok_defined.
Qed.

(** The parser reads back the printed text of every value it can
    represent, with the fuel [jweight] and whatever follows that
    [stops] a number. *)
Lemma p_value_print v : json_ok v = true -> forall k, reads_back k v.
Proof.
  induction v as [| |b|n|s|vs IH|fs IH] using jsval_ind';
    intros Hok k f rest Hf Hr; try discriminate;
    (destruct f as [|f]; [cbn in Hf; lia|]).
  - reflexivity.
  - destruct b; reflexivity.
  - apply p_value_num; [by apply Z.ltb_lt|done].
  - cbn [print_value]. unfold quote. cbn [app]. rewrite <- app_assoc. cbn [app p_value].
    rewrite skip_ws_stop by done. cbn -[p_string].
    rewrite p_string_escape, bind_inr. cbn. by rewrite String.string_of_list_ascii_of_string.
  - rewrite json_ok_arr in Hok. rewrite jweight_arr in Hf. rewrite print_arr.
    destruct vs as [|x xs]; [reflexivity|].
    pose proof (Forall_reads_back (S k) _ IH Hok) as Hall.
    rewrite wrap_ne by done. do 3 (cbn [app]; rewrite <- ?app_assoc). cbn [p_value]. rewrite skip_ws_stop by done.
    cbn -[skip_ws p_elems indent join_with print_value fmap].
    rewrite skip_ws_nl_indent.
    destruct (join_start (","%char :: nl :: indent (S k)) (print_value (S k) <$> x :: xs)
                (nl :: indent k ++ "]"%char :: rest)) as (c & r' & HT & Hws & Hc1 & _).
    { apply andb_prop in Hok as [Hx _].
      destruct (print_value_start (S k) x Hx) as (c & t & Hp & Hc).
      by exists (print_value (S k) x), (print_value (S k) <$> xs), c, t. }
    rewrite HT, skip_ws_stop by done. cbn -[p_elems].
    rewrite (proj2 (Ascii.eqb_neq _ _) Hc1). rewrite <- HT.
    rewrite p_elems_print; [reflexivity|done|done|lia].
  - rewrite json_ok_obj in Hok. rewrite jweight_obj in Hf.
    destruct (Forall_reads_back_members (S k) _ IH Hok) as [Hall Hdef].
    rewrite print_obj by done.
    destruct fs as [|[key x] fs]; [reflexivity|].
    rewrite wrap_ne by done. do 3 (cbn [app]; rewrite <- ?app_assoc). cbn [p_value]. rewrite skip_ws_stop by done.
    cbn -[skip_ws p_members indent join_with member_text fmap].
    rewrite skip_ws_nl_indent.
    destruct (join_start (","%char :: nl :: indent (S k))
                ((fun kv => member_text (S k) kv.1 kv.2) <$> (key, x) :: fs)
                (nl :: indent k ++ "}"%char :: rest)) as (c & r' & HT & Hws & _ & Hc2).
    { by eexists _, _, dq, _. }
    rewrite HT, skip_ws_stop by done. cbn -[p_members].
    rewrite (proj2 (Ascii.eqb_neq _ _) Hc2). rewrite <- HT.
    rewrite p_members_print; [reflexivity|done|done|lia].
Qed.

(** ** The parser's fuel is enough *)

Lemma skip_ws_length l : length (skip_ws l) <= length l.
Proof. induction l as [|c l IH]; cbn; [done|]. case_match; cbn; lia. Qed.

Lemma take_digits_len radix l ds r :
  take_digits radix l = (ds, r) -> length r + length ds = length l.
Proof.
  revert ds r. induction l as [|c l IH]; intros ds r; cbn; [by intros [= <- <-]|].
  destruct (digit_val radix c); [|by intros [= <- <-]; cbn; lia].
  destruct (take_digits radix l) as [ds' r'] eqn:E. intros [= <- <-].
  specialize (IH _ _ eq_refl). cbn. lia.
Qed.

Lemma expect_length w l :
  match expect w l with inl e => e <> OutOfFuelJ | inr r => length r <= length l end.
Proof.
  revert l. induction w as [|c w IH]; intros l; cbn; [lia|].
  destruct l as [|x l]; [congruence|]. destruct (Ascii.eqb x c); [|congruence].
  specialize (IH l). destruct (expect w l); cbn in *; [done|lia].
Qed.

Lemma p_string_consumes l : consumes l (p_string l).
Proof.
  induction l as [l IH] using (induction_ltof1 _ (@length ascii)); unfold ltof in IH.
  destruct l as [|c r]; [done|]. cbn [p_string].
  assert (Hstep : forall x r0, length r0 < S (length r) ->
            consumes (c :: r) ('(s, rest) ← p_string r0; inr (x :: s, rest))).
  { intros x r0 Hr0. specialize (IH r0 Hr0).
    destruct (p_string r0) as [[]|[s rest]]; cbn in *; (done || lia). }
  repeat case_match; try done; first [apply Hstep; cbn in *; lia | cbn; lia].
Qed.

Ltac p_number_cases :=
  repeat (simplify_eq/=; match goal with
  | H : take_digits _ _ = (_, _) |- _ => apply take_digits_len in H
  | H : context [match ?x with _ => _ end] |- _ => destruct x eqn:?
  | |- context [match ?x with _ => _ end] => destruct x eqn:?
  end).

Lemma p_number_consumes l : consumes l (p_number l).
Proof.
  unfold p_number, p_digits, mbind, pres_bind.
  destruct l as [|c r]; [done|]. p_number_cases; cbn in *; simplify_eq/=; try done; lia.
Qed.

Lemma consumes_bind {A B} l l' (m : pres (A * list ascii)) (g : A -> B) :
  length l' <= length l -> consumes l' m -> consumes l ('(a, r) ← m; inr (g a, r)).
Proof. intros Hl. destruct m as [[]|[a r]]; cbn; (done || lia). Qed.

Lemma consumes_expect l c r w (v : jsval) :
  length (c :: r) <= length l -> consumes l (r' ← expect w r; inr (v, r')).
Proof.
  intros Hl. pose proof (expect_length w r) as He.
  destruct (expect w r) as [[]|r']; cbn in *; (done || lia).
Qed.

(** With fuel [2 * length + 2] for a value and one more for a list of
    elements or members, the parser never runs out of fuel, and what it
    reads is at least one character. *)
Lemma parse_consumes F : forall l,
  (2 * length l + 2 <= F -> consumes l (p_value F l)) /\
  (2 * length l + 3 <= F -> consumes l (p_elems F l)) /\
  (2 * length l + 3 <= F -> consumes l (p_members F l)).
Proof.
  induction F as [|f IH]; intros l; [split_and!; lia|]. split_and!; intros HF.
  - cbn [p_value]. pose proof (skip_ws_length l) as Hs.
    destruct (skip_ws l) as [|c r]; [done|]. cbn in Hs.
    destruct (Ascii.eqb c "n"); [apply (consumes_expect _ c); cbn; lia|].
    destruct (Ascii.eqb c "t"); [apply (consumes_expect _ c); cbn; lia|].
    destruct (Ascii.eqb c "f"); [apply (consumes_expect _ c); cbn; lia|].
    destruct (Ascii.eqb c dq).
    { pose proof (p_string_consumes r) as Hp. destruct (p_string r) as [[]|[s r']]; cbn in *; (done || lia). }
    destruct (Ascii.eqb c "[").
    { pose proof (skip_ws_length r) as Hs'. destruct (skip_ws r) as [|x r']; [done|].
      destruct (Ascii.eqb x "]"); [cbn in *; lia|].
      apply (consumes_bind _ (x :: r')); [cbn in *; lia|]. apply IH. cbn in *; lia. }
    destruct (Ascii.eqb c "{").
    { pose proof (skip_ws_length r) as Hs'. destruct (skip_ws r) as [|x r']; [done|].
      destruct (Ascii.eqb x "}"); [cbn in *; lia|].
      apply (consumes_bind _ (x :: r')); [cbn in *; lia|]. apply IH. cbn in *; lia. }
    pose proof (p_number_consumes (c :: r)) as Hn.
    destruct (p_number (c :: r)) as [[]|[v r']]; cbn in *; (done || lia).
  - cbn [p_elems]. destruct (IH l) as [Hv _]. specialize (Hv ltac:(lia)).
    destruct (p_value f l) as [[]|[v r]]; cbn in Hv |- *; try done.
    pose proof (skip_ws_length r) as Hs. destruct (skip_ws r) as [|x r']; [done|].
    destruct (Ascii.eqb x ","); [|destruct (Ascii.eqb x "]"); cbn in *; (done || lia)].
    apply (consumes_bind _ r'); [cbn in *; lia|]. apply IH. cbn in *; lia.
  - cbn [p_members]. pose proof (skip_ws_length l) as Hs.
    destruct (skip_ws l) as [|x r]; [done|]. destruct (Ascii.eqb x dq); [|done].
    pose proof (p_string_consumes r) as Hp. destruct (p_string r) as [[]|[key r1]]; cbn in Hp |- *; try done.
    pose proof (skip_ws_length r1) as Hs1. destruct (skip_ws r1) as [|y r2]; [done|].
    destruct (Ascii.eqb y ":"); [|done].
    destruct (IH r2) as [Hv _]. specialize (Hv ltac:(cbn in *; lia)).
    destruct (p_value f r2) as [[]|[v r3]]; cbn in Hv |- *; try done.
    pose proof (skip_ws_length r3) as Hs3. destruct (skip_ws r3) as [|z r4]; [done|].
    destruct (Ascii.eqb z ","); [|destruct (Ascii.eqb z "}"); cbn in *; (done || lia)].
    apply (consumes_bind _ r4); [cbn in *; lia|]. apply IH. cbn in *; lia.
Qed.

(** ** The round trip *)

Lemma join_length {A} (h : A -> list ascii) (w : A -> nat) sep xs :
  1 <= length sep -> Forall (fun x => w x <= length (h x)) xs ->
  sum_list_with (fun x => S (w x)) xs <= length (join_with sep (h <$> xs)) + 1.
Proof.
  intros Hsep. induction 1 as [|x xs Hx _ IH]; [cbn; lia|].
  destruct xs as [|y ys]; [cbn in *; lia|].
  change (h <$> (x :: y :: ys)) with (h x :: (h <$> (y :: ys))). rewrite join_cons, !length_app by (cbn; discriminate).
  cbn [sum_list_with] in *. lia.
Qed.

(** The printed text is at least as long as the fuel its parsing needs. *)
Lemma jweight_length v : json_ok v = true -> forall k, jweight v <= length (print_value k v).
Proof.
  induction v as [| |b|n|s|vs IH|fs IH] using jsval_ind'; intros Hok k; try discriminate.
  - cbn. lia.
  - destruct b; cbn; lia.
  - destruct (print_value_start k (JNum n) Hok) as (c & t & -> & _). cbn. lia.
  - cbn. lia.
  - rewrite print_arr, jweight_arr. rewrite json_ok_arr in Hok.
    destruct vs as [|x xs]; [cbn; lia|].
    rewrite wrap_ne by done. cbn [length]. rewrite !length_app. cbn [length].
    enough (sum_list_with (fun x => S (jweight x)) (x :: xs) <=
              length (join_with (","%char :: nl :: indent (S k)) (print_value (S k) <$> x :: xs)) + 1)
      by lia.
    apply join_length; [cbn; lia|].
    revert Hok. clear -IH. induction IH as [|y ys Hy _ IHys]; cbn; [done|].
    intros [Hy' Hys]%andb_prop. constructor; auto.
  - rewrite jweight_obj. rewrite json_ok_obj in Hok.
    assert (Hall : Forall (fun kv : string * jsval => kv.2 <> JUndefined /\
                     forall j, jweight kv.2 <= length (print_value j kv.2)) fs).
    { revert Hok. clear -IH. induction IH as [|kv ys Hy _ IHys]; cbn; [done|].
      intros [Hy' Hys]%andb_prop. constructor; [split; [by apply json_ok_defined|auto]|auto]. }
    rewrite print_obj by (eapply Forall_impl; [exact Hall|]; by intros ? []).
    destruct fs as [|[key x] fs]; [cbn; lia|].
    rewrite wrap_ne by done. cbn [length]. rewrite !length_app. cbn [length].
    enough (sum_list_with (fun kv => S (jweight kv.2)) ((key, x) :: fs) <=
              length (join_with (","%char :: nl :: indent (S k))
                        ((fun kv => member_text (S k) kv.1 kv.2) <$> (key, x) :: fs)) + 1)
      by lia.
    apply join_length; [cbn; lia|].
    eapply Forall_impl; [exact Hall|]. intros [key' y] [_ Hy]. cbn [fst snd] in Hy |- *.
    unfold member_text. rewrite !length_app. specialize (Hy (S k)). lia.
Qed.

(** [JSON.parse(JSON.stringify(v, null, 2))] is [v] for every value
    without [undefined] whose numbers are integers below [10^21]. *)
Lemma JSON_parse_print v :
  json_ok v = true -> JSON_parse (String.string_of_list_ascii (print_value 0 v)) = inr v.
Proof.
  intros Hok. unfold JSON_parse. rewrite String.list_ascii_of_string_of_list_ascii.
  pose proof (jweight_length v Hok 0).
  pose proof (p_value_print v Hok 0 (2 * length (print_value 0 v) + 2) [] ltac:(lia) I) as Hp.
  rewrite app_nil_r in Hp. by rewrite Hp.
Qed.

Lemma json_ok_student s :
  (Z.abs (sid s) < 10 ^ 21)%Z -> (Z.abs (age s) < 10 ^ 21)%Z -> json_ok (student_to_js s) = true.
Proof. intros Hi Ha. cbn. by rewrite (proj2 (Z.ltb_lt _ _) Hi), (proj2 (Z.ltb_lt _ _) Ha). Qed.

(** C13: What [saveStudents] writes to data/students.json, [loadStudents]
    reads back: after a restart the store holds the same students, in
    the same order, as long as every id and age is an integer below
    [10^21] in magnitude. *)
Theorem save_load_roundtrip (l : list Student) :
  Forall (fun s => Z.abs (sid s) < 10 ^ 21 /\ Z.abs (age s) < 10 ^ 21)%Z l ->
  load_text (Some (save_text l)) = JArr (student_to_js <$> l).
Proof.
  intros Hl. unfold load_text, save_text. rewrite JSON_parse_print; [done|].
  rewrite json_ok_arr. induction Hl as [|s l [Hi Ha] _ IH]; [done|].
  cbn [fmap list_fmap forallb]. by rewrite json_ok_student, IH.
Qed.

Lemma save_load_roundtrip_witness :
  load_text (Some (save_text [mk_student 1 "Ann\Lee" 20 "ann@example.com" true;
                              mk_student 2 "Bob" 31 "bob@example.com" false])) =
    JArr (student_to_js <$> [mk_student 1 "Ann\Lee" 20 "ann@example.com" true;
                              mk_student 2 "Bob" 31 "bob@example.com" false]).
Proof. apply save_load_roundtrip. repeat constructor. Defined.
