(* ===== verification/Store.v ===== *)
(** * The student store (routes/students.js lines 6-26)

    The module keeps [let students = []], loaded once from
    data/students.json by [loadStudents] (an unreadable or unparsable file
    gives the empty array) and written back whole by [saveStudents].  The
    handlers locate records with [find]/[findIndex] on [s.id === id],
    append with [push], overwrite with [students[index] = ...], remove with
    [splice(index, 1)] and mutate the object [find] returned in place.

    The file's content is modelled as the list it encodes ([Some l]) or as
    unreadable ([None]).  JsonText.v models the text itself and proves
    that the text [saveStudents] writes reads back as that list. *)

From S2P Require Import Prelude JsValue JsNumber Student.

Record db : Type := mk_db {
  students : list Student;
  data_file : option (list Student)
}.

(** [loadStudents()] at module load. *)
Definition loadStudents (file : option (list Student)) : db :=
  match file with
  | Some l => mk_db l file
  | None => mk_db [] file
  end.

(** [saveStudents()]: [writeFileSync(dataFilePath, JSON.stringify(students, null, 2))] *)
Definition save (d : db) : db := mk_db (students d) (Some (students d)).

Definition set_students (l : list Student) (d : db) : db := mk_db l (data_file d).

(** [students.reduce((max, s) => (s.id > max ? s.id : max), 0)] *)
Definition max_id (l : list Student) : Z :=
  fold_left (fun mx s => if (sid s >? mx)%Z then sid s else mx) l 0%Z.

(** [s => s.id === id] *)
Definition id_matches (i : jsnum) (s : Student) : bool := num_eq_int i (sid s).

(** The object [students.find(s => s.id === id)] returns, located by its
    index: the handlers mutate it in place through this reference. *)
Definition find_ref (l : list Student) (i : jsnum) : option nat :=
  fst <$> list_find (fun s => id_matches i s = true) l.

(** ** Invariants of the store *)

(** No two records share an id. *)
Definition ids_unique (l : list Student) : Prop := NoDup (sid <$> l).

(** No two records share an e-mail up to case (spec, section 3). *)
Definition emails_unique (l : list Student) : Prop :=
  NoDup ((fun s => js_toLowerCase (email s)) <$> l).

Definition store_wf (l : list Student) : Prop := ids_unique l /\ emails_unique l.

#[export] Instance store_wf_dec l : Decision (store_wf l).
Proof. unfold store_wf, ids_unique, emails_unique. apply _. Defined.

(** ** Lemmas *)

Lemma max_id_acc_ge l mx : (mx <= fold_left (fun mx s => if (sid s >? mx)%Z then sid s else mx) l mx)%Z.
Proof.
  revert mx; induction l as [|s l IH]; intros mx; simpl; [lia|].
  destruct (sid s >? mx)%Z eqn:E; [|apply IH]. specialize (IH (sid s)). lia.
Qed.

Lemma max_id_ge l s : s ∈ l -> (sid s <= max_id l)%Z.
Proof.
  unfold max_id. generalize 0%Z.
  induction l as [|y l IH]; intros mx Hin; [set_solver|].
  apply elem_of_cons in Hin as [<-|Hin]; simpl.
  - pose proof (max_id_acc_ge l (if (sid s >? mx)%Z then sid s else mx)).
    destruct (sid s >? mx)%Z eqn:E; lia.
  - apply IH, Hin.
Qed.

Lemma max_id_acc_cases l mx :
  let r := fold_left (fun mx s => if (sid s >? mx)%Z then sid s else mx) l mx in
  r = mx \/ exists t, t ∈ l /\ r = sid t.
Proof.
  revert mx; induction l as [|y l IH]; intros mx; simpl; [left; done|].
  destruct (IH (if (sid y >? mx)%Z then sid y else mx)) as [Hr|(t & Ht & Hr)];
    rewrite Hr; [|right; exists t; split; [by right|done]].
  destruct (sid y >? mx)%Z; [right; exists y; split; [left|]; done|left; done].
Qed.

(** The reduce yields 0 or the largest id. *)
Lemma max_id_cases l : max_id l = 0%Z \/ exists t, t ∈ l /\ max_id l = sid t.
Proof. apply max_id_acc_cases. Qed.

Lemma max_id_nonneg l : (0 <= max_id l)%Z.
Proof. apply max_id_acc_ge. Qed.

Lemma fresh_id_not_in l : (max_id l + 1)%Z ∉ sid <$> l.
Proof.
  intros Hin. apply list_elem_of_fmap in Hin as (s & Hs & Hin).
  apply max_id_ge in Hin. lia.
Qed.

Lemma find_ref_Some l i k :
  find_ref l i = Some k ->
  exists s, l !! k = Some s /\ id_matches i s = true /\
            forall j y, (j < k)%nat -> l !! j = Some y -> id_matches i y = false.
Proof.
  unfold find_ref. destruct (list_find _ l) as [[k' s]|] eqn:E; simpl; [|discriminate].
  intros [= <-]. apply list_find_Some in E as (Hl & Hm & Hmin).
  exists s. split_and!; [done|done|].
  intros j y Hj Hy. apply not_true_is_false. intros Hm'. by apply (Hmin j y).
Qed.

Lemma find_ref_None l i :
  find_ref l i = None <-> forall s, s ∈ l -> id_matches i s = false.
Proof.
  unfold find_ref. rewrite fmap_None, list_find_None, Forall_forall.
  split; intros H s Hs; [apply not_true_is_false|]; [by apply H|]. rewrite H; done.
Qed.

Lemma num_int_value_eq x z : num_eq_int x z = true -> num_int_value x = z.
Proof.
  destruct x as [|m e|]; simpl; try discriminate.
  destruct (0 <=? e)%Z; [apply Z.eqb_eq|].
  rewrite andb_true_iff, !Z.eqb_eq. intros [_ H]. done.
Qed.

(** Two records an id matches share the id. *)
Lemma id_matches_same i s t :
  id_matches i s = true -> id_matches i t = true -> sid s = sid t.
Proof.
  unfold id_matches. intros Hs Ht.
  by rewrite <- (num_int_value_eq _ _ Hs), <- (num_int_value_eq _ _ Ht).
Qed.

#[export] Hint Resolve max_id_nonneg fresh_id_not_in : api.

(** ** The searches, in terms of the store *)

Lemma find_dup_None l e :
  find_dup l e = None <-> forall y, y ∈ l -> ~ ci_equiv (email y) e.
Proof.
  unfold find_dup. rewrite js_find_None, Forall_forall.
  setoid_rewrite <- same_email_ci. setoid_rewrite not_true_iff_false. done.
Qed.

Lemma find_dup_Some l e y :
  find_dup l e = Some y -> y ∈ l /\ ci_equiv (email y) e.
Proof. unfold find_dup. intros [? ?%same_email_ci]%js_find_Some. done. Qed.

Lemma find_dup_other_None l e i :
  find_dup_other l e i = None <->
  forall y, y ∈ l -> ci_equiv (email y) e -> id_matches i y = true.
Proof.
  unfold find_dup_other. rewrite js_find_None, Forall_forall.
  apply forall_proper; intros y. apply forall_proper; intros _.
  rewrite <- same_email_ci, andb_false_iff, negb_false_iff.
  unfold id_matches. destruct (same_email e y), (num_eq_int i (sid y)); naive_solver.
Qed.

(** ** Preservation of the invariants by the list operations *)

Lemma find_dup_other_Some l e i y :
  find_dup_other l e i = Some y ->
  y ∈ l /\ ci_equiv (email y) e /\ id_matches i y = false.
Proof.
  unfold find_dup_other. intros [Hy [Hs Hn]%andb_prop]%js_find_Some.
  apply same_email_ci in Hs. apply negb_true_iff in Hn. done.
Qed.

(** With e-mails unique up to case, a record is the only one of its
    e-mail. *)
Lemma emails_unique_same l k old y :
  emails_unique l -> l !! k = Some old -> y ∈ l -> ci_equiv (email y) (email old) -> y = old.
Proof.
  unfold emails_unique. rewrite NoDup_alt. intros Hnd Hk [j Hj]%list_elem_of_lookup_1 He.
  assert (j = k) as ->.
  { unfold ci_equiv in He. apply (Hnd j k (js_toLowerCase (email old)));
      rewrite list_lookup_fmap; [rewrite Hj; simpl; by rewrite He|by rewrite Hk]. }
  congruence.
Qed.

Lemma ids_unique_other l k old y j :
  ids_unique l -> l !! k = Some old -> l !! j = Some y -> sid y = sid old -> j = k.
Proof.
  unfold ids_unique. rewrite NoDup_alt. intros Hnd Hk Hj Heq.
  apply (Hnd j k (sid y)); rewrite list_lookup_fmap; [by rewrite Hj|by rewrite Hk, Heq].
Qed.

(** [students.push(s)] of a record with a fresh id and e-mail. *)
Lemma store_wf_push l s :
  store_wf l -> find_dup l (email s) = None -> sid s ∉ sid <$> l -> store_wf (l ++ [s]).
Proof.
  intros [Hid Hem] Hdup Hfresh. rewrite find_dup_None in Hdup.
  unfold store_wf, ids_unique, emails_unique. rewrite !fmap_app, !NoDup_app.
  split; (split; [done|split; [|apply NoDup_singleton]]); intros x Hx; simpl.
  - rewrite list_elem_of_singleton. by intros ->.
  - rewrite list_elem_of_singleton. intros ->.
    apply list_elem_of_fmap in Hx as (y & Hy & Hin). by apply (Hdup y).
Qed.

(** [students[k] = s] where [s] keeps the id of the record an id matched
    and no other record shares its e-mail. *)
Lemma store_wf_replace l k old new i :
  store_wf l -> l !! k = Some old -> id_matches i old = true -> sid new = sid old ->
  find_dup_other l (email new) i = None -> store_wf (<[k:=new]> l).
Proof.
  intros [Hid Hem] Hk Hm Hsid Hdup. rewrite find_dup_other_None in Hdup.
  split.
  - eapply NoDup_fmap_insert; [exact Hid|exact Hk|].
    intros j y Hj Hy Heq. apply Hj. eapply ids_unique_other; [done|exact Hk|exact Hy|congruence].
  - eapply NoDup_fmap_insert; [exact Hem|exact Hk|].
    intros j y Hj Hy Heq. apply Hj. eapply ids_unique_other; [done|exact Hk|exact Hy|].
    eapply id_matches_same; [|exact Hm]. apply Hdup; [by eapply list_elem_of_lookup_2|exact Heq].
Qed.

Lemma alter_as_insert {A} (f : A -> A) (l : list A) k x :
  l !! k = Some x -> alter f k l = <[k:=f x]> l.
Proof.
  intros Hk. apply list_eq. intros j.
  assert (k < length l)%nat by (by eapply lookup_lt_Some).
  rewrite list_lookup_alter, list_lookup_insert by done.
  repeat case_decide; destruct_and?; subst; rewrite ?Hk; naive_solver.
Qed.

(** An in-place update that keeps the id and the e-mail. *)
Lemma store_wf_alter l k f :
  (forall s, sid (f s) = sid s /\ email (f s) = email s) -> store_wf l -> store_wf (alter f k l).
Proof.
  intros Hf Hwf. destruct (l !! k) as [x|] eqn:Hk.
  - rewrite (alter_as_insert f l k x Hk). destruct Hwf as [Hid Hem].
    split; (eapply NoDup_fmap_insert; [done|exact Hk|]); intros j y Hj Hy Heq; apply Hj;
      destruct (Hf x) as [Hs He].
    + eapply ids_unique_other; [done|exact Hk|exact Hy|congruence].
    + unfold emails_unique in Hem. rewrite NoDup_alt in Hem.
      apply (Hem j k (js_toLowerCase (email y))); rewrite list_lookup_fmap;
        [by rewrite Hy|by rewrite Hk; simpl; rewrite Heq, He].
  - replace (alter f k l) with l; [done|]. apply list_eq; intros j.
    rewrite list_lookup_alter. case_decide; subst; [by rewrite Hk|done].
Qed.

(** [students.splice(index, 1)] *)
Lemma store_wf_splice1 l k : store_wf l -> store_wf (splice1 k l).
Proof. intros [Hid Hem]. split; by apply NoDup_fmap_splice1. Qed.

#[export] Hint Resolve store_wf_splice1 : api.

(** After [splice(k, 1)] no record keeps the id of the removed one. *)
Lemma ids_unique_splice_gone l k s y :
  ids_unique l -> l !! k = Some s -> y ∈ splice1 k l -> sid y <> sid s.
Proof.
  unfold ids_unique. revert k; induction l as [|z l IH]; intros [|k] Hnd Hk Hy;
    simpl in *; try discriminate; apply NoDup_cons in Hnd as [Hz Hnd].
  - injection Hk as ->. intros Heq. apply Hz. rewrite <- Heq.
    by apply list_elem_of_fmap_2.
  - apply elem_of_cons in Hy as [->|Hy]; [|by apply (IH k)].
    intros Heq. apply Hz. rewrite Heq. apply list_elem_of_fmap_2.
    by eapply list_elem_of_lookup_2.
Qed.

(** With unique ids, the first record an id matches is the only one. *)
Lemma findIndex_unique l k s i :
  ids_unique l -> l !! k = Some s -> id_matches i s = true ->
  js_findIndex (id_matches i) l = Z.of_nat k.
Proof.
  intros Hu Hk Hm.
  destruct (js_findIndex_spec (id_matches i) l) as [[_ Hf]|(k' & x & -> & Hk' & _ & Hx & _)].
  - apply js_find_None in Hf. rewrite Forall_forall in Hf.
    rewrite (Hf s) in Hm; [discriminate|by eapply list_elem_of_lookup_2].
  - f_equal. eapply ids_unique_other; [exact Hu|exact Hk|exact Hk'|].
    eapply id_matches_same; [exact Hx|exact Hm].
Qed.
