(* ===== verification/Samples.v ===== *)
(** * Concrete stores and requests

    A store of two students and the request bodies the examples of the
    development run the handlers on: a valid new student, one whose
    e-mail differs from a stored one only by case, one with age 0; and
    requests for the guards, with tokens of the scheme of JwtModel.v. *)

From S2P Require Import Prelude JsValue JsNumber Http Jwt JwtModel Student Store.

Local Open Scope string_scope.

Definition ann : Student := mk_student 1 "Ann" 20 "ann@example.com" true.
Definition bob : Student := mk_student 2 "Bob" 22 "Bob@Example.com" false.

(** The store as loaded from a file holding [ann] and [bob]. *)
Definition sample_db : db := mk_db [ann; bob] (Some [ann; bob]).

Definition student_body (n : string) (a : Z) (e : string) (b : bool) : jsval :=
  JObj [("name", JStr n); ("age", JNum a); ("email", JStr e); ("isActive", JBool b)].

Definition cy_body : jsval := student_body "Cy" 30 "cy@example.com" true.
Definition cy_payload : payload := mk_payload "Cy" 30 "cy@example.com" true.

Definition ann_dup_body : jsval := student_body "Annie" 21 "ANN@example.com" true.
Definition ann_dup_payload : payload := mk_payload "Annie" 21 "ANN@example.com" true.

Definition age0_body : jsval := student_body "Dee" 0 "dee@example.com" true.

(** PUT bodies: Ann's own e-mail in capitals, Bob's e-mail in lower case. *)
Definition ann_upper_body : jsval := student_body "Ann" 21 "ANN@EXAMPLE.COM" true.
Definition ann_upper_payload : payload := mk_payload "Ann" 21 "ANN@EXAMPLE.COM" true.
Definition bob_email_body : jsval := student_body "Ann" 21 "bob@example.com" true.
Definition bob_email_payload : payload := mk_payload "Ann" 21 "bob@example.com" true.

(** A PATCH body renaming a student and setting [isActive]. *)
Definition patch_body : jsval := JObj [("name", JStr "Ann B"); ("isActive", JBool false)].

(** ** Requests *)

Definition get_request (url : string) (path : list string) (headers cookies : list (string * string))
  : request := mk_request GET url path headers cookies (BodyJson (JObj [])).

(** [GET /auth/me] with an Authorization header. *)
Definition me_request (auth : string) : request :=
  get_request "/auth/me" ["auth"; "me"] [("authorization", auth)] [].

Definition me_request_no_header : request := get_request "/auth/me" ["auth"; "me"] [] [].

Definition me_cookie_request (sessionId : string) : request :=
  get_request "/auth/me-cookie" ["auth"; "me-cookie"] [] [("sessionId", sessionId)].

Definition login_body : jsval := JObj [("username", JStr "testuser"); ("password", JStr "password123")].
Definition wrong_password_body : jsval := JObj [("username", JStr "testuser"); ("password", JStr "secret")].

Definition login_request : request :=
  mk_request POST "/auth/login-jwt" ["auth"; "login-jwt"] [] [] (BodyJson login_body).

Definition login_cookie_request : request :=
  mk_request POST "/auth/login-cookie" ["auth"; "login-cookie"] [] [] (BodyJson login_body).

Definition logout_request : request :=
  mk_request POST "/auth/logout-cookie" ["auth"; "logout-cookie"] [] [] (BodyJson (JObj [])).

(** [POST /students] whose body is not JSON. *)
Definition malformed_request : request :=
  mk_request POST "/students" ["students"] [] [] (BodyMalformed "Unexpected token in JSON at position 1").

(** A token for [testuser] signed with ["k"] at time 0, valid for an hour. *)
Definition sample_token : string :=
  @jwt_sign toy_token_scheme (mk_claims "testuser" "student-admin") "k" 0 3600.

(** The same token signed with the secret ["other"]. *)
Definition sample_token_other : string :=
  @jwt_sign toy_token_scheme (mk_claims "testuser" "student-admin") "other" 0 3600.
