(* ===== verification/Auth.v ===== *)
(** * Authentication (server.js lines 13-15, 35-87, 127-229)

    Two middlewares guard routes: [requireJwt] reads the Authorization
    header, splits it at spaces, and verifies the bearer token with
    jsonwebtoken; [requireCookieLogin] compares the [sessionId] cookie
    with the fixed value ["dummy-session-id"].  The login routes check the
    one hard-coded user; [/auth/login-jwt] signs a token valid for one
    hour, [/auth/login-cookie] sets the fixed session cookie.

    jsonwebtoken is a library the code only calls: the guards and the
    login are proved against the class [TokenScheme] of Jwt.v, and run
    on examples with the instance of JwtModel.v.  Times are seconds since
    the epoch, the unit of [iat]. *)

From S2P Require Import Prelude JsValue Http Jwt JwtModel Samples.

Local Open Scope string_scope.

(** [process.env.JWT_SECRET || "super-secret-key-change-me"] *)
Definition JWT_SECRET (env_secret : option string) : string :=
  match env_secret with
  | Some s => if String.eqb s "" then "super-secret-key-change-me" else s
  | None => "super-secret-key-change-me"
  end.

(** ** [requireJwt] (lines 36-67) *)

Definition missing_header : response :=
  json 401 (JObj [("error", JStr "Missing Authorization header");
                  ("hint", JStr "Send: Authorization: Bearer <token>")]).

Definition bad_format : response :=
  json 401 (JObj [("error", JStr "Invalid Authorization header format");
                  ("example", JStr "Authorization: Bearer <token>")]).

Definition invalid_token (msg : string) : response :=
  json 401 (JObj [("error", JStr "Invalid or expired token"); ("details", JStr msg)]).

Section Guards.
  Context `{TokenScheme} (secret : string) (now : Z).

Definition requireJwt : guard := fun req =>
    match assoc_first "authorization" (req_headers req) with
    | None => inl missing_header
    | Some authHeader =>
        if String.eqb authHeader "" then inl missing_header else
        let parts := js_split space authHeader in
        if negb (length parts =? 2)%nat || negb (String.eqb (default "" (head parts)) "Bearer")
        then inl bad_format
        else match jwt_verify (nth 1 parts "") secret now with
             | inl msg => inl (invalid_token msg)
             | inr decoded => inr decoded
             end
    end.
End Guards.

(** ** [requireCookieLogin] (lines 69-87) *)

Definition SESSION_ID : string := "dummy-session-id".

Definition missing_cookie : response :=
  json 401 (error_body "Missing sessionId cookie. Please login via /auth/login-cookie.").

Definition invalid_session : response :=
  json 401 (error_body "Invalid session cookie. Please login again.").

(** [{ username: "cookieUser", role: "cookie-tester" }] *)
Definition cookie_user : jsval :=
  JObj [("username", JStr "cookieUser"); ("role", JStr "cookie-tester")].

Definition requireCookieLogin : guard := fun req =>
  match assoc_first "sessionId" (req_cookies req) with
  | None => inl missing_cookie
  | Some sessionId =>
      if String.eqb sessionId "" then inl missing_cookie
      else if negb (String.eqb sessionId SESSION_ID) then inl invalid_session
      else inr cookie_user
  end.

(** ** The login routes (lines 130-229) *)

Definition DEMO_USER : claims := mk_claims "testuser" "student-admin".
Definition DEMO_PASSWORD : string := "password123".

(** [v === s] for a value and a string literal. *)
Definition is_string (v : jsval) (s : string) : bool :=
  match v with JStr t => String.eqb t s | _ => false end.

(** The checks both login routes make: 400, 401, or the user logs in. *)
Definition check_credentials (body : jsval) (missing : response) : option response :=
  let b := body_or_empty body in
  let username := get_prop b "username" in
  let password := get_prop b "password" in
  if negb (truthy username) || negb (truthy password) then Some missing
  else if negb (is_string username (c_username DEMO_USER)) || negb (is_string password DEMO_PASSWORD)
  then Some (json 401 (JObj [("error", JStr "Invalid credentials");
                             ("hint", JStr "Try username: testuser, password: password123")]))
  else None.

Definition login_missing_jwt : response :=
  json 400 (JObj [("error", JStr "username and password are required");
                  ("exampleBody", JObj [("username", JStr "testuser");
                                        ("password", JStr "password123")])]).

Definition login_missing_cookie : response :=
  json 400 (error_body "username and password are required").

(** [expiresIn: "1h"] *)
Definition TOKEN_LIFETIME : Z := 3600.

Definition login_jwt `{TokenScheme} (secret : string) (now : Z) (body : jsval) : response :=
  match check_credentials body login_missing_jwt with
  | Some r => r
  | None =>
      let token := jwt_sign DEMO_USER secret now TOKEN_LIFETIME in
      json 200 (JObj [("message", JStr "Login successful. Use this token in Authorization header.");
                      ("token", JStr token);
                      ("howToUse", JStr "Add header: Authorization: Bearer <token> to protected routes such as /students/protected")])
  end.

Definition login_cookie (body : jsval) : response :=
  match check_credentials body login_missing_cookie with
  | Some r => r
  | None =>
      mk_response 200
        (JObj [("message", JStr "Cookie login successful. 'sessionId' cookie set. Use it for cookie-protected routes.");
               ("note", JStr "Check 'Cookies' tab in Postman.")])
        [SetCookie "sessionId" SESSION_ID]
  end.

(** [GET /auth/me] after [requireJwt] *)
Definition me (user : jsval) : response :=
  json 200 (JObj [("message", JStr "You are authenticated with JWT!"); ("user", user)]).

(** [GET /auth/me-cookie] after [requireCookieLogin] *)
Definition me_cookie (user : jsval) : response :=
  json 200 (JObj [("message", JStr "You are authenticated with a cookie!"); ("user", user)]).

Definition logout_cookie : response :=
  mk_response 200 (JObj [("message", JStr "Logged out cookie session.")]) [ClearCookie "sessionId"].

Definition credentials_ok (body : jsval) : Prop :=
  get_prop (body_or_empty body) "username" = JStr "testuser" /\
  get_prop (body_or_empty body) "password" = JStr "password123".

(** ** Properties of the guards *)

Lemma js_split_join s :
  String.concat " " (js_split space s) = s /\ Forall (no_char space) (js_split space s).
Proof.
  destruct (split_on_acc_join space [] s) as [Hj Hf]. split; [exact Hj|]. by apply Hf.
Qed.

Lemma js_split_bearer token :
  no_char space token -> js_split space ("Bearer " +:+ token) = ["Bearer"; token].
Proof. intros Ht. unfold js_split. simpl. by rewrite split_on_acc_no_sep. Qed.

Section GuardProps.
  Context `{TokenScheme} (secret : string) (now : Z).

(** C9: [requireJwt] lets a request through only if its Authorization
    header is [Bearer] and a space-free token that [jwt.verify] accepts
    with the server's secret, and it passes on the payload [jwt.verify]
    decoded. *)
Theorem requireJwt_sound req u :
    requireJwt secret now req = inr u ->
    exists token, assoc_first "authorization" (req_headers req) = Some ("Bearer " +:+ token) /\
                  no_char space token /\ jwt_verify token secret now = inr u.
  Proof.
    unfold requireJwt. destruct (assoc_first _ _) as [h|]; [|discriminate].
    destruct (String.eqb h ""); [discriminate|].
    destruct (js_split_join h) as [Hj Hf].
    destruct (js_split space h) as [|a [|t [|? ?]]]; simpl; try discriminate.
    destruct (String.eqb_spec a "Bearer") as [->|]; simpl; [|discriminate].
    destruct (jwt_verify t secret now) eqn:Hv; [discriminate|]. intros [= <-].
    exists t. split_and!; [by rewrite <- Hj| |done].
    by apply Forall_cons_iff in Hf as [_ [Ht _]%Forall_cons_iff].
  Qed.

  (** A well-formed Bearer header: the guard's answer is [jwt.verify]'s. *)
Lemma requireJwt_bearer req token :
    assoc_first "authorization" (req_headers req) = Some ("Bearer " +:+ token) ->
    no_char space token ->
    requireJwt secret now req =
      match jwt_verify token secret now with
      | inl msg => inl (invalid_token msg)
      | inr decoded => inr decoded
      end.
  Proof. intros Hh Ht. unfold requireJwt. rewrite Hh, js_split_bearer by done. done. Qed.

  (** A header carrying a token signed with the server's secret passes
      the guard while the token is fresh and fails with ["jwt expired"]
      once [now] reaches [iat + life]. *)
Lemma requireJwt_token req c iat life :
    assoc_first "authorization" (req_headers req) =
      Some ("Bearer " +:+ jwt_sign c secret iat life) ->
    requireJwt secret now req =
      if (now <? iat + life)%Z then inr (decoded_to_js c iat (iat + life))
      else inl (invalid_token "jwt expired").
  Proof.
    intros Hh. rewrite (requireJwt_bearer _ _ Hh) by apply jwt_sign_no_space.
    destruct (Z.ltb_spec now (iat + life)).
    - by rewrite jwt_verify_sign.
    - by rewrite jwt_verify_expired.
  Qed.

(** C11: A token signed with another secret than the server's is
    rejected with 401 [Invalid or expired token], whatever the clock. *)
Theorem requireJwt_other_secret req c sec iat life :
    sec <> secret ->
    assoc_first "authorization" (req_headers req) = Some ("Bearer " +:+ jwt_sign c sec iat life) ->
    exists msg, requireJwt secret now req = inl (invalid_token msg).
  Proof.
    intros Hne Hh. rewrite (requireJwt_bearer _ _ Hh) by apply jwt_sign_no_space.
    destruct (jwt_verify_secret c sec secret iat life now Hne) as [msg ->]. by exists msg.
  Qed.

(** C10: [requireJwt] answers 401 missing-header when the Authorization
    header is absent or empty, and 401 format error exactly when the
    header does not split at spaces into two parts the first of which is
    [Bearer]. *)
Theorem requireJwt_rejects req :
  ((assoc_first "authorization" (req_headers req) = None \/
    assoc_first "authorization" (req_headers req) = Some "") ->
   requireJwt secret now req = inl missing_header) /\
  (forall h, assoc_first "authorization" (req_headers req) = Some h -> h <> "" ->
     (requireJwt secret now req = inl bad_format <->
      length (js_split space h) <> 2%nat \/ default "" (head (js_split space h)) <> "Bearer")).
Proof.
  split.
  - intros [Hh|Hh]; unfold requireJwt; by rewrite Hh.
  - intros h Hh Hne. unfold requireJwt. rewrite Hh.
    apply String.eqb_neq in Hne. rewrite Hne.
    destruct (Nat.eqb_spec (length (js_split space h)) 2),
      (String.eqb_spec (default "" (head (js_split space h))) "Bearer"); simpl; [|naive_solver..].
    split; [|intuition]. by destruct (jwt_verify _ _ _).
Qed.
End GuardProps.

(** The fixed session value passes the cookie guard. *)
Lemma requireCookieLogin_valid req :
  assoc_first "sessionId" (req_cookies req) = Some SESSION_ID ->
  requireCookieLogin req = inr cookie_user.
Proof. intros Hs. unfold requireCookieLogin. by rewrite Hs. Qed.

(** C27: [requireCookieLogin] lets a request through exactly when its
    [sessionId] cookie is the fixed value [dummy-session-id], and then
    always with the fixed identity [cookieUser]/[cookie-tester]. *)
Theorem requireCookieLogin_spec req u :
  requireCookieLogin req = inr u <->
  assoc_first "sessionId" (req_cookies req) = Some SESSION_ID /\ u = cookie_user.
Proof.
  unfold requireCookieLogin. destruct (assoc_first _ _) as [v|]; [|naive_solver].
  destruct (String.eqb_spec v ""), (String.eqb_spec v SESSION_ID); subst; simpl;
    naive_solver.
Qed.

(** ** Properties of the login routes *)

Lemma is_string_true v s : is_string v s = true <-> v = JStr s.
Proof. destruct v; simpl; rewrite ?String.eqb_eq; naive_solver. Qed.

Lemma is_string_truthy v s : s <> "" -> is_string v s = true -> truthy v = true.
Proof. intros Hs Hv. apply is_string_true in Hv as ->. by apply truthy_str. Qed.

Lemma check_credentials_None body missing :
  check_credentials body missing = None <-> credentials_ok body.
Proof.
  unfold check_credentials, credentials_ok, DEMO_PASSWORD. cbv zeta. cbn [c_username DEMO_USER].
  rewrite <- (is_string_true _ "testuser"), <- (is_string_true _ "password123").
  pose proof (is_string_truthy (get_prop (body_or_empty body) "username") "testuser" ltac:(done)) as Tu.
  pose proof (is_string_truthy (get_prop (body_or_empty body) "password") "password123" ltac:(done)) as Tp.
  destruct (is_string _ "testuser"), (is_string _ "password123"),
    (truthy (get_prop _ "username")), (truthy (get_prop _ "password")); simpl;
    try specialize (Tu eq_refl); try specialize (Tp eq_refl); intuition congruence.
Qed.

(** C29: POST /auth/login-jwt answers 200 with a one-hour token for
    [testuser] exactly when the body has username [testuser] and
    password [password123]; otherwise it answers 400 (a field missing or
    falsy) or 401. *)
Theorem login_jwt_spec `{TokenScheme} secret now body :
  (credentials_ok body ->
   login_jwt secret now body =
     json 200 (JObj [("message", JStr "Login successful. Use this token in Authorization header.");
                     ("token", JStr (jwt_sign DEMO_USER secret now TOKEN_LIFETIME));
                     ("howToUse", JStr "Add header: Authorization: Bearer <token> to protected routes such as /students/protected")])) /\
  (~ credentials_ok body -> status (login_jwt secret now body) = 400%Z \/
                            status (login_jwt secret now body) = 401%Z).
Proof.
  unfold login_jwt. split.
  - intros Hc. apply (check_credentials_None body login_missing_jwt) in Hc.
    by rewrite Hc.
  - intros Hc. destruct (check_credentials body login_missing_jwt) as [r|] eqn:E.
    + unfold check_credentials in E.
      repeat match goal with H : context [if ?b then _ else _] |- _ => destruct b end;
        simplify_eq; simpl; auto.
    + exfalso. apply Hc. by apply (check_credentials_None body login_missing_jwt).
Qed.

(** ** The guards and the login on concrete requests *)

Section Examples.
#[local] Existing Instance toy_token_scheme.

Lemma requireJwt_sound_witness :
  exists token, assoc_first "authorization" (req_headers (me_request ("Bearer " +:+ sample_token))) =
                  Some ("Bearer " +:+ token) /\
                no_char space token /\
                jwt_verify token "k" 10 = inr (decoded_to_js DEMO_USER 0 3600).
Proof. apply (requireJwt_sound "k" 10). vm_compute. reflexivity. Defined.

Lemma requireJwt_rejects_witness :
  requireJwt "k" 10 me_request_no_header = inl missing_header /\
  requireJwt "k" 10 (me_request "Basic abc") = inl bad_format.
Proof.
  split.
  - apply (proj1 (requireJwt_rejects "k" 10 me_request_no_header)). by left.
  - apply (proj2 (proj2 (requireJwt_rejects "k" 10 (me_request "Basic abc")) "Basic abc"
                    eq_refl ltac:(discriminate))).
    right. vm_compute. intros H. discriminate H.
Defined.

Lemma requireCookieLogin_spec_witness :
  requireCookieLogin (me_cookie_request "dummy-session-id") = inr cookie_user /\
  requireCookieLogin (me_cookie_request "other") <> inr cookie_user.
Proof.
  split.
  - by apply (proj2 (requireCookieLogin_spec _ _)).
  - intros H. apply (proj1 (requireCookieLogin_spec _ _)) in H as [H _]. discriminate H.
Defined.

Lemma requireJwt_other_secret_witness :
  exists msg, requireJwt "k" 10 (me_request ("Bearer " +:+ sample_token_other)) = inl (invalid_token msg).
Proof. apply (requireJwt_other_secret "k" 10 _ DEMO_USER "other" 0 3600); [done|reflexivity]. Defined.

Lemma login_jwt_spec_witness :
  status (login_jwt "k" 0 wrong_password_body) = 400%Z \/
  status (login_jwt "k" 0 wrong_password_body) = 401%Z.
Proof. apply (proj2 (login_jwt_spec "k" 0 wrong_password_body)). intros [_ H]. discriminate H. Defined.
End Examples.
