(* ===== verification/Students.v ===== *)
(** * The students router (routes/students.js lines 28-303) and its properties

    [module.exports = function (requireJwt, requireCookieLogin)] builds an
    Express router over the module-level [students] array.  Each handler
    is a [prog db response response]: it reads and updates the store and
    either returns early ([return res.status(..).json(..)], [halt]) or
    answers at its end ([pret]).  The router is a Section over the two
    middlewares it receives.

    PATCH keeps the object [students.find(...)] returned and assigns its
    fields one after the other, checking each before assigning it; a
    check that fails returns early, after the earlier assignments and
    without [saveStudents()].  The model keeps that reference as the
    index of the object in the array ([find_ref]) and the assignments as
    in-place updates of that element.

    The second half of the file proves the invariants every route keeps
    (unique ids, e-mails unique up to case, positive ages), the
    behaviour of each handler on each of its branches, and the behaviours
    the specification leaves open or states differently: PATCH leaves the
    fields it assigned before a failing check in memory, and accepts an
    empty name or e-mail. *)

From S2P Require Import Prelude JsValue JsNumber Http Student Store Samples.

Local Open Scope string_scope.
Local Open Scope prog_scope.

Definition handler : Type := prog db response response.

(** ** Responses *)

Definition msg_invalid_id : string := "Invalid ID. Must be a number.".

Definition bad_id : response := json 400 (error_body msg_invalid_id).

(** [`Student with id ${id} not found`] *)
Definition not_found (id : jsnum) : response :=
  json 404 (error_body ("Student with id " +:+ num_to_string id +:+ " not found")).

Definition validation_failed (errors : list string) : response :=
  json 400 (JObj [("error", JStr "Validation failed"); ("details", JArr (JStr <$> errors))]).

Definition conflict (msg : string) (existing : Student) : response :=
  json 409 (JObj [("error", JStr msg); ("student", student_to_js existing)]).

Definition with_student (code : Z) (msg : string) (s : jsval) : response :=
  json code (JObj [("message", JStr msg); ("student", s)]).

Definition saveStudents : prog db response unit := pmodify save.

(** ** GET / (lines 34-39) *)
Definition list_students : handler :=
  d <- pget ;;
  pret (json 200 (JObj [("count", JNum (Z.of_nat (length (students d))));
                        ("data", JArr (student_to_js <$> students d))])).

(** ** GET /:id (lines 42-58) *)
Definition get_student (idp : string) : handler :=
  let id := js_Number idp in
  if js_isNaN id then halt bad_id else
  d <- pget ;;
  match js_find (id_matches id) (students d) with
  | None => halt (not_found id)
  | Some s => pret (json 200 (student_to_js s))
  end.

(** ** POST / (lines 63-115) *)
Definition create_student (body : jsval) : handler :=
  match validate_full (body_fields body) with
  | inl errors => halt (validation_failed errors)
  | inr p =>
      d <- pget ;;
      match find_dup (students d) (p_email p) with
      | Some existing => halt (conflict "A student with this email already exists" existing)
      | None =>
          let newStudent := with_id (max_id (students d) + 1) p in
          pmodify (set_students (students d ++ [newStudent])) ;;
          saveStudents ;;
          pret (with_student 201 "Student created" (student_to_js newStudent))
      end
  end.

(** ** PUT /:id (lines 118-183) *)
Definition replace_student (idp : string) (body : jsval) : handler :=
  let id := js_Number idp in
  if js_isNaN id then halt bad_id else
  d <- pget ;;
  let index := js_findIndex (id_matches id) (students d) in
  if (index =? -1)%Z then halt (not_found id) else
  match validate_full (body_fields body) with
  | inl errors => halt (validation_failed errors)
  | inr p =>
      match find_dup_other (students d) (p_email p) id with
      | Some existing => halt (conflict "Another student with this email already exists" existing)
      | None =>
          let updatedStudent := with_id (num_int_value id) p in
          pmodify (set_students (<[Z.to_nat index := updatedStudent]> (students d))) ;;
          saveStudents ;;
          pret (with_student 200 "Student updated" (student_to_js updatedStudent))
      end
  end.

(** ** PATCH /:id (lines 186-257) *)

Definition set_name (n : string) (s : Student) : Student :=
  mk_student (sid s) n (age s) (email s) (isActive s).
Definition set_age (a : Z) (s : Student) : Student :=
  mk_student (sid s) (name s) a (email s) (isActive s).
Definition set_email (e : string) (s : Student) : Student :=
  mk_student (sid s) (name s) (age s) e (isActive s).
Definition set_isActive (b : bool) (s : Student) : Student :=
  mk_student (sid s) (name s) (age s) (email s) b.

(** [student.field = value] on the object at index [i] of [students]. *)
Definition mutate (i : nat) (f : Student -> Student) : prog db response unit :=
  pmodify (fun d => set_students (alter f i (students d)) d).

(** [if (name !== undefined) { if (typeof name !== "string") return 400;
    student.name = name; }] *)
Definition patch_name (i : nat) (v : jsval) : prog db response unit :=
  if is_undefined v then pret tt else
  match v with
  | JStr n => mutate i (set_name n)
  | _ => halt (json 400 (error_body "Invalid 'name'. Must be a string."))
  end.

(** [typeof age !== "number" || age <= 0] *)
Definition patch_age (i : nat) (v : jsval) : prog db response unit :=
  if is_undefined v then pret tt else
  match v with
  | JNum a => if (a <=? 0)%Z
              then halt (json 400 (error_body "Invalid 'age'. Must be a positive number."))
              else mutate i (set_age a)
  | _ => halt (json 400 (error_body "Invalid 'age'. Must be a positive number."))
  end.

(** A string e-mail is checked against the other records before the
    assignment. *)
Definition patch_email (i : nat) (id : jsnum) (v : jsval) : prog db response unit :=
  if is_undefined v then pret tt else
  match v with
  | JStr e =>
      d <- pget ;;
      match find_dup_other (students d) e id with
      | Some existing => halt (conflict "Another student with this email already exists" existing)
      | None => mutate i (set_email e)
      end
  | _ => halt (json 400 (error_body "Invalid 'email'. Must be a string."))
  end.

Definition patch_isActive (i : nat) (v : jsval) : prog db response unit :=
  if is_undefined v then pret tt else
  match v with
  | JBool b => mutate i (set_isActive b)
  | _ => halt (json 400 (error_body "Invalid 'isActive'. Must be a boolean."))
  end.

(** Lines 201-256, once [student] has been found at index [i]. *)
Definition patch_fields (i : nat) (id : jsnum) (f : fields) : handler :=
  patch_name i (f_name f) ;;
  patch_age i (f_age f) ;;
  patch_email i id (f_email f) ;;
  patch_isActive i (f_isActive f) ;;
  saveStudents ;;
  d' <- pget ;;
  pret (with_student 200 "Student partially updated"
          (default JUndefined (student_to_js <$> students d' !! i))).

Definition patch_student (idp : string) (body : jsval) : handler :=
  let id := js_Number idp in
  if js_isNaN id then halt bad_id else
  d <- pget ;;
  match find_ref (students d) id with
  | None => halt (not_found id)
  | Some i => patch_fields i id (body_fields body)
  end.

(** ** DELETE /:id (lines 260-282) *)
Definition delete_student (idp : string) : handler :=
  let id := js_Number idp in
  if js_isNaN id then halt bad_id else
  d <- pget ;;
  let index := js_findIndex (id_matches id) (students d) in
  if (index =? -1)%Z then halt (not_found id) else
  let deleted := students d !! Z.to_nat index in
  pmodify (set_students (splice1 (Z.to_nat index) (students d))) ;;
  saveStudents ;;
  pret (with_student 200 "Student deleted" (default JUndefined (student_to_js <$> deleted))).

(** ** The protected test routes (lines 287-300) *)
Definition cookie_only (user : jsval) : response :=
  json 200 (JObj [("message", JStr "This students route is protected by cookie-based auth.");
                  ("user", user)]).

Definition jwt_only (user : jsval) : response :=
  json 200 (JObj [("message", JStr "This students route is protected by JWT."); ("user", user)]).

(** ** Route matching

    Express matches route paths case-insensitively and accepts one
    trailing slash ([strict: false]); a [:id] parameter is one non-empty
    path segment.  GET routes also answer HEAD.  [sub] is the path below
    the mount point [/students], split at the slashes. *)

Definition strip_trailing_slash (segs : list string) : list string :=
  match rev segs with
  | EmptyString :: r => rev r
  | _ => segs
  end.

Definition is_get (m : http_method) : bool :=
  match m with GET | HEAD => true | _ => false end.

Section Router.
  Context (requireJwt requireCookieLogin : guard).

  (** [router.VERB(path, middleware, handler)] *)
Definition guarded (g : guard) (req : request) (h : jsval -> handler) : handler :=
    match g req with
    | inl r => halt r
    | inr user => h user
    end.

  (** The route the router runs for [req], in registration order, or
      [None] when none matches and the request falls through. *)
Definition students_router (req : request) (sub : list string) : option handler :=
    let m := req_method req in
    let body := body_value req in
    match strip_trailing_slash sub with
    | [] =>
        if is_get m then Some list_students
        else if bool_decide (m = POST)
        then Some (guarded requireJwt req (fun _ => create_student body))
        else None
    | [x] =>
        if String.eqb x "" then None
        else if is_get m then Some (get_student x)
        else match m with
             | PUT => Some (guarded requireJwt req (fun _ => replace_student x body))
             | PATCH => Some (guarded requireJwt req (fun _ => patch_student x body))
             | DELETE => Some (guarded requireJwt req (fun _ => delete_student x))
             | _ => None
             end
    | [p; q] =>
        if is_get m && ci_eqb p "protected" then
          if ci_eqb q "cookie-only"
          then Some (guarded requireCookieLogin req (fun u => pret (cookie_only u)))
          else if ci_eqb q "jwt-only"
          then Some (guarded requireJwt req (fun u => pret (jwt_only u)))
          else None
        else None
    | _ => None
    end.
End Router.

(** Unfold a handler's monadic steps, [saveStudents] and [mutate] included. *)
Ltac handler_unfold := unfold saveStudents, mutate in *; prog_unfold.

(** * Properties *)


Definition wf_db (d : db) : Prop := store_wf (students d).

(** Every stored age is positive. *)
Definition ages_positive (d : db) : Prop := Forall (fun s => (0 < age s)%Z) (students d).

(** ** Invariants along a PATCH

    Between its field assignments a PATCH keeps the store well formed and
    the index [i] on a record the requested id matches. *)
Definition patch_inv (P : db -> Prop) (id : jsnum) (i : nat) (d : db) : Prop :=
  P d /\ exists s, students d !! i = Some s /\ id_matches id s = true.

(** What a PATCH that passes all its checks does to the record. *)
Definition upd_name (v : jsval) (s : Student) : Student :=
  match v with JStr n => set_name n s | _ => s end.
Definition upd_age (v : jsval) (s : Student) : Student :=
  match v with JNum a => set_age a s | _ => s end.
Definition upd_email (v : jsval) (s : Student) : Student :=
  match v with JStr e => set_email e s | _ => s end.
Definition upd_isActive (v : jsval) (s : Student) : Student :=
  match v with JBool b => set_isActive b s | _ => s end.

Definition apply_patch (f : fields) (s : Student) : Student :=
  upd_isActive (f_isActive f) (upd_email (f_email f) (upd_age (f_age f) (upd_name (f_name f) s))).

(** Every present field has the type PATCH requires, and a present age
    is positive. *)
Definition patch_accepts (f : fields) : Prop :=
  (f_name f = JUndefined \/ exists n, f_name f = JStr n) /\
  (f_age f = JUndefined \/ exists a, f_age f = JNum a /\ (0 < a)%Z) /\
  (f_email f = JUndefined \/ exists e, f_email f = JStr e) /\
  (f_isActive f = JUndefined \/ exists b, f_isActive f = JBool b).

Section HandlerLemmas.

Lemma guarded_preserves (P : db -> Prop) g req (h : jsval -> handler) :
    (forall u, preserves P (h u)) -> preserves P (guarded g req h).
  Proof. intros Hh. unfold guarded. destruct (g req); [apply preserves_halt|apply Hh]. Qed.

  (** An index [findIndex] returns is not -1 and converts back. *)
Lemma findIndex_index (k : nat) :
    ((Z.of_nat k =? -1)%Z = false /\ Z.to_nat (Z.of_nat k) = k).
  Proof. split; [apply Z.eqb_neq; lia|apply Nat2Z.id]. Qed.

  (** A mutation keeping the id keeps the index on the matched record. *)
Lemma mutate_patch_inv_at (P : db -> Prop) id i f d :
    (forall s, sid (f s) = sid s) -> patch_inv P id i d ->
    (forall s, students d !! i = Some s -> id_matches id s = true -> P d ->
               P (set_students (alter f i (students d)) d)) ->
    patch_inv P id i (set_students (alter f i (students d)) d).
  Proof.
    intros Hsid (Hd & s & Hs & Hm) HP.
    split; [by apply (HP s)|]. exists (f s). simpl. rewrite list_lookup_alter_eq, Hs.
    split; [done|]. unfold id_matches in *. by rewrite Hsid.
  Qed.

Lemma mutate_patch_inv (P : db -> Prop) id i f :
    (forall s, sid (f s) = sid s) ->
    (forall d s, P d -> students d !! i = Some s -> id_matches id s = true ->
                 P (set_students (alter f i (students d)) d)) ->
    preserves (patch_inv P id i) (mutate i f).
  Proof.
    intros Hsid HP. apply preserves_modify. intros d Hd.
    apply mutate_patch_inv_at; [done|done|]. intros s Hs Hm HPd. by eapply HP.
  Qed.
(** The steps of a PATCH after the lookup keep whatever each of them
    and [saveStudents] keep. *)
Lemma patch_fields_preserves (Q : db -> Prop) i id f :
  (forall v, preserves Q (patch_name i v)) -> (forall v, preserves Q (patch_age i v)) ->
  (forall v, preserves Q (patch_email i id v)) -> (forall v, preserves Q (patch_isActive i v)) ->
  (forall d, Q d -> Q (save d)) -> preserves Q (patch_fields i id f).
  Proof.
    intros Hn Ha He Hb Hs. unfold patch_fields.
    repeat (apply preserves_bind; [first [apply Hn|apply Ha|apply He|apply Hb
                                         |by apply preserves_modify]|intros _]).
    apply preserves_bind_get. done.
  Qed.

(** The four field steps of a PATCH keep what the assignments they may
    make keep: a name, a positive age, an e-mail, a boolean. *)
Lemma patch_steps_preserve (Q : db -> Prop) i id :
  (forall n, preserves Q (mutate i (set_name n))) ->
  (forall a, (0 < a)%Z -> preserves Q (mutate i (set_age a))) ->
  (forall e, preserves Q (mutate i (set_email e))) ->
  (forall b, preserves Q (mutate i (set_isActive b))) ->
  (forall v, preserves Q (patch_name i v)) /\ (forall v, preserves Q (patch_age i v)) /\
  (forall v, preserves Q (patch_email i id v)) /\ (forall v, preserves Q (patch_isActive i v)).
  Proof.
    intros Hn Ha He Hb.
    split_and!; intros v; unfold patch_name, patch_age, patch_email, patch_isActive;
      (destruct (is_undefined v); [apply preserves_ret|]);
      destruct v as [| |b|a|e| |]; try apply preserves_halt; auto.
    - destruct (a <=? 0)%Z eqn:E; [apply preserves_halt|]. apply Ha. lia.
    - apply preserves_bind_get. intros d Hd.
      destruct (find_dup_other _ _ _); [done|]. by apply He.
  Qed.
End HandlerLemmas.

#[export] Hint Resolve guarded_preserves : api.

(** ** The store invariant *)

Section WellFormed.

Lemma create_student_wf body : preserves wf_db (create_student body).
  Proof.
    unfold create_student. destruct (validate_full _) as [errs|p]; [apply preserves_halt|].
    apply preserves_bind_get. intros d Hwf.
    destruct (find_dup _ _) eqn:Hd; handler_unfold; [done|].
    apply store_wf_push; [done|done|apply fresh_id_not_in].
  Qed.

Lemma replace_student_wf idp body : preserves wf_db (replace_student idp body).
  Proof.
    unfold replace_student. destruct (js_isNaN _); [apply preserves_halt|].
    apply preserves_bind_get. intros d Hwf.
    destruct (js_findIndex_spec (id_matches (js_Number idp)) (students d))
      as [[-> _]|(k & old & Hidx & Hk & _ & Hm & _)]; [done|].
    rewrite Hidx. destruct (findIndex_index k) as [-> ->].
    destruct (validate_full _) as [errs|p]; [done|].
    destruct (find_dup_other _ _ _) eqn:Hd; handler_unfold; [done|].
    eapply store_wf_replace; [done|exact Hk|exact Hm| |exact Hd].
    by apply num_int_value_eq.
  Qed.

Lemma delete_student_wf idp : preserves wf_db (delete_student idp).
  Proof.
    unfold delete_student. destruct (js_isNaN _); [apply preserves_halt|].
    apply preserves_bind_get. intros d Hwf.
    destruct (_ =? -1)%Z; handler_unfold; [done|]. by apply store_wf_splice1.
  Qed.

Lemma patch_keep_wf id i f :
    (forall s, sid (f s) = sid s /\ email (f s) = email s) ->
    preserves (patch_inv wf_db id i) (mutate i f).
  Proof.
    intros Hf. apply mutate_patch_inv; [apply Hf|]. intros d s Hd _ _. by apply store_wf_alter.
  Qed.

Lemma patch_email_wf i id v : preserves (patch_inv wf_db id i) (patch_email i id v).
  Proof.
    unfold patch_email. destruct (is_undefined v); [apply preserves_ret|].
    destruct v as [| | | |e| |]; try apply preserves_halt.
    apply preserves_bind_get. intros d Hinv.
    destruct (find_dup_other _ _ _) eqn:Hd; [done|].
    handler_unfold. apply mutate_patch_inv_at; [done|done|].
    intros s Hs Hm Hwf. unfold wf_db; simpl.
    rewrite (alter_as_insert _ _ _ s Hs).
    eapply store_wf_replace; [done|exact Hs|exact Hm|done|exact Hd].
  Qed.
End WellFormed.

(** ** From the handlers to the router *)

Section RouterInvariant.
  Context (P : db -> Prop).
  Hypothesis P_save : forall d, P d -> P (save d).
  Hypothesis P_create : forall body, preserves P (create_student body).
  Hypothesis P_replace : forall idp body, preserves P (replace_student idp body).
  Hypothesis P_delete : forall idp, preserves P (delete_student idp).
  Hypothesis P_name : forall id i v, preserves (patch_inv P id i) (patch_name i v).
  Hypothesis P_age : forall id i v, preserves (patch_inv P id i) (patch_age i v).
  Hypothesis P_email : forall id i v, preserves (patch_inv P id i) (patch_email i id v).
  Hypothesis P_isActive : forall id i v, preserves (patch_inv P id i) (patch_isActive i v).

Lemma patch_student_preserves idp body : preserves P (patch_student idp body).
  Proof.
    unfold patch_student. destruct (js_isNaN _); [apply preserves_halt|].
    apply preserves_bind_get. intros d Hd.
    destruct (find_ref _ _) as [i|] eqn:Hf; [|done].
    destruct (find_ref_Some _ _ _ Hf) as (s & Hs & Hm & _).
    enough (Hpres : preserves (patch_inv P (js_Number idp) i) (patch_fields i (js_Number idp) (body_fields body)))
      by (apply (proj1 (Hpres d (conj Hd (ex_intro _ s (conj Hs Hm)))))).
    apply patch_fields_preserves; auto.
    intros d' [HP Hs']. split; [by apply P_save|done].
  Qed.

Lemma list_students_preserves : preserves P list_students.
  Proof. apply preserves_bind_get. done. Qed.

Lemma get_student_preserves idp : preserves P (get_student idp).
  Proof.
    unfold get_student. destruct (js_isNaN _); [apply preserves_halt|].
    apply preserves_bind_get. intros d Hd. by destruct (js_find _ _).
  Qed.

Lemma students_router_preserves g1 g2 req sub h :
    students_router g1 g2 req sub = Some h -> preserves P h.
  Proof.
    unfold students_router.
    destruct (strip_trailing_slash sub) as [|x [|y [|z r]]];
      repeat match goal with
             | |- (if ?b then _ else _) = _ -> _ => destruct b
             | |- match ?m with _ => _ end = _ -> _ => destruct m
             end;
      intros [= <-]; auto using list_students_preserves, get_student_preserves,
        patch_student_preserves, guarded_preserves, preserves_ret.
  Qed.
End RouterInvariant.

(** ** Well-formedness of the store *)

Section WellFormedPatch.
Lemma patch_name_wf id i v : preserves (patch_inv wf_db id i) (patch_name i v).
  Proof.
    unfold patch_name. destruct (is_undefined v); [apply preserves_ret|].
    destruct v; try apply preserves_halt. by apply patch_keep_wf.
  Qed.

Lemma patch_age_wf id i v : preserves (patch_inv wf_db id i) (patch_age i v).
  Proof.
    unfold patch_age. destruct (is_undefined v); [apply preserves_ret|].
    destruct v; try apply preserves_halt.
    destruct (_ <=? 0)%Z; [apply preserves_halt|]. by apply patch_keep_wf.
  Qed.

Lemma patch_isActive_wf id i v : preserves (patch_inv wf_db id i) (patch_isActive i v).
  Proof.
    unfold patch_isActive. destruct (is_undefined v); [apply preserves_ret|].
    destruct v; try apply preserves_halt. by apply patch_keep_wf.
  Qed.
End WellFormedPatch.

Lemma students_router_wf g1 g2 req sub h :
  students_router g1 g2 req sub = Some h -> preserves wf_db h.
Proof.
  intros Hr. eapply (students_router_preserves wf_db); eauto using create_student_wf,
    replace_student_wf, delete_student_wf, patch_name_wf, patch_age_wf, patch_email_wf,
    patch_isActive_wf.
Qed.

(** ** Positive ages *)

Section Ages.
Lemma ages_mutate id i f :
    (forall s, sid (f s) = sid s) -> (forall s, (0 < age s)%Z -> (0 < age (f s))%Z) ->
    preserves (patch_inv ages_positive id i) (mutate i f).
  Proof.
    intros Hsid Hage. apply mutate_patch_inv; [done|].
    intros d s Hd _ _. apply Forall_alter; [done|]. intros x _ Hx. by apply Hage.
  Qed.

Lemma ages_patch_name id i v : preserves (patch_inv ages_positive id i) (patch_name i v).
  Proof.
    unfold patch_name. destruct (is_undefined v); [apply preserves_ret|].
    destruct v; try apply preserves_halt. by apply ages_mutate.
  Qed.

Lemma ages_patch_age id i v : preserves (patch_inv ages_positive id i) (patch_age i v).
  Proof.
    unfold patch_age. destruct (is_undefined v); [apply preserves_ret|].
    destruct v as [| | |a| | |]; try apply preserves_halt.
    destruct (a <=? 0)%Z eqn:Ha; [apply preserves_halt|].
    apply ages_mutate; [done|]. intros s _. simpl. lia.
  Qed.

Lemma ages_patch_email id i v : preserves (patch_inv ages_positive id i) (patch_email i id v).
  Proof.
    unfold patch_email. destruct (is_undefined v); [apply preserves_ret|].
    destruct v; try apply preserves_halt.
    apply preserves_bind; [apply preserves_bind_get; done|]. intros d.
    destruct (find_dup_other _ _ _); [apply preserves_halt|]. by apply ages_mutate.
  Qed.

Lemma ages_patch_isActive id i v : preserves (patch_inv ages_positive id i) (patch_isActive i v).
  Proof.
    unfold patch_isActive. destruct (is_undefined v); [apply preserves_ret|].
    destruct v; try apply preserves_halt. by apply ages_mutate.
  Qed.

Lemma ages_create body : preserves ages_positive (create_student body).
  Proof.
    unfold create_student. destruct (validate_full _) as [errs|p] eqn:Hv; [apply preserves_halt|].
    apply validate_full_inr in Hv as (_ & _ & Hage & _).
    apply preserves_bind_get. intros d Hd.
    destruct (find_dup _ _); handler_unfold; [done|].
    apply Forall_app_2; [done|]. by apply Forall_singleton.
  Qed.

Lemma ages_replace idp body : preserves ages_positive (replace_student idp body).
  Proof.
    unfold replace_student. destruct (js_isNaN _); [apply preserves_halt|].
    apply preserves_bind_get. intros d Hd.
    destruct (_ =? -1)%Z; [done|].
    destruct (validate_full _) as [errs|p] eqn:Hv; [done|].
    apply validate_full_inr in Hv as (_ & _ & Hage & _).
    destruct (find_dup_other _ _ _); handler_unfold; [done|]. by apply Forall_insert.
  Qed.

Lemma ages_delete idp : preserves ages_positive (delete_student idp).
  Proof.
    unfold delete_student. destruct (js_isNaN _); [apply preserves_halt|].
    apply preserves_bind_get. intros d Hd.
    destruct (_ =? -1)%Z; handler_unfold; [done|]. rewrite splice1_delete. by apply Forall_delete.
  Qed.
End Ages.

Lemma students_router_ages g1 g2 req sub h :
  students_router g1 g2 req sub = Some h -> preserves ages_positive h.
Proof.
  intros Hr. eapply (students_router_preserves ages_positive); eauto using ages_create,
    ages_replace, ages_delete, ages_patch_name, ages_patch_age, ages_patch_email,
    ages_patch_isActive.
Qed.

(** ** Requests the bearer guard rejects

    Every route that changes the store is behind [requireJwt]; the
    others only read it.  When the guard rejects the request, whatever
    route runs keeps every property of the state. *)

Lemma students_router_rejected (P : db -> Prop) g1 g2 req sub h r :
  g1 req = inl r -> students_router g1 g2 req sub = Some h -> preserves P h.
Proof.
  intros Hg. unfold students_router, guarded. rewrite Hg.
  destruct (strip_trailing_slash sub) as [|x [|y [|z l]]];
    repeat match goal with
           | |- (if ?b then _ else _) = _ -> _ => destruct b
           | |- match ?m with _ => _ end = _ -> _ => destruct m
           end;
    intros [= <-]; auto using preserves_halt, preserves_ret.
  - apply preserves_bind_get. done.
  - unfold get_student. destruct (js_isNaN _); [apply preserves_halt|].
    apply preserves_bind_get. intros d Hd. by destruct (js_find _ _).
  - destruct (g2 req); auto using preserves_halt, preserves_ret.
Qed.

(** ** POST /students *)

(** A valid POST with a new e-mail: the record it appends and saves. *)
Lemma create_success_state d body p :
  validate_full (body_fields body) = inr p -> find_dup (students d) (p_email p) = None ->
  run_prog (create_student body) d =
    (with_student 201 "Student created" (student_to_js (with_id (max_id (students d) + 1) p)),
     save (set_students (students d ++ [with_id (max_id (students d) + 1) p]) d)).
Proof. intros Hv Hd. unfold create_student. rewrite Hv. handler_unfold. by rewrite Hd. Qed.

(** C3: A valid POST /students whose e-mail is new appends one record
    with the body's fields and id [max id + 1] (1 on an empty store),
    greater than every stored id, saves the store and answers 201 with
    the record. *)
Theorem create_student_assigns_next_id d body p :
  validate_full (body_fields body) = inr p -> find_dup (students d) (p_email p) = None ->
  exists s, run_prog (create_student body) d =
              (with_student 201 "Student created" (student_to_js s),
               save (set_students (students d ++ [s]) d)) /\
            s = with_id (sid s) p /\
            (forall t, t ∈ students d -> (sid t < sid s)%Z) /\
            (sid s = 1%Z \/ exists t, t ∈ students d /\ sid s = (sid t + 1)%Z).
Proof.
  intros Hv Hd. exists (with_id (max_id (students d) + 1) p).
  rewrite (create_success_state d body p Hv Hd). split_and!; [done|done| |].
  - intros t Ht. simpl. pose proof (max_id_ge _ _ Ht). lia.
  - simpl. destruct (max_id_cases (students d)) as [->|(t & Ht & ->)]; [by left|right; eauto].
Qed.

(** C4: A valid POST /students whose e-mail equals a stored one up to
    case answers 409 with a stored record of that e-mail and leaves the
    store, file included, unchanged. *)
Theorem create_student_duplicate d body p t :
  validate_full (body_fields body) = inr p -> t ∈ students d -> ci_equiv (email t) (p_email p) ->
  exists ex, run_prog (create_student body) d =
               (conflict "A student with this email already exists" ex, d) /\
             ex ∈ students d /\ ci_equiv (email ex) (p_email p).
Proof.
  intros Hv Ht He. unfold create_student. rewrite Hv. handler_unfold.
  destruct (find_dup _ _) as [ex|] eqn:Hd.
  - apply find_dup_Some in Hd. by exists ex.
  - exfalso. rewrite find_dup_None in Hd. by apply (Hd t).
Qed.

(** A POST /students body with any validation error answers 400
    with the full list of the messages, in field order, and leaves the
    store unchanged. *)
Theorem create_student_invalid d body :
  validation_errors (body_fields body) <> [] ->
  run_prog (create_student body) d = (validation_failed (validation_errors (body_fields body)), d).
Proof. intros He. unfold create_student. by rewrite validate_full_errors. Qed.

(** ** Locating the record *)

Lemma find_ref_js_find l id :
  find_ref l id = None <-> js_find (id_matches id) l = None.
Proof. rewrite find_ref_None, js_find_None_not_found. done. Qed.

Lemma findIndex_found l id :
  js_find (id_matches id) l <> None -> (js_findIndex (id_matches id) l =? -1)%Z = false.
Proof. intros H. apply Z.eqb_neq. by rewrite js_findIndex_neg. Qed.

(** ** The age boundary *)

(** C21: A body whose age is a number at most 0 is rejected: POST and
    PUT on an existing id answer 400 with the age message among the
    validation errors and leave the store unchanged, and PATCH answers
    400. *)
Theorem nonpositive_age_rejected d body a idp :
  f_age (body_fields body) = JNum a -> (a <= 0)%Z ->
  msg_age ∈ validation_errors (body_fields body) /\
  run_prog (create_student body) d = (validation_failed (validation_errors (body_fields body)), d) /\
  (js_isNaN (js_Number idp) = false -> js_find (id_matches (js_Number idp)) (students d) <> None ->
     run_prog (replace_student idp body) d =
       (validation_failed (validation_errors (body_fields body)), d) /\
     status (fst (run_prog (patch_student idp body) d)) = 400%Z).
Proof.
  intros Ha Hle.
  assert (Hmsg : msg_age ∈ validation_errors (body_fields body))
    by (apply age_invalid_msg; rewrite Ha; by apply num_le_zero_age_invalid).
  assert (Hne : validation_errors (body_fields body) <> []) by (intros E; rewrite E in Hmsg; set_solver).
  split_and!; [done|by apply create_student_invalid|]. intros Hnan Hfound. split.
  - unfold replace_student. rewrite Hnan. handler_unfold. rewrite findIndex_found by done.
    by rewrite validate_full_errors.
  - unfold patch_student, patch_fields. rewrite Hnan. handler_unfold.
    destruct (find_ref _ _) as [i|] eqn:Hf; [|by apply find_ref_js_find in Hf].
    unfold patch_name, patch_age. rewrite Ha. apply Z.leb_le in Hle.
    destruct (is_undefined _); [simpl; by rewrite Hle|].
    destruct (f_name _); simpl; try rewrite Hle; done.
Qed.

(** ** PATCH /students/:id *)

Lemma sid_upd_name v s : sid (upd_name v s) = sid s. Proof. by destruct v. Qed.
Lemma sid_upd_age v s : sid (upd_age v s) = sid s. Proof. by destruct v. Qed.
Lemma sid_upd_email v s : sid (upd_email v s) = sid s. Proof. by destruct v. Qed.
Lemma sid_upd_isActive v s : sid (upd_isActive v s) = sid s. Proof. by destruct v. Qed.

Lemma sid_apply_patch f s : sid (apply_patch f s) = sid s.
Proof. unfold apply_patch. by rewrite sid_upd_isActive, sid_upd_email, sid_upd_age, sid_upd_name. Qed.

#[export] Hint Rewrite sid_upd_name sid_upd_age sid_upd_email sid_upd_isActive sid_apply_patch
  : prog_simpl.

Section PatchSteps.
  Context (i : nat) (d : db) (s : Student).
  Hypothesis Hs : students d !! i = Some s.

Lemma set_students_insert_id : set_students (<[i:=s]> (students d)) d = d.
  Proof. rewrite list_insert_id by done. by destruct d. Qed.

Lemma mutate_at f : mutate i f d = Go tt (set_students (<[i:=f s]> (students d)) d).
  Proof. unfold mutate, pmodify. by rewrite (alter_as_insert _ _ _ _ Hs). Qed.

Lemma patch_name_go v :
    (v = JUndefined \/ exists n, v = JStr n) ->
    patch_name i v d = Go tt (set_students (<[i:=upd_name v s]> (students d)) d).
  Proof.
    intros [->|[n ->]]; [|apply mutate_at]. simpl. by rewrite set_students_insert_id.
  Qed.

Lemma patch_age_go v :
    (v = JUndefined \/ exists a, v = JNum a /\ (0 < a)%Z) ->
    patch_age i v d = Go tt (set_students (<[i:=upd_age v s]> (students d)) d).
  Proof.
    unfold patch_age. intros [->|(a & -> & Ha)]; simpl; [by rewrite set_students_insert_id|].
    destruct (Z.leb_spec a 0); [lia|]. apply mutate_at.
  Qed.

Lemma patch_email_go id v :
    (v = JUndefined \/ exists e, v = JStr e /\ find_dup_other (students d) e id = None) ->
    patch_email i id v d = Go tt (set_students (<[i:=upd_email v s]> (students d)) d).
  Proof.
    unfold patch_email. intros [->|(e & -> & He)]; simpl; [by rewrite set_students_insert_id|].
    unfold pbind, pget. rewrite He. apply mutate_at.
  Qed.

Lemma patch_isActive_go v :
    (v = JUndefined \/ exists b, v = JBool b) ->
    patch_isActive i v d = Go tt (set_students (<[i:=upd_isActive v s]> (students d)) d).
  Proof. intros [->|[b ->]]; [|apply mutate_at]. simpl. by rewrite set_students_insert_id. Qed.
End PatchSteps.

Lemma find_dup_other_insert l i x y e id :
  l !! i = Some x -> id_matches id x = true -> sid y = sid x ->
  find_dup_other (<[i:=y]> l) e id = find_dup_other l e id.
Proof.
  intros Hx Hm Hsid. unfold find_dup_other.
  apply (js_find_insert_rejected _ _ _ x y Hx).
  - unfold id_matches in Hm. by rewrite Hm, andb_false_r.
  - unfold id_matches in Hm. by rewrite Hsid, Hm, andb_false_r.
Qed.

(** C8: A PATCH on a stored id whose present fields all have the right
    types (a positive age) and whose e-mail, if present, belongs to no
    other record updates exactly the present fields of that record,
    saves the store and answers 200 with the updated record. *)
Theorem patch_student_ok d idp body i s :
  js_isNaN (js_Number idp) = false -> find_ref (students d) (js_Number idp) = Some i ->
  students d !! i = Some s -> patch_accepts (body_fields body) ->
  (forall e, f_email (body_fields body) = JStr e ->
             find_dup_other (students d) e (js_Number idp) = None) ->
  run_prog (patch_student idp body) d =
    (with_student 200 "Student partially updated"
       (student_to_js (apply_patch (body_fields body) s)),
     save (set_students (<[i := apply_patch (body_fields body) s]> (students d)) d)).
Proof.
  intros Hnan Hf Hs (Hn & Ha & He & Hb) Hdup.
  destruct (find_ref_Some _ _ _ Hf) as (s' & Hs' & Hm & _).
  rewrite Hs in Hs'. injection Hs' as <-.
  assert (Hlen : (i < length (students d))%nat) by (by eapply lookup_lt_Some).
  unfold patch_student, patch_fields. rewrite Hnan. handler_unfold. rewrite Hf.
  rewrite (patch_name_go i d s Hs _ Hn). cbv beta iota.
  erewrite patch_age_go; [|exact (list_lookup_insert_eq _ _ _ Hlen)|exact Ha].
  cbv beta iota. cbn [students set_students data_file]. rewrite list_insert_insert_eq.
  erewrite patch_email_go; [|exact (list_lookup_insert_eq _ _ _ Hlen)|].
  2:{ destruct He as [He|[e He]]; [by left|right; exists e; split; [done|]].
      cbn [students set_students].
      rewrite (find_dup_other_insert _ _ s) by (autorewrite with prog_simpl; done).
      by apply Hdup. }
  cbv beta iota. cbn [students set_students data_file]. rewrite list_insert_insert_eq.
  erewrite patch_isActive_go; [|exact (list_lookup_insert_eq _ _ _ Hlen)|exact Hb].
  cbv beta iota. cbn [students set_students data_file save]. rewrite list_insert_insert_eq.
  rewrite list_lookup_insert_eq by done. reflexivity.
Qed.

(** C7: A PATCH with a new name and a non-positive age answers 400, but
    the name has already been assigned to the record in memory, and the
    file has not been written. *)
Theorem patch_error_keeps_name d idp i s n a :
  js_isNaN (js_Number idp) = false -> find_ref (students d) (js_Number idp) = Some i ->
  students d !! i = Some s -> (a <= 0)%Z ->
  run_prog (patch_student idp (JObj [("name", JStr n); ("age", JNum a)])) d =
    (json 400 (error_body "Invalid 'age'. Must be a positive number."),
     set_students (<[i := set_name n s]> (students d)) d).
Proof.
  intros Hnan Hf Hs Ha. unfold patch_student, patch_fields. rewrite Hnan. handler_unfold. rewrite Hf.
  erewrite patch_name_go; [|exact Hs|right; by eexists]. cbv beta iota.
  unfold patch_age. simpl. apply Z.leb_le in Ha. by rewrite Ha.
Qed.

(** C25: PATCH accepts an empty name and stores it (200), although POST
    and PUT reject the same value with the name message. *)
Theorem patch_accepts_empty_name d idp i s :
  js_isNaN (js_Number idp) = false -> find_ref (students d) (js_Number idp) = Some i ->
  students d !! i = Some s ->
  run_prog (patch_student idp (JObj [("name", JStr "")])) d =
    (with_student 200 "Student partially updated" (student_to_js (set_name "" s)),
     save (set_students (<[i := set_name "" s]> (students d)) d)) /\
  (forall f, f_name f = JStr "" -> msg_name ∈ validation_errors f).
Proof.
  intros Hnan Hf Hs. split.
  2:{ intros f Hf'. unfold validation_errors. rewrite Hf'. simpl. set_solver. }
  assert (Hlen : (i < length (students d))%nat) by (by eapply lookup_lt_Some).
  unfold patch_student, patch_fields. rewrite Hnan. handler_unfold. rewrite Hf.
  erewrite patch_name_go; [|exact Hs|right; by eexists]. cbv beta iota.
  unfold patch_age, patch_email, patch_isActive. simpl. handler_unfold.
  by rewrite list_lookup_insert_eq.
Qed.

(** ** PUT /students/:id *)

Lemma replace_success_state d idp body k old p :
  js_isNaN (js_Number idp) = false ->
  js_findIndex (id_matches (js_Number idp)) (students d) = Z.of_nat k ->
  students d !! k = Some old -> id_matches (js_Number idp) old = true ->
  validate_full (body_fields body) = inr p ->
  find_dup_other (students d) (p_email p) (js_Number idp) = None ->
  run_prog (replace_student idp body) d =
    (with_student 200 "Student updated" (student_to_js (with_id (sid old) p)),
     save (set_students (<[k := with_id (sid old) p]> (students d)) d)).
Proof.
  intros Hnan Hidx Hk Hm Hv Hd. unfold replace_student. rewrite Hnan. handler_unfold.
  rewrite Hidx. destruct (findIndex_index k) as [-> ->]. rewrite Hv, Hd.
  by rewrite (num_int_value_eq _ _ Hm).
Qed.

Lemma rerun_unchanged (m : handler) d r :
  run_prog m d = (r, d) -> run_prog m (snd (run_prog m d)) = run_prog m d.
Proof. intros E. rewrite E. exact E. Qed.

(** C23: PUT /students/:id is idempotent: running the same PUT on the
    state the first one left gives the same response and the same state. *)
Theorem replace_student_idempotent d idp body :
  run_prog (replace_student idp body) (snd (run_prog (replace_student idp body) d)) =
  run_prog (replace_student idp body) d.
Proof.
  destruct (js_isNaN (js_Number idp)) eqn:Hnan.
  { apply (rerun_unchanged _ _ bad_id). unfold replace_student. by rewrite Hnan. }
  destruct (js_findIndex_spec (id_matches (js_Number idp)) (students d))
    as [[Hidx _]|(k & old & Hidx & Hk & _ & Hm & _)].
  { apply (rerun_unchanged _ _ (not_found (js_Number idp))).
    unfold replace_student. rewrite Hnan. handler_unfold. by rewrite Hidx. }
  destruct (validate_full (body_fields body)) as [errs|p] eqn:Hv.
  { apply (rerun_unchanged _ _ (validation_failed errs)).
    unfold replace_student. rewrite Hnan. handler_unfold.
    by rewrite Hidx, (proj1 (findIndex_index k)), Hv. }
  destruct (find_dup_other (students d) (p_email p) (js_Number idp)) as [ex|] eqn:Hd.
  { apply (rerun_unchanged _ _ (conflict "Another student with this email already exists" ex)).
    unfold replace_student. rewrite Hnan. handler_unfold.
    by rewrite Hidx, (proj1 (findIndex_index k)), Hv, Hd. }
  rewrite (replace_success_state d idp body k old p) by done. cbn [snd].
  assert (Hm' : id_matches (js_Number idp) (with_id (sid old) p) = true) by exact Hm.
  assert (Hlen : (k < length (students d))%nat) by (by eapply lookup_lt_Some).
  rewrite (replace_success_state _ idp body k (with_id (sid old) p) p); try done.
  - cbn [save set_students students data_file]. by rewrite list_insert_insert_eq.
  - cbn [save set_students students data_file].
    rewrite (js_findIndex_insert_same _ _ _ old) by (first [done|by rewrite Hm', Hm]). done.
  - cbn [save set_students students data_file]. by apply list_lookup_insert_eq.
  - cbn [save set_students students data_file].
    rewrite (find_dup_other_insert _ _ old) by done. done.
Qed.

(** ** DELETE /students/:id *)

(** DELETE of a stored id on a store with unique ids. *)
Lemma delete_success_state d idp k s :
  ids_unique (students d) -> js_isNaN (js_Number idp) = false ->
  students d !! k = Some s -> id_matches (js_Number idp) s = true ->
  run_prog (delete_student idp) d =
    (with_student 200 "Student deleted" (student_to_js s),
     save (set_students (splice1 k (students d)) d)).
Proof.
  intros Hu Hnan Hk Hm. unfold delete_student. rewrite Hnan. handler_unfold.
  rewrite (findIndex_unique _ k s) by done.
  by rewrite (proj1 (findIndex_index k)), Nat2Z.id, Hk.
Qed.

(** C22: On a store with distinct ids, DELETE of a stored id removes
    that record, saves and answers 200 with it; the same DELETE again
    answers 404 and changes nothing. *)
Theorem delete_student_then_not_found d idp k s :
  ids_unique (students d) -> js_isNaN (js_Number idp) = false ->
  students d !! k = Some s -> id_matches (js_Number idp) s = true ->
  let d1 := save (set_students (splice1 k (students d)) d) in
  run_prog (delete_student idp) d =
    (with_student 200 "Student deleted" (student_to_js s), d1) /\
  run_prog (delete_student idp) d1 = (not_found (js_Number idp), d1).
Proof.
  intros Hu Hnan Hk Hm d1. split.
  - by apply delete_success_state.
  - unfold delete_student. rewrite Hnan. handler_unfold.
    replace (js_findIndex _ _) with (-1)%Z; [reflexivity|]. symmetry.
    apply js_findIndex_neg, js_find_None_not_found. intros y Hy.
    apply not_true_is_false. intros Hy'.
    apply (ids_unique_splice_gone _ _ _ _ Hu Hk Hy). by eapply id_matches_same.
Qed.

(** ** Reading back a created record *)

(** C24: After a successful POST /students, GET /students/:id with the
    decimal text of the new id answers 200 with the created record. *)
Theorem get_after_create d body p :
  validate_full (body_fields body) = inr p -> find_dup (students d) (p_email p) = None ->
  (max_id (students d) + 1 < 10 ^ 21)%Z ->
  let s := with_id (max_id (students d) + 1) p in
  let d1 := save (set_students (students d ++ [s]) d) in
  run_prog (create_student body) d = (with_student 201 "Student created" (student_to_js s), d1) /\
  run_prog (get_student (num_to_string (NFin (sid s) 0))) d1 = (json 200 (student_to_js s), d1).
Proof.
  intros Hv Hd Hb s d1. split.
  - unfold create_student. rewrite Hv. handler_unfold. by rewrite Hd.
  - pose proof (max_id_nonneg (students d)).
    unfold get_student. rewrite num_to_string_dec, js_Number_dec_text by (simpl; lia). handler_unfold.
    cbn [js_isNaN]. cbv beta iota. unfold d1. cbn [save set_students students].
    rewrite js_find_app.
    replace (js_find _ (students d)) with (@None Student).
    + simpl. unfold id_matches, num_eq_int. simpl. by rewrite Z.mul_1_r, Z.eqb_refl.
    + symmetry. apply js_find_None_not_found. intros t Ht.
      pose proof (max_id_ge _ _ Ht). unfold id_matches, num_eq_int. simpl.
      apply Z.eqb_neq. lia.
Qed.

(** ** The handlers on the sample store *)

(** ** PUT and the e-mail of the replaced record *)

(** C20: On a store with unique ids and e-mails, a valid PUT on a stored
    id whose e-mail equals that record's own e-mail up to case replaces
    the record (keeping its id), saves and answers 200: the record's own
    e-mail is no conflict. *)
Theorem replace_keeps_own_email d idp body k old p :
  wf_db d -> js_isNaN (js_Number idp) = false -> students d !! k = Some old ->
  id_matches (js_Number idp) old = true -> validate_full (body_fields body) = inr p ->
  ci_equiv (p_email p) (email old) ->
  run_prog (replace_student idp body) d =
    (with_student 200 "Student updated" (student_to_js (with_id (sid old) p)),
     save (set_students (<[k := with_id (sid old) p]> (students d)) d)).
Proof.
  intros [Hu He] Hnan Hk Hm Hv Hce.
  apply (replace_success_state d idp body k old p); try done.
  - by apply findIndex_unique with old.
  - apply find_dup_other_None. intros y Hy Hye.
    rewrite (emails_unique_same _ _ _ _ He Hk Hy); [done|]. by transitivity (p_email p).
Qed.

(** C19: A valid PUT on a stored id whose e-mail equals, up to case, the
    e-mail of a record with another id answers 409 with such a record
    and leaves the store unchanged. *)
Theorem replace_other_email_conflict d idp body old p t :
  js_isNaN (js_Number idp) = false -> old ∈ students d -> id_matches (js_Number idp) old = true ->
  validate_full (body_fields body) = inr p ->
  t ∈ students d -> ci_equiv (email t) (p_email p) -> id_matches (js_Number idp) t = false ->
  exists ex, run_prog (replace_student idp body) d =
               (conflict "Another student with this email already exists" ex, d) /\
             ex ∈ students d /\ ci_equiv (email ex) (p_email p) /\
             id_matches (js_Number idp) ex = false.
Proof.
  intros Hnan Hold Hm Hv Ht Hte Htm. unfold replace_student. rewrite Hnan. handler_unfold.
  rewrite findIndex_found by (intros Hn; rewrite js_find_None_not_found in Hn;
                              by rewrite (Hn old Hold) in Hm).
  rewrite Hv. destruct (find_dup_other _ _ _) as [ex|] eqn:Hd.
  - exists ex. split; [done|]. by apply find_dup_other_Some.
  - rewrite find_dup_other_None in Hd. by rewrite (Hd t Ht Hte) in Htm.
Qed.

(** ** The id parameter *)

(** Every [/:id] handler answers 400 [Invalid ID] and leaves the
    store unchanged when [Number(id)] is NaN. *)
Theorem invalid_id_rejected d idp body :
  js_isNaN (js_Number idp) = true ->
  run_prog (get_student idp) d = (bad_id, d) /\
  run_prog (replace_student idp body) d = (bad_id, d) /\
  run_prog (patch_student idp body) d = (bad_id, d) /\
  run_prog (delete_student idp) d = (bad_id, d).
Proof. intros Hn. unfold get_student, replace_student, patch_student, delete_student. by rewrite Hn. Qed.

Lemma handlers_by_number a b body :
  js_Number a = js_Number b ->
  get_student a = get_student b /\ replace_student a body = replace_student b body /\
  patch_student a body = patch_student b body /\ delete_student a = delete_student b.
Proof.
  intros H. unfold get_student, replace_student, patch_student, delete_student. by rewrite H.
Qed.

(** The handlers read the id through [Number]: the texts [0x1],
    [0b1], [0o1], [01], [1e0], [+1] and [ 1 ] address the record of id 1
    exactly as [1] does, and a blank id addresses id 0. *)
Theorem id_param_forms body idp :
  (idp ∈ ["0x1"; "0b1"; "0o1"; "01"; "1e0"; "+1"; " 1 "] ->
   get_student idp = get_student "1" /\ replace_student idp body = replace_student "1" body /\
   patch_student idp body = patch_student "1" body /\ delete_student idp = delete_student "1") /\
  (idp ∈ [""; " "] ->
   get_student idp = get_student "0" /\ replace_student idp body = replace_student "0" body /\
   patch_student idp body = patch_student "0" body /\ delete_student idp = delete_student "0").
Proof.
  split; intros Hin; apply handlers_by_number;
    repeat (apply elem_of_cons in Hin as [->|Hin]; [vm_compute; reflexivity|]);
    by apply elem_of_nil in Hin.
Qed.

Lemma create_student_assigns_next_id_witness :
  exists s, run_prog (create_student cy_body) sample_db =
              (with_student 201 "Student created" (student_to_js s),
               save (set_students (students sample_db ++ [s]) sample_db)) /\
            s = with_id (sid s) cy_payload /\
            (forall t, t ∈ students sample_db -> (sid t < sid s)%Z) /\
            (sid s = 1%Z \/ exists t, t ∈ students sample_db /\ sid s = (sid t + 1)%Z).
Proof. apply create_student_assigns_next_id; reflexivity. Defined.

Lemma create_student_duplicate_witness :
  exists ex, run_prog (create_student ann_dup_body) sample_db =
               (conflict "A student with this email already exists" ex, sample_db) /\
             ex ∈ students sample_db /\ ci_equiv (email ex) (p_email ann_dup_payload).
Proof.
  apply (create_student_duplicate _ _ _ ann); [reflexivity|by left|reflexivity].
Defined.

Lemma create_student_invalid_witness :
  run_prog (create_student age0_body) sample_db =
    (validation_failed (validation_errors (body_fields age0_body)), sample_db).
Proof. apply create_student_invalid. vm_compute. discriminate. Defined.

Lemma nonpositive_age_rejected_witness :
  msg_age ∈ validation_errors (body_fields age0_body) /\
  run_prog (create_student age0_body) sample_db =
    (validation_failed (validation_errors (body_fields age0_body)), sample_db) /\
  (js_isNaN (js_Number "1") = false ->
   js_find (id_matches (js_Number "1")) (students sample_db) <> None ->
   run_prog (replace_student "1" age0_body) sample_db =
     (validation_failed (validation_errors (body_fields age0_body)), sample_db) /\
   status (fst (run_prog (patch_student "1" age0_body) sample_db)) = 400%Z).
Proof. apply (nonpositive_age_rejected _ _ 0); [reflexivity|lia]. Defined.

Lemma patch_student_ok_witness :
  run_prog (patch_student "1" patch_body) sample_db =
    (with_student 200 "Student partially updated"
       (student_to_js (apply_patch (body_fields patch_body) ann)),
     save (set_students (<[0%nat := apply_patch (body_fields patch_body) ann]> (students sample_db))
                        sample_db)).
Proof.
  apply patch_student_ok; [reflexivity|reflexivity|reflexivity| |].
  - unfold patch_accepts. vm_compute. naive_solver.
  - intros e He. vm_compute in He. discriminate He.
Defined.

Lemma patch_error_keeps_name_witness :
  run_prog (patch_student "2" (JObj [("name", JStr "Robert"); ("age", JNum 0)])) sample_db =
    (json 400 (error_body "Invalid 'age'. Must be a positive number."),
     set_students (<[1%nat := set_name "Robert" bob]> (students sample_db)) sample_db).
Proof. apply patch_error_keeps_name; [reflexivity|reflexivity|reflexivity|lia]. Defined.

Lemma patch_accepts_empty_name_witness :
  run_prog (patch_student "1" (JObj [("name", JStr "")])) sample_db =
    (with_student 200 "Student partially updated" (student_to_js (set_name "" ann)),
     save (set_students (<[0%nat := set_name "" ann]> (students sample_db)) sample_db)) /\
  (forall f, f_name f = JStr "" -> msg_name ∈ validation_errors f).
Proof. apply patch_accepts_empty_name; reflexivity. Defined.

Lemma delete_student_then_not_found_witness :
  let d1 := save (set_students (splice1 0 (students sample_db)) sample_db) in
  run_prog (delete_student "1") sample_db =
    (with_student 200 "Student deleted" (student_to_js ann), d1) /\
  run_prog (delete_student "1") d1 = (not_found (js_Number "1"), d1).
Proof.
  apply delete_student_then_not_found; [|reflexivity|reflexivity|reflexivity].
  apply (bool_decide_unpack _). by vm_compute.
Defined.

Lemma get_after_create_witness :
  let s := with_id (max_id (students sample_db) + 1) cy_payload in
  let d1 := save (set_students (students sample_db ++ [s]) sample_db) in
  run_prog (create_student cy_body) sample_db =
    (with_student 201 "Student created" (student_to_js s), d1) /\
  run_prog (get_student (num_to_string (NFin (sid s) 0))) d1 = (json 200 (student_to_js s), d1).
Proof. apply get_after_create; [reflexivity|reflexivity|vm_compute; reflexivity]. Defined.

Lemma replace_keeps_own_email_witness :
  run_prog (replace_student "1" ann_upper_body) sample_db =
    (with_student 200 "Student updated" (student_to_js (with_id 1 ann_upper_payload)),
     save (set_students (<[0%nat := with_id 1 ann_upper_payload]> (students sample_db)) sample_db)).
Proof.
  apply (replace_keeps_own_email _ _ _ 0 ann); try reflexivity.
  apply (bool_decide_unpack _). by vm_compute.
Defined.

Lemma replace_other_email_conflict_witness :
  exists ex, run_prog (replace_student "1" bob_email_body) sample_db =
               (conflict "Another student with this email already exists" ex, sample_db) /\
             ex ∈ students sample_db /\ ci_equiv (email ex) (p_email bob_email_payload) /\
             id_matches (js_Number "1") ex = false.
Proof.
  apply (replace_other_email_conflict _ _ _ ann _ bob); try reflexivity; set_solver.
Defined.

Lemma invalid_id_rejected_witness :
  run_prog (get_student "abc") sample_db = (bad_id, sample_db) /\
  run_prog (replace_student "abc" cy_body) sample_db = (bad_id, sample_db) /\
  run_prog (patch_student "abc" cy_body) sample_db = (bad_id, sample_db) /\
  run_prog (delete_student "abc") sample_db = (bad_id, sample_db).
Proof. apply invalid_id_rejected. reflexivity. Defined.

Lemma id_param_forms_witness :
  get_student "0x1" = get_student "1" /\ replace_student "0x1" cy_body = replace_student "1" cy_body /\
  patch_student "0x1" cy_body = patch_student "1" cy_body /\ delete_student "0x1" = delete_student "1".
Proof. apply (proj1 (id_param_forms cy_body "0x1")). set_solver. Defined.
