(* ===== verification/StoreSpec.v ===== *)
(** * The store as the specification describes it, and the refinement

    Section 4.3 of the specification describes the Student Store as a
    collection of records keyed by id with six operations: list, get,
    create (id = max id + 1), replace, patch and delete.  This file states
    that contract on a finite map [table] from ids to entries ([gmap]),
    defines the abstraction [abs] of the array the code keeps, and proves
    that each handler of routes/students.js, when it succeeds, changes
    the abstraction exactly as the abstract operation does, and that
    every request the students router serves causes the step its method,
    path and body name ([route_step]), or none (Server.v lifts this to
    every request the application serves). *)

From stdpp Require Import gmap.
From S2P Require Import Prelude JsValue JsNumber Http Student Store Samples Students.

Local Open Scope string_scope.

(** ** The abstract store *)

(** The fields of a record other than its id. *)
Record entry : Type := mk_entry {
  e_name : string; e_age : Z; e_email : string; e_isActive : bool
}.

Notation table := (gmap Z entry).

Definition entry_of (s : Student) : entry := mk_entry (name s) (age s) (email s) (isActive s).

Definition entry_of_payload (p : payload) : entry :=
  mk_entry (p_name p) (p_age p) (p_email p) (p_isActive p).

(** The largest key, 0 for the empty table. *)
Definition max_key (m : table) : Z := foldr Z.max 0%Z (fst <$> map_to_list m).

(** create(validated payload): [id = max(existing ids, default 0) + 1]. *)
Definition spec_create (m : table) (r : entry) : Z * table :=
  let i := (max_key m + 1)%Z in (i, <[i := r]> m).

Definition spec_get (m : table) (i : Z) : option entry := m !! i.

(** replace(id, payload) and patch(id, partial payload): an existing id
    gets a new entry. *)
Definition spec_replace (m : table) (i : Z) (r : entry) : option table :=
  match m !! i with Some _ => Some (<[i := r]> m) | None => None end.

(** delete(id): the removed entry and the table without it. *)
Definition spec_delete (m : table) (i : Z) : option (entry * table) :=
  match m !! i with Some r => Some (r, delete i m) | None => None end.

(** ** The abstraction of the array *)

Definition abs (l : list Student) : table :=
  list_to_map ((fun s => (sid s, entry_of s)) <$> l).

(** The id a route parameter names: [Number(req.params.id)] read as
    the integer it equals. *)
Definition param_id (idp : string) : Z := num_int_value (js_Number idp).

(** The abstract step a request to the students router may cause, by its
    method, the path segments after /students and its body: nothing, or
    the operation of the specification's route table, on the id of the
    path and the entry of the body.  POST /students creates the entry of
    the validated body; PUT /students/:id replaces the entry of that id
    by the validated body's; PATCH /students/:id replaces the entry of
    that id (the fields it keeps may be old or new); DELETE /students/:id
    deletes that id.  Every other request leaves the table as it is. *)
Definition route_step (m : http_method) (sub : list string) (body : jsval) (t t' : table) : Prop :=
  t' = t \/
  match m, strip_trailing_slash sub with
  | POST, [] =>
      exists p, validate_full (body_fields body) = inr p /\
                t' = snd (spec_create t (entry_of_payload p))
  | PUT, [x] =>
      exists p, validate_full (body_fields body) = inr p /\
                spec_replace t (param_id x) (entry_of_payload p) = Some t'
  | PATCH, [x] => exists r, spec_replace t (param_id x) r = Some t'
  | DELETE, [x] => exists r, spec_delete t (param_id x) = Some (r, t')
  | _, _ => False
  end.

(** ** Lemmas on the abstraction *)

Lemma abs_cons s l : abs (s :: l) = <[sid s := entry_of s]> (abs l).
Proof. reflexivity. Qed.

Lemma abs_nil : abs [] = ∅.
Proof. reflexivity. Qed.

Lemma abs_lookup_None l i : abs l !! i = None <-> forall s, s ∈ l -> sid s <> i.
Proof.
  induction l as [|s l IH]; [set_solver|]. rewrite abs_cons, lookup_insert_None, IH.
  setoid_rewrite elem_of_cons. naive_solver.
Qed.

Lemma abs_is_Some l i : is_Some (abs l !! i) <-> exists s, s ∈ l /\ sid s = i.
Proof.
  induction l as [|s l IH].
  { rewrite abs_nil, lookup_empty. split; [by intros []|set_solver]. }
  rewrite abs_cons, lookup_insert_is_Some, IH. setoid_rewrite elem_of_cons.
  destruct (decide (sid s = i)); naive_solver.
Qed.

Lemma abs_lookup l k s : ids_unique l -> l !! k = Some s -> abs l !! sid s = Some (entry_of s).
Proof.
  unfold ids_unique. revert k; induction l as [|x l IH]; intros [|k] Hu Hk; try done;
    rewrite abs_cons; apply NoDup_cons in Hu as [Hx Hu]; simpl in Hk.
  - injection Hk as ->. apply lookup_insert_eq.
  - rewrite lookup_insert_ne; [by eapply IH|]. intros Heq. apply Hx. rewrite Heq.
    apply list_elem_of_fmap. exists s. split; [done|]. by eapply list_elem_of_lookup_2.
Qed.

Lemma sid_not_in_tail x (l : list Student) (k : nat) s :
  sid x ∉ sid <$> l -> l !! k = Some s -> sid x <> sid s.
Proof.
  intros Hx Hk Heq. apply Hx. rewrite Heq. apply list_elem_of_fmap. exists s.
  split; [done|]. by eapply list_elem_of_lookup_2.
Qed.

(** Overwriting a record by one with the same id. *)
Lemma abs_insert l k old new :
  ids_unique l -> l !! k = Some old -> sid new = sid old ->
  abs (<[k:=new]> l) = <[sid old := entry_of new]> (abs l).
Proof.
  unfold ids_unique. revert k; induction l as [|x l IH]; intros [|k] Hu Hk Hid; try done;
    simpl in Hk; apply NoDup_cons in Hu as [Hx Hu].
  - change (<[0%nat:=new]> (x :: l)) with (new :: l). rewrite !abs_cons.
    injection Hk as ->. by rewrite Hid, insert_insert_eq.
  - change (<[S k:=new]> (x :: l)) with (x :: <[k:=new]> l). rewrite !abs_cons, (IH k) by done. apply insert_insert_ne. by eapply sid_not_in_tail.
Qed.

(** [students.push(s)] with a fresh id. *)
Lemma abs_snoc l new :
  sid new ∉ sid <$> l -> abs (l ++ [new]) = <[sid new := entry_of new]> (abs l).
Proof.
  induction l as [|x l IH]; intros Hn; [reflexivity|].
  rewrite fmap_cons, elem_of_cons in Hn. cbn [app]. rewrite !abs_cons, IH by naive_solver.
  apply insert_insert_ne. naive_solver.
Qed.

(** [students.splice(k, 1)]. *)
Lemma abs_delete l k s :
  ids_unique l -> l !! k = Some s -> abs (delete k l) = delete (sid s) (abs l).
Proof.
  unfold ids_unique. revert k; induction l as [|x l IH]; intros [|k] Hu Hk; try done;
    simpl in Hk; apply NoDup_cons in Hu as [Hx Hu]; rewrite abs_cons.
  - change (delete 0%nat (x :: l)) with l. injection Hk as ->. rewrite delete_insert_id; [done|].
    apply abs_lookup_None. intros y Hy Heq. apply Hx. rewrite <- Heq.
    by apply list_elem_of_fmap_2.
  - change (delete (S k) (x :: l)) with (x :: delete k l). rewrite abs_cons, (IH k) by done.
    symmetry. apply delete_insert_ne. intros Heq. by apply (sid_not_in_tail x l k s).
Qed.

(** ** The largest id *)

Local Open Scope Z_scope.

Lemma foldr_max_spec (ks : list Z) :
  (forall k, k ∈ ks -> (k <= foldr Z.max 0 ks)%Z) /\ (0 <= foldr Z.max 0%Z ks)%Z /\
  (foldr Z.max 0%Z ks = 0%Z \/ foldr Z.max 0%Z ks ∈ ks).
Proof.
  induction ks as [|k ks (IHle & IH0 & IHin)]; simpl; [set_solver|].
  split_and!; [intros j [->|Hj]%elem_of_cons; [lia|specialize (IHle j Hj); lia]|lia|].
  destruct (Z.max_spec k (foldr Z.max 0 ks)) as [[_ ->]|[_ ->]]; [|set_solver].
  destruct IHin as [->|]; [by left|set_solver].
Qed.

Lemma keys_is_Some (m : table) k : k ∈ fst <$> map_to_list m <-> is_Some (m !! k).
Proof.
  rewrite list_elem_of_fmap. split.
  - intros ([k' x] & -> & Hx%elem_of_map_to_list). by exists x.
  - intros [x Hx]. exists (k, x). split; [done|]. by apply elem_of_map_to_list.
Qed.

Lemma max_key_spec (m : table) :
  (forall k, is_Some (m !! k) -> (k <= max_key m)%Z) /\ (0 <= max_key m)%Z /\
  (max_key m = 0%Z \/ is_Some (m !! max_key m)).
Proof.
  unfold max_key. destruct (foldr_max_spec (fst <$> map_to_list m)) as (Hle & H0 & Hin).
  setoid_rewrite keys_is_Some in Hle. rewrite keys_is_Some in Hin. done.
Qed.

(** Two upper bounds of the ids, each 0 or an id, are equal. *)
Lemma max_unique (P : Z -> Prop) a b :
  (forall k, P k -> (k <= a)%Z) -> (0 <= a)%Z -> (a = 0%Z \/ P a) ->
  (forall k, P k -> (k <= b)%Z) -> (0 <= b)%Z -> (b = 0%Z \/ P b) -> a = b.
Proof.
  intros Ha Ha0 [->|Pa] Hb Hb0 [->|Pb]; try done.
  - specialize (Ha _ Pb). lia.
  - specialize (Hb _ Pa). lia.
  - specialize (Ha _ Pb). specialize (Hb _ Pa). lia.
Qed.

(** The code's [reduce] computes the specification's [max]. *)
Lemma max_key_abs l : max_key (abs l) = max_id l.
Proof.
  destruct (max_key_spec (abs l)) as (Hle & H0 & Hin).
  apply (max_unique (fun k => exists s, s ∈ l /\ sid s = k)).
  - intros k Hk. by apply Hle, abs_is_Some.
  - done.
  - by rewrite <- abs_is_Some.
  - intros k (s & Hs & <-). by apply max_id_ge.
  - apply max_id_nonneg.
  - destruct (max_id_cases l) as [|(t & Ht & Heq)]; [by left|right; eauto].
Qed.

(** ** The handlers refine the abstract operations *)

(** What each successful handler does to the abstraction. *)
Lemma create_abs d body p :
  validate_full (body_fields body) = inr p -> find_dup (students d) (p_email p) = None ->
  abs (students (snd (run_prog (create_student body) d))) =
    snd (spec_create (abs (students d)) (entry_of_payload p)).
Proof.
  intros Hv Hd. rewrite (create_success_state d body p Hv Hd).
  cbn [snd save set_students students]. unfold spec_create. rewrite max_key_abs.
  rewrite abs_snoc by apply fresh_id_not_in. done.
Qed.

Lemma replace_abs d idp body k old p :
  ids_unique (students d) -> js_isNaN (js_Number idp) = false ->
  students d !! k = Some old -> id_matches (js_Number idp) old = true ->
  validate_full (body_fields body) = inr p ->
  find_dup_other (students d) (p_email p) (js_Number idp) = None ->
  spec_replace (abs (students d)) (sid old) (entry_of_payload p) =
    Some (abs (students (snd (run_prog (replace_student idp body) d)))).
Proof.
  intros Hu Hnan Hk Hm Hv Hd.
  rewrite (replace_success_state d idp body k old p) by (try apply findIndex_unique with old; done).
  cbn [snd save set_students students]. unfold spec_replace.
  by rewrite (abs_lookup _ _ _ Hu Hk), (abs_insert _ _ old).
Qed.

Lemma delete_abs d idp k s :
  ids_unique (students d) -> js_isNaN (js_Number idp) = false ->
  students d !! k = Some s -> id_matches (js_Number idp) s = true ->
  spec_delete (abs (students d)) (sid s) =
    Some (entry_of s, abs (students (snd (run_prog (delete_student idp) d)))).
Proof.
  intros Hu Hnan Hk Hm. rewrite (delete_success_state d idp k s) by done.
  cbn [snd save set_students students]. unfold spec_delete.
  by rewrite (abs_lookup _ _ _ Hu Hk), splice1_delete, (abs_delete _ _ s).
Qed.

(** C15: A successful POST /students is the specification's create: the
    table gains the entry of the payload under id [max key + 1], the
    response carries that id, and the file is written. *)
Theorem create_student_refines d body p :
  validate_full (body_fields body) = inr p -> find_dup (students d) (p_email p) = None ->
  let m := abs (students d) in
  let d' := snd (run_prog (create_student body) d) in
  abs (students d') = snd (spec_create m (entry_of_payload p)) /\
  fst (run_prog (create_student body) d) =
    with_student 201 "Student created" (student_to_js (with_id (fst (spec_create m (entry_of_payload p))) p)) /\
  data_file d' = Some (students d').
Proof.
  intros Hv Hd m d'. split; [by apply create_abs|]. subst m d'.
  rewrite (create_success_state d body p Hv Hd). cbn [fst snd save data_file students].
  unfold spec_create. by rewrite max_key_abs.
Qed.

(** C16: A successful PUT on a stored id, on a store with unique ids, is
    the specification's replace of that id by the entry of the payload,
    and the file is written. *)
Theorem replace_student_refines d idp body k old p :
  ids_unique (students d) -> js_isNaN (js_Number idp) = false ->
  students d !! k = Some old -> id_matches (js_Number idp) old = true ->
  validate_full (body_fields body) = inr p ->
  find_dup_other (students d) (p_email p) (js_Number idp) = None ->
  let d' := snd (run_prog (replace_student idp body) d) in
  spec_replace (abs (students d)) (sid old) (entry_of_payload p) = Some (abs (students d')) /\
  data_file d' = Some (students d').
Proof.
  intros Hu Hnan Hk Hm Hv Hd d'. split; [by eapply replace_abs|]. subst d'.
  by rewrite (replace_success_state d idp body k old p) by (try apply findIndex_unique with old; done).
Qed.

(** C17: A successful DELETE, on a store with unique ids, is the
    specification's delete: it answers the removed record, the table
    loses exactly that id, and the file is written. *)
Theorem delete_student_refines d idp k s :
  ids_unique (students d) -> js_isNaN (js_Number idp) = false ->
  students d !! k = Some s -> id_matches (js_Number idp) s = true ->
  let d' := snd (run_prog (delete_student idp) d) in
  spec_delete (abs (students d)) (sid s) = Some (entry_of s, abs (students d')) /\
  fst (run_prog (delete_student idp) d) = with_student 200 "Student deleted" (student_to_js s) /\
  data_file d' = Some (students d').
Proof.
  intros Hu Hnan Hk Hm d'. split; [by eapply delete_abs|]. subst d'.
  by rewrite (delete_success_state d idp k s).
Qed.

Lemma id_matches_int i s : id_matches (NFin i 0) s = true <-> sid s = i.
Proof. unfold id_matches, num_eq_int. simpl. rewrite Z.mul_1_r, Z.eqb_eq. split; congruence. Qed.

(** C18: GET /students/:id with an id that reads as the integer [i]
    answers the specification's get: 200 with the record of id [i] when
    the table has it, 404 otherwise; the store is unchanged. *)
Theorem get_student_refines d idp i :
  ids_unique (students d) -> js_Number idp = NFin i 0 ->
  run_prog (get_student idp) d =
    (match spec_get (abs (students d)) i with
     | Some r => json 200 (student_to_js (mk_student i (e_name r) (e_age r) (e_email r) (e_isActive r)))
     | None => not_found (NFin i 0)
     end, d).
Proof.
  intros Hu Hn. unfold get_student, spec_get. rewrite Hn. handler_unfold. cbn [js_isNaN].
  destruct (js_find _ _) as [s|] eqn:E.
  - apply js_find_Some in E as [[k Hk]%list_elem_of_lookup_1 Hm%id_matches_int].
    rewrite <- Hm, (abs_lookup _ _ _ Hu Hk). by destruct s.
  - replace (abs (students d) !! i) with (@None entry); [done|]. symmetry.
    apply abs_lookup_None. intros s Hs Heq. apply id_matches_int in Heq.
    by rewrite (proj1 (js_find_None_not_found _ _) E s Hs) in Heq.
Qed.

(** ** Every handler is the step its route names *)

Lemma num_eq_int_value x z : num_eq_int x z = true -> z = num_int_value x.
Proof.
  destruct x as [| |m e]; try done. cbn.
  case_match; [by intros ?%Z.eqb_eq|]. by intros [_ ?%Z.eqb_eq]%andb_prop.
Qed.

Lemma id_matches_param idp s : id_matches (js_Number idp) s = true -> sid s = param_id idp.
Proof. apply num_eq_int_value. Qed.

Lemma create_step d body :
  let t := abs (students d) in let t' := abs (students (snd (run_prog (create_student body) d))) in
  t' = t \/ exists p, validate_full (body_fields body) = inr p /\
                      t' = snd (spec_create t (entry_of_payload p)).
Proof.
  destruct (validate_full (body_fields body)) as [errs|p] eqn:Hv.
  { left. unfold create_student. by rewrite Hv. }
  destruct (find_dup (students d) (p_email p)) eqn:Hd.
  { left. unfold create_student. rewrite Hv. handler_unfold. by rewrite Hd. }
  right. exists p. split; [done|]. by apply create_abs.
Qed.

Lemma replace_step d idp body :
  ids_unique (students d) ->
  let t := abs (students d) in let t' := abs (students (snd (run_prog (replace_student idp body) d))) in
  t' = t \/ exists p, validate_full (body_fields body) = inr p /\
                      spec_replace t (param_id idp) (entry_of_payload p) = Some t'.
Proof.
  intros Hu. destruct (js_isNaN (js_Number idp)) eqn:Hnan.
  { left. unfold replace_student. by rewrite Hnan. }
  destruct (js_findIndex_spec (id_matches (js_Number idp)) (students d))
    as [[Hidx _]|(k & old & Hidx & Hk & _ & Hm & _)].
  { left. unfold replace_student. rewrite Hnan. handler_unfold. by rewrite Hidx. }
  destruct (validate_full (body_fields body)) as [errs|p] eqn:Hv.
  { left. unfold replace_student. rewrite Hnan. handler_unfold.
    by rewrite Hidx, (proj1 (findIndex_index k)), Hv. }
  destruct (find_dup_other (students d) (p_email p) (js_Number idp)) eqn:Hd.
  { left. unfold replace_student. rewrite Hnan. handler_unfold.
    by rewrite Hidx, (proj1 (findIndex_index k)), Hv, Hd. }
  right. exists p. split; [done|]. rewrite <- (id_matches_param _ _ Hm). by eapply replace_abs.
Qed.

Lemma delete_step d idp :
  ids_unique (students d) ->
  let t := abs (students d) in let t' := abs (students (snd (run_prog (delete_student idp) d))) in
  t' = t \/ exists r, spec_delete t (param_id idp) = Some (r, t').
Proof.
  intros Hu. destruct (js_isNaN (js_Number idp)) eqn:Hnan.
  { left. unfold delete_student. by rewrite Hnan. }
  destruct (js_findIndex_spec (id_matches (js_Number idp)) (students d))
    as [[Hidx _]|(k & s & Hidx & Hk & _ & Hm & _)].
  { left. unfold delete_student. rewrite Hnan. handler_unfold. by rewrite Hidx. }
  right. exists (entry_of s). rewrite <- (id_matches_param _ _ Hm). by eapply delete_abs.
Qed.

(** Along a PATCH the record at index [i] is replaced by records of the
    same id, and nothing else changes. *)
Definition patched_at (l0 : list Student) (i : nat) (k : Z) (d : db) : Prop :=
  exists r, sid r = k /\ students d = <[i:=r]> l0.

Lemma patched_at_mutate l0 i k f :
  (i < length l0)%nat -> (forall x, sid (f x) = sid x) ->
  preserves (patched_at l0 i k) (mutate i f).
Proof.
  intros Hlen Hf. apply preserves_modify. intros d (r & Hr & Hd).
  exists (f r). split; [by rewrite Hf|]. cbn [students set_students]. rewrite Hd.
  rewrite (alter_as_insert _ _ _ r) by (by apply list_lookup_insert_eq).
  apply list_insert_insert_eq.
Qed.

Lemma patch_step d idp body :
  ids_unique (students d) ->
  let t := abs (students d) in let t' := abs (students (snd (run_prog (patch_student idp body) d))) in
  t' = t \/ exists r, spec_replace t (param_id idp) r = Some t'.
Proof.
  intros Hu. destruct (js_isNaN (js_Number idp)) eqn:Hnan.
  { left. unfold patch_student. by rewrite Hnan. }
  destruct (find_ref (students d) (js_Number idp)) as [i|] eqn:Hf.
  2:{ left. unfold patch_student. rewrite Hnan. handler_unfold. by rewrite Hf. }
  destruct (find_ref_Some _ _ _ Hf) as (s & Hs & Hm & _).
  assert (Hlen : (i < length (students d))%nat) by (by eapply lookup_lt_Some).
  assert (Hq : patched_at (students d) i (sid s) (exit_state (patch_fields i (js_Number idp) (body_fields body) d))).
  { destruct (patch_steps_preserve (patched_at (students d) i (sid s)) i (js_Number idp))
      as (Hn & Ha & He & Hb); try (intros; by apply patched_at_mutate).
    apply patch_fields_preserves; [done..|intros d' Hd'; exact Hd'|].
    exists s. split; [done|]. by rewrite list_insert_id. }
  destruct Hq as (r & Hr & Hd'). right. exists (entry_of r).
  rewrite <- (id_matches_param _ _ Hm).
  unfold spec_replace. rewrite (abs_lookup _ _ _ Hu Hs).
  rewrite run_prog_state. unfold patch_student. rewrite Hnan. cbv beta.
  unfold pbind at 1, pget at 1. rewrite Hf, Hd', (abs_insert _ _ s) by done. done.
Qed.

Lemma unchanged_route_step m sub body (h : handler) d :
  preserves (fun d' => d' = d) h ->
  route_step m sub body (abs (students d)) (abs (students (snd (run_prog h d)))).
Proof. intros Hh. left. by rewrite run_prog_state, (Hh d eq_refl). Qed.

(** The handler the router picks for a request causes the step its
    route names. *)
Lemma students_router_route_step g1 g2 req sub h d :
  ids_unique (students d) -> students_router g1 g2 req sub = Some h ->
  route_step (req_method req) sub (body_value req) (abs (students d)) (abs (students (snd (run_prog h d)))).
Proof.
  intros Hu. unfold students_router, guarded.
  destruct (req_method req) eqn:Hm; destruct (strip_trailing_slash sub) as [|x [|y [|z r]]] eqn:Hs;
    cbn [is_get andb]; rewrite ?bool_decide_eq_false_2, ?bool_decide_eq_true_2 by done;
    repeat match goal with
           | |- (if ?b then _ else _) = _ -> _ => destruct b
           | |- match ?m with _ => _ end = _ -> _ => destruct m
           end;
    intros [= <-];
    try (match goal with |- context [match ?g with inl _ => _ | inr _ => _ end] => destruct g end);
    first [ apply unchanged_route_step; by auto using list_students_preserves,
              get_student_preserves, preserves_halt, preserves_ret
          | unfold route_step; rewrite Hs;
            first [ apply create_step | by apply replace_step | by apply delete_step
                  | by apply patch_step ] ].
Qed.

(** ** The refinement on the sample store *)

Lemma create_student_refines_witness :
  let m := abs (students sample_db) in
  let d' := snd (run_prog (create_student cy_body) sample_db) in
  abs (students d') = snd (spec_create m (entry_of_payload cy_payload)) /\
  fst (run_prog (create_student cy_body) sample_db) =
    with_student 201 "Student created"
      (student_to_js (with_id (fst (spec_create m (entry_of_payload cy_payload))) cy_payload)) /\
  data_file d' = Some (students d').
Proof. apply create_student_refines; reflexivity. Defined.

Lemma replace_student_refines_witness :
  let d' := snd (run_prog (replace_student "1" ann_upper_body) sample_db) in
  spec_replace (abs (students sample_db)) (sid ann) (entry_of_payload ann_upper_payload) =
    Some (abs (students d')) /\
  data_file d' = Some (students d').
Proof.
  apply (replace_student_refines _ _ _ 0); try reflexivity.
  apply (bool_decide_unpack _). by vm_compute.
Defined.

Lemma delete_student_refines_witness :
  let d' := snd (run_prog (delete_student "2") sample_db) in
  spec_delete (abs (students sample_db)) (sid bob) = Some (entry_of bob, abs (students d')) /\
  fst (run_prog (delete_student "2") sample_db) = with_student 200 "Student deleted" (student_to_js bob) /\
  data_file d' = Some (students d').
Proof.
  apply (delete_student_refines _ _ 1); try reflexivity.
  apply (bool_decide_unpack _). by vm_compute.
Defined.

Lemma get_student_refines_witness :
  run_prog (get_student "2") sample_db =
    (match spec_get (abs (students sample_db)) 2 with
     | Some r => json 200 (student_to_js (mk_student 2 (e_name r) (e_age r) (e_email r) (e_isActive r)))
     | None => not_found (NFin 2 0)
     end, sample_db).
Proof.
  apply get_student_refines; [|reflexivity].
  apply (bool_decide_unpack _). by vm_compute.
Defined.
