(* ===== verification/Server.v ===== *)
(** * The application (server.js lines 11-250)

    [app] runs a request through the middleware stack in the order
    server.js registers it: express.json() (a body it cannot parse goes
    to the error handler), cookie-parser (the request's cookie table),
    cors (an OPTIONS request is answered 204 and goes no further), the
    logger (the line it prints is [request_log]), the routes of
    server.js, the students router mounted at [/students], the 404
    handler.  Route paths match without regard to case and with an
    optional trailing slash; [app.get] routes also answer HEAD.

    The server's state is the students store; a run of the server is a
    sequence of requests, each served against the state the previous one
    left ([serve]); [reachable] are the states such a run reaches
    from the store [loadStudents] builds at start-up.  The clock, the
    secret and the [toISOString] text are the [env] of each request. *)

From stdpp Require Import relations.
From S2P Require Import Prelude JsValue JsNumber Http Jwt JwtModel Auth Student Store Samples Students StoreSpec.

Local Open Scope string_scope.
Local Open Scope prog_scope.

(** What a request sees of the process: [JWT_SECRET], the clock in
    seconds since the epoch (the unit of [iat]), and
    [new Date().toISOString()]. *)
Record env : Type := mk_env {
  env_secret : string;
  env_now : Z;
  env_iso : string
}.

(** ** Path matching *)

(** [req.path] against a literal route path: segment by segment, case
    ignored, one trailing slash allowed. *)
Fixpoint segs_ci_eqb (p lits : list string) : bool :=
  match p, lits with
  | [], [] => true
  | x :: p', l :: lits' => ci_eqb x l && segs_ci_eqb p' lits'
  | _, _ => false
  end.

Definition path_is (segs lits : list string) : bool :=
  segs_ci_eqb (strip_trailing_slash segs) lits.

(** [app.use("/students", router)]: the path below the mount point. *)
Definition students_mount (segs : list string) : option (list string) :=
  match segs with
  | x :: sub => if ci_eqb x "students" then Some sub else None
  | [] => None
  end.

(** ** Responses of server.js *)

(** The generic error handler (lines 244-250): [err.status || 500] and
    [err.message || "Something went wrong."]. *)
Definition error_response (err_status : option Z) (msg : string) : response :=
  json (default 500%Z err_status)
    (JObj [("error", JStr "Internal Server Error");
           ("message", JStr (if String.eqb msg "" then "Something went wrong." else msg))]).

(** cors() ends a preflight with status 204 and no body; [JUndefined]
    stands for the empty body. *)
Definition preflight : response := mk_response 204 JUndefined [].

Definition health (e : env) : response :=
  json 200 (JObj [("status", JStr "ok"); ("timestamp", JStr (env_iso e))]).

Definition table_to_js (t : list (string * string)) : jsval :=
  JObj ((fun kv => (kv.1, JStr kv.2)) <$> t).

Definition echo_headers (req : request) : response :=
  json 200 (JObj [("message", JStr "Here are your request headers");
                  ("headers", table_to_js (req_headers req))]).

Definition set_demo_cookie : response :=
  mk_response 200 (JObj [("message", JStr "demoCookie set. Check 'Cookies' in Postman.")])
    [SetCookie "demoCookie" "hello-from-server"].

Definition get_cookies (req : request) : response :=
  json 200 (JObj [("cookies", table_to_js (req_cookies req))]).

(** The 404 handler (lines 235-241). *)
Definition route_not_found (req : request) : response :=
  json 404 (JObj [("error", JStr "Not Found"); ("pathTried", JStr (req_url req));
                  ("method", JStr (method_name (req_method req)))]).

(** [app.get(path, guard, handler)]: the guard's response, or the
    handler's with [req.user] set. *)
Definition answer (g : guard) (req : request) (k : jsval -> response) : response :=
  match g req with inl r => r | inr u => k u end.

(** The request logger (lines 30-33), registered after express.json()
    and cors(): the line it prints, or [None] when the request never
    reaches it (a body the parser rejects, a preflight cors answers). *)
Definition request_log (e : env) (req : request) : option string :=
  match req_body req with
  | BodyMalformed _ => None
  | BodyJson _ =>
      if bool_decide (req_method req = OPTIONS) then None
      else Some ("[" +:+ env_iso e +:+ "] " +:+ method_name (req_method req) +:+ " " +:+ req_url req)
  end.

(** The abstract step a request may cause: a request the application
    hands to the students router (a parsed body, a path under
    /students) causes the step its route names; every other request
    leaves the table as it is. *)
Definition serve_step (req : request) (t t' : table) : Prop :=
  match req_body req, students_mount (req_path req) with
  | BodyJson _, Some sub => route_step (req_method req) sub (body_value req) t t'
  | _, _ => t' = t
  end.

Section App.
  Context `{TokenScheme}.

Definition app (e : env) (req : request) : prog db response response :=
    match req_body req with
    | BodyMalformed msg => halt (error_response (Some 400%Z) msg)
    | BodyJson body =>
    let m := req_method req in
    let p := req_path req in
    let jwt := requireJwt (env_secret e) (env_now e) in
    if bool_decide (m = OPTIONS) then halt preflight
    else if is_get m && path_is p ["health"] then pret (health e)
    else if is_get m && path_is p ["test"; "headers"] then pret (echo_headers req)
    else if is_get m && path_is p ["test"; "set-cookie"] then pret set_demo_cookie
    else if is_get m && path_is p ["test"; "get-cookies"] then pret (get_cookies req)
    else if bool_decide (m = POST) && path_is p ["auth"; "login-jwt"]
    then pret (login_jwt (env_secret e) (env_now e) body)
    else if is_get m && path_is p ["auth"; "me"] then pret (answer jwt req me)
    else if bool_decide (m = POST) && path_is p ["auth"; "login-cookie"]
    then pret (login_cookie body)
    else if is_get m && path_is p ["auth"; "me-cookie"]
    then pret (answer requireCookieLogin req me_cookie)
    else if bool_decide (m = POST) && path_is p ["auth"; "logout-cookie"]
    then pret logout_cookie
    else match students_mount p with
         | Some sub =>
             match students_router jwt requireCookieLogin req sub with
             | Some h => h
             | None => pret (route_not_found req)
             end
         | None => pret (route_not_found req)
         end
    end.

  (** One request served: the response and the state it leaves. *)
Definition serve (e : env) (req : request) (d : db) : response * db :=
    run_prog (app e req) d.

  (** A run of the server from the store loaded at start-up. *)
Inductive reachable (file : option (list Student)) : db -> Prop :=
  | reach_init : reachable file (loadStudents file)
  | reach_step e req d : reachable file d -> reachable file (snd (serve e req d)).
End App.

(** ** Sample environment and requests *)

Definition sample_env (now : Z) : env := mk_env "k" now "1970-01-01T00:00:10.000Z".

Definition post_students (auth : string) : request :=
  mk_request POST "/students" ["students"] [("authorization", auth)] [] (BodyJson cy_body).

Definition unrouted_request : request := get_request "/nope" ["nope"] [] [].

(** ** Path matching lemmas *)

Lemma segs_ci_eqb_trans a b c :
  segs_ci_eqb a b = true -> segs_ci_eqb a c = segs_ci_eqb b c.
Proof.
  revert b c; induction a as [|x a IH]; intros [|y b] [|z c]; simpl; try done.
  intros [Hxy Hab]%andb_prop. apply ci_eqb_spec in Hxy.
  by rewrite (IH b c Hab), Hxy.
Qed.

(** Once a request's path is known to match one literal route, whether it
    matches another is decided on the literals. *)
Lemma path_is_route p l1 l2 :
  path_is p l1 = true -> path_is p l2 = segs_ci_eqb l1 l2.
Proof. apply segs_ci_eqb_trans. Qed.

Lemma strip_trailing_slash_head p x q :
  strip_trailing_slash p = x :: q -> exists r, p = x :: r.
Proof.
  unfold strip_trailing_slash. destruct (rev p) as [|[|c s] r] eqn:E; try (intros ->; by eexists).
  intros Hr. apply (f_equal (@rev string)) in E. rewrite rev_involutive in E. subst p.
  cbn [rev]. rewrite Hr. by eexists.
Qed.

Lemma path_is_head p l ls :
  path_is p (l :: ls) = true -> exists x r, p = x :: r /\ ci_eqb x l = true.
Proof.
  unfold path_is. destruct (strip_trailing_slash p) as [|x q] eqn:E; [done|].
  intros [Hx _]%andb_prop. destruct (strip_trailing_slash_head _ _ _ E) as [r ->]. eauto.
Qed.

(** Serve a request whose method, path and parsed body are known: the
    route tests before its own are decided on the literals. *)
Ltac serve_route Hm Hp Hb :=
  unfold serve, app; rewrite Hb, Hm, !(path_is_route _ _ _ Hp).

(** ** The store along a run *)

Section Invariants.
  Context `{TokenScheme}.

  (** What holds of the state left by every route of the students router
      run from [d] holds of the state the whole app leaves: the other
      routes of server.js do not touch the store. *)
Lemma app_from (R : db -> Prop) e req d :
    R d ->
    (forall body sub h, req_body req = BodyJson body -> students_mount (req_path req) = Some sub ->
       students_router (requireJwt (env_secret e) (env_now e)) requireCookieLogin
                       req sub = Some h -> R (exit_state (h d))) ->
    R (exit_state (app e req d)).
  Proof.
    intros Hd Hr. unfold app. destruct (req_body req) eqn:Hb; [|done].
    repeat match goal with
           | |- R (exit_state ((if ?b then _ else _) _)) => destruct b
           | |- R (exit_state ((match ?x with _ => _ end) _)) => destruct x eqn:?
           end; eauto.
  Qed.

  (** A property every students route keeps is kept by the whole app. *)
Lemma app_preserves (P : db -> Prop) e req :
    (forall sub h, students_router (requireJwt (env_secret e) (env_now e)) requireCookieLogin
                                   req sub = Some h -> preserves P h) ->
    preserves P (app e req).
  Proof. intros Hr d Hd. apply app_from; [done|]. intros body sub h _ _ Hh. by apply (Hr sub h Hh). Qed.

Lemma reachable_ind_preserves (P : db -> Prop) file d :
    P (loadStudents file) -> (forall e req, preserves P (app e req)) ->
    reachable file d -> P d.
  Proof.
    intros Hinit Hstep Hd. induction Hd as [|e req d _ IH]; [done|].
    unfold serve. rewrite run_prog_state. by apply Hstep.
  Qed.

Lemma wf_loadStudents file :
    (forall l, file = Some l -> store_wf l) -> wf_db (loadStudents file).
  Proof. intros Hfile. destruct file as [l|]; [by apply Hfile|]. split; constructor. Qed.

Lemma app_wf e req : preserves wf_db (app e req).
  Proof. apply app_preserves. intros sub h. apply students_router_wf. Qed.

Lemma app_ages e req : preserves ages_positive (app e req).
  Proof. apply app_preserves. intros sub h. apply students_router_ages. Qed.

(** C1: Along any run of the server from a store file whose records have
    distinct ids and e-mails distinct up to case (or from an unreadable
    file), every state reached has distinct ids and e-mails distinct up
    to case. *)
Theorem reachable_wf file d :
    (forall l, file = Some l -> store_wf l) -> reachable file d -> wf_db d.
  Proof.
    intros Hfile. apply reachable_ind_preserves; [by apply wf_loadStudents|apply app_wf].
  Qed.

(** C26: Along any run of the server from a store file whose ages are
    positive, every stored age stays positive. *)
Theorem reachable_ages file d :
    (forall l, file = Some l -> Forall (fun s => (0 < age s)%Z) l) ->
    reachable file d -> ages_positive d.
  Proof.
    intros Hfile. apply reachable_ind_preserves.
    - destruct file as [l|]; [by apply Hfile|]. constructor.
    - apply app_ages.
  Qed.

Lemma serve_step_refl req t : serve_step req t t.
  Proof. unfold serve_step. repeat case_match; try done. by left. Qed.

(** One request, on a store with unique ids, causes the abstract step
    its route names. *)
Lemma serve_route_step e req d :
    ids_unique (students d) ->
    serve_step req (abs (students d)) (abs (students (snd (serve e req d)))).
  Proof.
    intros Hu. unfold serve. rewrite run_prog_state.
    apply (app_from (fun d' => serve_step req (abs (students d)) (abs (students d')))).
    - apply serve_step_refl.
    - intros body sub h Hb Hm Hh. unfold serve_step. rewrite Hb, Hm. rewrite <- run_prog_state.
      by eapply students_router_route_step.
  Qed.

(** C2: Refinement: in every state a run of the server reaches from a
    store file with unique ids and e-mails, the request served next
    changes the abstract table by the step its route names and nothing
    else: POST /students by the specification's create of the validated
    body, PUT /students/:id by a replace of that id with the validated
    body, PATCH /students/:id by a replace of that id, DELETE
    /students/:id by the delete of that id, each when it succeeds, and
    every other request not at all. *)
Theorem reachable_refines file d e req :
    (forall l, file = Some l -> store_wf l) -> reachable file d ->
    serve_step req (abs (students d)) (abs (students (snd (serve e req d)))).
  Proof.
    intros Hfile Hd. apply serve_route_step.
    assert (Hwf : wf_db d) by (eapply reachable_ind_preserves; [by apply wf_loadStudents|apply app_wf|done]).
    apply Hwf.
  Qed.
End Invariants.

Lemma path_is_not_head p l ls :
  (forall x r, p = x :: r -> ci_eqb x l = false) -> path_is p (l :: ls) = false.
Proof.
  intros Hp. apply not_true_is_false. intros (x & r & -> & Hx)%path_is_head.
  by rewrite (Hp x r) in Hx.
Qed.

Section Requests.
  Context `{TokenScheme}.

(** C5: A request that [requireJwt] rejects leaves the store and the
    file unchanged, whatever its method and path: every route that
    writes is behind the bearer guard. *)
Theorem jwt_rejected_unchanged e req d r :
    requireJwt (env_secret e) (env_now e) req = inl r -> snd (serve e req d) = d.
  Proof.
    intros Hr. unfold serve. rewrite run_prog_state. symmetry.
    apply (app_preserves (eq d)); [|done].
    intros sub h. by apply students_router_rejected with r.
  Qed.

(** C30: A request with a parsed body whose first path segment is none
    of health, test, auth, students answers 404 [{error, pathTried,
    method}], except an OPTIONS request, which cors answers 204; the
    store is unchanged. *)
Theorem unrouted_response e req d body :
    req_body req = BodyJson body ->
    (forall x r, req_path req = x :: r ->
                 Forall (fun top => ci_eqb x top = false) ["health"; "test"; "auth"; "students"]) ->
    serve e req d =
      (if bool_decide (req_method req = OPTIONS) then preflight else route_not_found req, d).
  Proof.
    intros Hb Hp. unfold serve, app. rewrite Hb.
    case_bool_decide; [done|].
    assert (Hn : forall top ls, top ∈ ["health"; "test"; "auth"; "students"] ->
                                path_is (req_path req) (top :: ls) = false).
    { intros top ls Htop. apply path_is_not_head. intros x r Hx.
      specialize (Hp x r Hx). rewrite Forall_forall in Hp. by apply Hp. }
    rewrite !Hn by set_solver. rewrite !andb_false_r.
    destruct (req_path req) as [|x r] eqn:E; [done|]. specialize (Hp x r eq_refl).
    repeat (apply Forall_cons_iff in Hp as [? Hp]). cbn [students_mount].
    by match goal with H : ci_eqb x "students" = false |- _ => rewrite H end.
  Qed.

  (** The answer of [POST /auth/login-jwt]: [login_jwt]. *)
Lemma serve_login_jwt e req d body :
    req_method req = POST -> path_is (req_path req) ["auth"; "login-jwt"] = true ->
    req_body req = BodyJson body ->
    serve e req d = (login_jwt (env_secret e) (env_now e) body, d).
  Proof.
    intros Hm Hp Hb. by serve_route Hm Hp Hb.
  Qed.

  (** The answer of [GET /auth/me]: the guard's, or [me] of the payload. *)
Lemma serve_me e req d body :
    req_method req = GET -> path_is (req_path req) ["auth"; "me"] = true ->
    req_body req = BodyJson body ->
    serve e req d = (answer (requireJwt (env_secret e) (env_now e)) req me, d).
  Proof.
    intros Hm Hp Hb. by serve_route Hm Hp Hb.
  Qed.

(** C12: POST /auth/login-jwt with the demo credentials answers 200 with
    a token signed with the server's secret; GET /auth/me with that
    token answers 200 with the payload including [iat] and [exp] while
    the hour has not passed, and 401 [jwt expired] after it; neither
    touches the store. *)
Theorem login_then_me e1 e2 req1 req2 body1 body2 d :
    req_method req1 = POST -> path_is (req_path req1) ["auth"; "login-jwt"] = true ->
    req_body req1 = BodyJson body1 -> credentials_ok body1 ->
    req_method req2 = GET -> path_is (req_path req2) ["auth"; "me"] = true ->
    req_body req2 = BodyJson body2 -> env_secret e2 = env_secret e1 ->
    let token := jwt_sign DEMO_USER (env_secret e1) (env_now e1) TOKEN_LIFETIME in
    assoc_first "authorization" (req_headers req2) = Some ("Bearer " +:+ token) ->
    serve e1 req1 d =
      (json 200 (JObj [("message", JStr "Login successful. Use this token in Authorization header.");
                       ("token", JStr token);
                       ("howToUse", JStr "Add header: Authorization: Bearer <token> to protected routes such as /students/protected")]), d) /\
    serve e2 req2 d =
      (if (env_now e2 <? env_now e1 + TOKEN_LIFETIME)%Z
       then me (decoded_to_js DEMO_USER (env_now e1) (env_now e1 + TOKEN_LIFETIME))
       else invalid_token "jwt expired", d).
  Proof.
    intros Hm1 Hp1 Hb1 Hc Hm2 Hp2 Hb2 Hs token Ht. split.
    - rewrite (serve_login_jwt _ _ _ _ Hm1 Hp1 Hb1). unfold login_jwt.
      by rewrite (proj2 (check_credentials_None body1 login_missing_jwt) Hc).
    - rewrite (serve_me _ _ _ _ Hm2 Hp2 Hb2). unfold answer.
      rewrite Hs, (requireJwt_token _ _ _ _ _ _ Ht).
      by destruct (_ <? _)%Z.
  Qed.

(** C28: The cookie session: POST /auth/login-cookie with the demo
    credentials sets the cookie [sessionId=dummy-session-id]; GET
    /auth/me-cookie with that cookie, from any client, answers 200 with
    the fixed identity [cookieUser]; POST /auth/logout-cookie clears the
    cookie. None of them touches the store. *)
Theorem cookie_session_flow e req1 req2 req3 body1 body2 body3 d :
    req_method req1 = POST -> path_is (req_path req1) ["auth"; "login-cookie"] = true ->
    req_body req1 = BodyJson body1 ->
    req_method req2 = GET -> path_is (req_path req2) ["auth"; "me-cookie"] = true ->
    req_body req2 = BodyJson body2 ->
    req_method req3 = POST -> path_is (req_path req3) ["auth"; "logout-cookie"] = true ->
    req_body req3 = BodyJson body3 ->
    (credentials_ok body1 ->
     serve e req1 d =
       (mk_response 200
          (JObj [("message", JStr "Cookie login successful. 'sessionId' cookie set. Use it for cookie-protected routes.");
                 ("note", JStr "Check 'Cookies' tab in Postman.")])
          [SetCookie "sessionId" "dummy-session-id"], d)) /\
    (assoc_first "sessionId" (req_cookies req2) = Some "dummy-session-id" ->
     serve e req2 d = (me_cookie (JObj [("username", JStr "cookieUser"); ("role", JStr "cookie-tester")]), d)) /\
    serve e req3 d =
      (mk_response 200 (JObj [("message", JStr "Logged out cookie session.")]) [ClearCookie "sessionId"], d).
  Proof.
    intros Hm1 Hp1 Hb1 Hm2 Hp2 Hb2 Hm3 Hp3 Hb3. split_and!.
    - intros Hc. serve_route Hm1 Hp1 Hb1. cbv iota beta. unfold login_cookie.
      by rewrite (proj2 (check_credentials_None body1 login_missing_cookie) Hc).
    - intros Hs. serve_route Hm2 Hp2 Hb2. cbv iota beta. unfold answer.
      by rewrite (requireCookieLogin_valid req2 Hs).
    - by serve_route Hm3 Hp3 Hb3.
  Qed.

(** C31: A body express.json() cannot parse is answered by the error
    handler with 400 [Internal Server Error] and the parser's message,
    on every route and before any guard, and the store is unchanged. *)
Theorem malformed_body_rejected e req d msg :
    req_body req = BodyMalformed msg ->
    serve e req d =
      (json 400 (JObj [("error", JStr "Internal Server Error");
                       ("message", JStr (if String.eqb msg "" then "Something went wrong." else msg))]), d).
  Proof. intros Hb. unfold serve, app. by rewrite Hb. Qed.
(** A request the logger does not print is one the middleware before it
    answered: the parser's error or the cors preflight, store unchanged. *)
Lemma unlogged_requests e req d :
    request_log e req = None ->
    (exists msg, req_body req = BodyMalformed msg /\ serve e req d = (error_response (Some 400%Z) msg, d)) \/
    (req_method req = OPTIONS /\ serve e req d = (preflight, d)).
  Proof.
    unfold request_log, serve, app. destruct (req_body req) as [v|msg]; [|intros _; left; by exists msg].
    case_bool_decide as Hm; [|done]. intros _. right. by rewrite Hm.
  Qed.
End Requests.

(** ** Runs on the sample store *)

Section Examples.
#[local] Existing Instance toy_token_scheme.

Lemma reachable_wf_witness :
  wf_db (snd (serve (sample_env 10) (post_students ("Bearer " +:+ sample_token))
                    (loadStudents (Some [ann; bob])))).
Proof.
  apply (reachable_wf (Some [ann; bob])).
  - intros l [= <-]. apply (bool_decide_unpack _). by vm_compute.
  - apply reach_step, reach_init.
Defined.

Lemma reachable_refines_witness :
  serve_step (post_students ("Bearer " +:+ sample_token)) (abs (students (loadStudents (Some [ann; bob]))))
    (abs (students (snd (serve (sample_env 10) (post_students ("Bearer " +:+ sample_token))
                               (loadStudents (Some [ann; bob])))))).
Proof.
  apply (reachable_refines (Some [ann; bob])).
  - intros l [= <-]. apply (bool_decide_unpack _). by vm_compute.
  - apply reach_init.
Defined.

Lemma reachable_ages_witness :
  ages_positive (snd (serve (sample_env 10) (post_students ("Bearer " +:+ sample_token))
                            (loadStudents (Some [ann; bob])))).
Proof.
  apply (reachable_ages (Some [ann; bob])).
  - intros l [= <-]. repeat constructor.
  - apply reach_step, reach_init.
Defined.

Lemma jwt_rejected_unchanged_witness :
  snd (serve (sample_env 10) (post_students "Basic abc") sample_db) = sample_db.
Proof. apply (jwt_rejected_unchanged _ _ _ bad_format). vm_compute. reflexivity. Defined.

Lemma unrouted_response_witness :
  serve (sample_env 10) unrouted_request sample_db = (route_not_found unrouted_request, sample_db).
Proof.
  rewrite (unrouted_response _ _ _ (JObj [])); [reflexivity|reflexivity|].
  intros x r [= <- <-]. repeat constructor.
Defined.

Lemma login_then_me_witness :
  serve (sample_env 0) login_request sample_db =
    (json 200 (JObj [("message", JStr "Login successful. Use this token in Authorization header.");
                     ("token", JStr sample_token);
                     ("howToUse", JStr "Add header: Authorization: Bearer <token> to protected routes such as /students/protected")]),
     sample_db) /\
  serve (sample_env 10) (me_request ("Bearer " +:+ sample_token)) sample_db =
    (me (decoded_to_js DEMO_USER 0 3600), sample_db).
Proof.
  destruct (login_then_me (sample_env 0) (sample_env 10) login_request
              (me_request ("Bearer " +:+ sample_token)) login_body (JObj []) sample_db)
    as [H1 H2]; try reflexivity.
  - split; reflexivity.
  - split; [exact H1|]. rewrite H2. reflexivity.
Defined.

Lemma cookie_session_flow_witness :
  serve (sample_env 0) (me_cookie_request "dummy-session-id") sample_db =
    (me_cookie (JObj [("username", JStr "cookieUser"); ("role", JStr "cookie-tester")]), sample_db).
Proof.
  refine (proj1 (proj2 (cookie_session_flow (sample_env 0) login_cookie_request
              (me_cookie_request "dummy-session-id") logout_request login_body (JObj []) (JObj [])
              sample_db _ _ _ _ _ _ _ _ _)) _); reflexivity.
Defined.

Lemma malformed_body_rejected_witness :
  serve (sample_env 0) malformed_request sample_db =
    (json 400 (JObj [("error", JStr "Internal Server Error");
                     ("message", JStr "Unexpected token in JSON at position 1")]), sample_db).
Proof. rewrite (malformed_body_rejected _ _ _ "Unexpected token in JSON at position 1"); reflexivity. Defined.
End Examples.
