(* ===== verification/XlsxExport.v ===== *)
(** * The test-plan export script (scripts/generate_xlsx.js)

    The script reads the Postman collection (JSON), walks its tree of
    folders and requests ([collectItems]), makes one row per request
    (collection, name, method, URL, the two scripts, the expected status
    read from the test script with the regular expression
    [/to.have.status\((\d{3})\)/], notes), sorts the rows into the sheets
    Auth, Students and Tests and writes the non-empty sheets.

    The collection is the [jsval] that [JSON.parse] returns; reading the
    file, the xlsx library and [console] are not modelled: [main] returns
    the sheets it would write, exit code 2 for a missing file, or the
    TypeError a malformed collection raises.  Every operation the script
    applies to a value of the wrong type (a property read on [null], a
    [join] or [toLowerCase] that is not a function) is a [TypeError] here,
    as it is an uncaught exception there.

    [collectItems] recurses into folders; the model takes fuel and the
    termination theorem shows that the size of the collection is enough
    fuel, the fuel [main] gives it ([collect_total]). *)

From S2P Require Import Prelude JsValue JsNumber.

Local Open Scope string_scope.

(** ** Results: a value or the exception the script raises *)

Inductive xerr : Type :=
| TypeError (msg : string)
| OutOfFuel.

Definition xres (A : Type) : Type := xerr + A.

#[export] Instance xres_ret : MRet xres := fun _ x => inr x.
#[export] Instance xres_bind : MBind xres := fun _ _ k m =>
  match m with inl e => inl e | inr x => k x end.

(** ** String conversions and searches *)

(** [String(v)], and [Array.prototype.join] which writes [null] and
    [undefined] elements as empty strings. *)
Fixpoint js_to_string (v : jsval) : string :=
  match v with
  | JUndefined => "undefined"
  | JNull => "null"
  | JBool b => if b then "true" else "false"
  | JNum n => num_to_string (NFin n 0)
  | JStr s => s
  | JArr vs =>
      String.concat ","
        ((fix go (l : list jsval) : list string :=
            match l with
            | [] => []
            | x :: l' => match x with JUndefined | JNull => "" | _ => js_to_string x end :: go l'
            end) vs)
  | JObj _ => "[object Object]"
  end.

Definition join_elem (v : jsval) : string :=
  match v with JUndefined | JNull => "" | _ => js_to_string v end.

Definition js_join (sep : string) (vs : list jsval) : string :=
  String.concat sep (join_elem <$> vs).

(** [s.includes(t)] on strings. *)
Fixpoint str_includes (s t : string) : bool :=
  String.prefix t s ||
  match s with
  | EmptyString => false
  | String _ s' => str_includes s' t
  end.

(** [v.includes(t)]: strings search a substring, arrays an element. *)
Definition js_includes (v : jsval) (t : string) : xres bool :=
  match v with
  | JStr s => inr (str_includes s t)
  | JArr vs => inr (existsb (fun x => match x with JStr s => String.eqb s t | _ => false end) vs)
  | _ => inl (TypeError "url.includes is not a function")
  end.

(** [v.toLowerCase()] *)
Definition js_lower (v : jsval) : xres string :=
  match v with
  | JStr s => inr (js_toLowerCase s)
  | _ => inl (TypeError "toLowerCase is not a function")
  end.

(** Reading a property of [null] or [undefined] throws. *)
Definition read_prop (v : jsval) (k : string) : xres jsval :=
  match v with
  | JUndefined => inl (TypeError ("Cannot read properties of undefined (reading '" +:+ k +:+ "')"))
  | JNull => inl (TypeError ("Cannot read properties of null (reading '" +:+ k +:+ "')"))
  | _ => inr (get_prop v k)
  end.

(** [a || b] *)
Definition js_or (a b : jsval) : jsval := if truthy a then a else b.

(** ** [safeJoinExec(eventArray, listenName)] (lines 9-15)

    [undefined] when [eventArray] is not an array ([None]); [''] when no
    event listens to [listenName] or it has no script; otherwise the
    lines of [script.exec] joined with newlines. *)

Fixpoint find_event (listenName : string) (evs : list jsval) : xres (option jsval) :=
  match evs with
  | [] => inr None
  | e :: evs' =>
      l ← read_prop e "listen";
      match l with
      | JStr s => if String.eqb s listenName then inr (Some e) else find_event listenName evs'
      | _ => find_event listenName evs'
      end
  end.

Definition newline : string := String (ascii_of_nat 10) EmptyString.

Definition safeJoinExec (eventArray : jsval) (listenName : string) : xres (option string) :=
  match eventArray with
  | JArr evs =>
      ev ← find_event listenName evs;
      match ev with
      | None => inr (Some "")
      | Some e =>
          let script := get_prop e "script" in
          if negb (truthy script) then inr (Some "") else
          match js_or (get_prop script "exec") (JArr []) with
          | JArr lines => inr (Some (js_join newline lines))
          | _ => inl (TypeError "exec.join is not a function")
          end
      end
  | _ => inr None
  end.

(** ** The expected status: [/to.have.status\((\d{3})\)/]

    [.] matches any character but a line terminator (LF, CR; U+2028 and
    U+2029 are beyond Latin-1); the match is the leftmost one, and its
    group is three digits. *)

Inductive token : Type := Lit (c : ascii) | AnyChar | Digit.

Definition status_pattern : list token :=
  [Lit "t"; Lit "o"; AnyChar; Lit "h"; Lit "a"; Lit "v"; Lit "e"; AnyChar;
   Lit "s"; Lit "t"; Lit "a"; Lit "t"; Lit "u"; Lit "s"; Lit "("; Digit; Digit; Digit; Lit ")"]%char.

Definition is_line_terminator (c : ascii) : bool :=
  (nat_of_ascii c =? 10)%nat || (nat_of_ascii c =? 13)%nat.

Definition is_digit (c : ascii) : bool :=
  (48 <=? nat_of_ascii c)%nat && (nat_of_ascii c <=? 57)%nat.

(** The pattern at the start of [s]: the digits it captured. *)
Fixpoint match_here (p : list token) (s : list ascii) : option (list ascii) :=
  match p, s with
  | [], _ => Some []
  | _ :: _, [] => None
  | Lit c :: p', x :: s' => if Ascii.eqb x c then match_here p' s' else None
  | AnyChar :: p', x :: s' => if is_line_terminator x then None else match_here p' s'
  | Digit :: p', x :: s' => if is_digit x then (cons x) <$> match_here p' s' else None
  end.

(** [str.match(re)][1]: the group of the leftmost match. *)
Fixpoint regex_search (s : list ascii) : option (list ascii) :=
  match match_here status_pattern s with
  | Some g => Some g
  | None => match s with [] => None | _ :: s' => regex_search s' end
  end.

(** [if (m) expectedStatus = Number(m[1])]; the row keeps
    [expectedStatus || '']: [None] is the empty cell. *)
Definition expected_status (testScript : option string) : option Z :=
  match regex_search (String.list_ascii_of_string (default "" testScript)) with
  | None => None
  | Some g =>
      let n := num_int_value (js_Number (String.string_of_list_ascii g)) in
      if (n =? 0)%Z then None else Some n
  end.

(** ** One row per request (lines 27-59) *)

Record row : Type := mk_row {
  r_collection : jsval;           (** [parentName || ''] *)
  r_name : string;
  r_method : jsval;               (** [request.method || ''] *)
  r_url : jsval;
  r_prereq : string;              (** [preReq || ''] *)
  r_test : string;                (** [testScript || ''] *)
  r_expected : option Z;          (** [expectedStatus || ''] *)
  r_notes : string                (** [notes.join('; ')] *)
}.

(** The URL of a request (lines 30-35): a string, [url.raw], or rebuilt
    from protocol, host and path. *)
Definition request_url (request : jsval) : xres jsval :=
  let u := get_prop request "url" in
  if negb (truthy u) then inr (JStr "") else
  match u with
  | JStr _ => inr u
  | _ =>
      let raw := get_prop u "raw" in
      if truthy raw then inr raw else
      let host := get_prop u "host" in
      if negb (truthy host) then inr (JStr "") else
      let protocol := get_prop u "protocol" in
      let pre := if truthy protocol then js_to_string protocol +:+ "://" else "" in
      let h := match host with JArr hs => js_join "." hs | _ => js_to_string host end in
      let path := get_prop u "path" in
      if negb (truthy path) then inr (JStr (pre +:+ h)) else
      match path with
      | JArr ps => inr (JStr (pre +:+ h +:+ "/" +:+ js_join "/" ps))
      | _ => inl (TypeError "request.url.path.join is not a function")
      end
  end.

(** [notes] (lines 45-48): the URL is searched as it is, the name in
    lower case, and [name.toLowerCase()] throws when the name is not a
    string. *)
Definition row_notes (url name : jsval) : xres (list string) :=
  a ← js_includes url "/auth";
  s ← js_includes url "/students";
  lname ← js_lower name;
  let e := str_includes lname "error" || str_includes lname "invalid" || str_includes lname "not found" in
  inr ((if a : bool then ["Auth"] else []) ++ (if s : bool then ["Students"] else [])
       ++ (if e then ["Error case"] else []))%list.

(** The body of the [forEach] callback for a request (lines 27-59).  The
    name is a string once [name.toLowerCase()] has succeeded. *)
Definition make_row (item parentName : jsval) : xres row :=
  let name := js_or (get_prop item "name") (JStr "") in
  let request := js_or (get_prop item "request") (JObj []) in
  let method := js_or (get_prop request "method") (JStr "") in
  url ← request_url request;
  preReq ← safeJoinExec (get_prop item "event") "prerequest";
  testScript ← safeJoinExec (get_prop item "event") "test";
  let expected := expected_status testScript in
  notes ← row_notes url name;
  match name with
  | JStr n =>
      inr (mk_row (js_or parentName (JStr "")) n method url (default "" preReq)
                  (default "" testScript) expected (String.concat "; " notes))
  | _ => inl (TypeError "toLowerCase is not a function")
  end.

(** ** [collectItems(items, parentName)] (lines 17-63)

    A folder is an item whose [item] is an array: its rows come in place,
    under the folder's name (or the parent's).  Each level of folders
    takes one unit of fuel. *)
Fixpoint collect (fuel : nat) (parentName : jsval) (items : list jsval) : xres (list row) :=
  match fuel with
  | O => inl OutOfFuel
  | S f =>
      (fix go (l : list jsval) : xres (list row) :=
         match l with
         | [] => inr []
         | item :: l' =>
             sub ← read_prop item "item";
             here ← (match sub with
                     | JArr subs => collect f (js_or (get_prop item "name") parentName) subs
                     | _ => r ← make_row item parentName; inr [r]
                     end);
             rest ← go l';
             inr (here ++ rest)%list
         end) items
  end.

(** ** Sheets and [main] (lines 65-113) *)

Inductive sheet_kind : Type := AuthSheet | StudentsSheet | TestsSheet.

(** The sheet of a row (lines 85-92): URL and name in lower case. *)
Definition sheet_of (r : row) : xres sheet_kind :=
  url ← js_lower (js_or (r_url r) (JStr ""));
  let name := js_toLowerCase (r_name r) in
  if str_includes url "/auth" || str_includes name "auth" then inr AuthSheet
  else if str_includes url "/students" || str_includes name "student" then inr StudentsSheet
  else inr TestsSheet.

(** [allRows.forEach(r => ... push(r))] into the three arrays. *)
Fixpoint sort_rows (rows : list row) (auth studs tests : list row)
  : xres (list row * list row * list row) :=
  match rows with
  | [] => inr (auth, studs, tests)
  | r :: rows' =>
      k ← sheet_of r;
      match k with
      | AuthSheet => sort_rows rows' (auth ++ [r])%list studs tests
      | StudentsSheet => sort_rows rows' auth (studs ++ [r])%list tests
      | TestsSheet => sort_rows rows' auth studs (tests ++ [r])%list
      end
  end.

#[export] Instance sheet_kind_eq_dec : EqDecision sheet_kind.
Proof. solve_decision. Defined.

(** Every row with its sheet, and the rows of one sheet in order: the
    partition the [forEach] loop computes. *)
Definition classify (rows : list row) : xres (list (row * sheet_kind)) :=
  mapM (fun r => k ← sheet_of r; inr (r, k)) rows.

Definition rows_of (k : sheet_kind) (cl : list (row * sheet_kind)) : list row :=
  fst <$> filter (fun p => p.2 = k) cl.

(** The workbook: the non-empty sheets, in the order Auth, Students,
    Tests. *)
Definition workbook (auth studs tests : list row) : list (string * list row) :=
  ((if bool_decide (auth = []) then [] else [("Auth", auth)]) ++
  (if bool_decide (studs = []) then [] else [("Students", studs)]) ++
  (if bool_decide (tests = []) then [] else [("Tests", tests)]))%list.

Inductive outcome : Type :=
| ExitCode (code : Z)                   (** [process.exit(2)] *)
| Crash (e : xerr)                      (** an uncaught exception *)
| Wrote (sheets : list (string * list row)).

(** Fuel for [collect]: the number of constructors of the collection. *)
Fixpoint jsize (v : jsval) : nat :=
  match v with
  | JArr vs => S (sum_list_with jsize vs)
  | JObj fs => S (sum_list_with (fun kv => jsize kv.2) fs)
  | _ => 1
  end.

(** [None]: the collection file does not exist. *)
Definition main (collection : option jsval) : outcome :=
  match collection with
  | None => ExitCode 2
  | Some coll =>
      let res :=
        items_v ← read_prop coll "item";
        let items := js_or items_v (JArr []) in
        let info := get_prop coll "info" in
        let parent := if truthy info && truthy (get_prop info "name") then get_prop info "name"
                      else JStr "Collection" in
        allRows ← (match items with
                   | JArr its => collect (jsize items) parent its
                   | _ => inl (TypeError "items.forEach is not a function")
                   end);
        sorted ← sort_rows allRows [] [] [];
        let '(a, s, t) := sorted in
        inr (workbook a s t) in
      match res with
      | inl e => Crash e
      | inr sheets => Wrote sheets
      end
  end.

(** ** A sample collection

    A folder [Auth] with a login request, and three requests at the top
    level; the last one's URL spells [/AUTH] in capitals. *)

Definition test_event (script : string) : jsval :=
  JObj [("listen", JStr "test"); ("script", JObj [("exec", JArr [JStr script])])].

Definition sample_request (name method url script : string) : jsval :=
  JObj [("name", JStr name);
        ("request", JObj [("method", JStr method); ("url", JObj [("raw", JStr url)])]);
        ("event", JArr [test_event script])].

Definition sample_collection : jsval :=
  JObj [("info", JObj [("name", JStr "API")]);
        ("item", JArr [
           JObj [("name", JStr "Auth");
                 ("item", JArr [sample_request "Login" "POST" "{{base}}/auth/login"
                                  "pm.response.to.have.status(200);"])];
           sample_request "List students" "GET" "{{base}}/students"
             "pm.response.to.have.status(200)";
           sample_request "Health" "GET" "{{base}}/health"
             "pm.response.to.have.status(000)";
           sample_request "Invalid thing" "GET" "{{base}}/AUTH/x" ""])].

Definition sample_items : list jsval :=
  match get_prop sample_collection "item" with JArr its => its | _ => [] end.

(** A request whose URL spells [/AUTH] in capitals. *)
Definition sample_auth_item : jsval :=
  sample_request "Invalid thing" "GET" "{{base}}/AUTH/x" "".

(** The rows of the sample, their sheets and the workbook. *)
Definition sample_rows : list row :=
  match collect 60 (JStr "API") sample_items with inr rs => rs | inl _ => [] end.

Definition sample_sorted : list row * list row * list row :=
  match sort_rows sample_rows [] [] [] with inr x => x | inl _ => ([], [], []) end.

Definition sample_sheets : list (string * list row) :=
  match main (Some sample_collection) with Wrote sh => sh | _ => [] end.

(** A result other than fuel exhaustion. *)
Definition no_oof {A} (m : xres A) : Prop := m <> inl OutOfFuel.

(** ** Sorting the rows into sheets *)

Lemma classify_cons r rows :
  classify (r :: rows) = (k ← sheet_of r; cl ← classify rows; inr ((r, k) :: cl)).
Proof. unfold classify. cbn. by destruct (sheet_of r). Qed.

Lemma sort_rows_acc rows a s t :
  sort_rows rows a s t =
    (cl ← classify rows;
     inr (a ++ rows_of AuthSheet cl, s ++ rows_of StudentsSheet cl, t ++ rows_of TestsSheet cl)%list).
Proof.
  induction rows as [|r rows IH] in a, s, t |- *; [cbn; by rewrite !app_nil_r|].
  cbn [sort_rows]. rewrite classify_cons.
  destruct (sheet_of r) as [e|k]; [done|]. cbn.
  destruct k; rewrite IH; destruct (classify rows) as [e|cl]; try done;
    unfold rows_of; cbn; by rewrite <- !app_assoc.
Qed.

Lemma rows_of_partition cl :
  fst <$> cl ≡ₚ (rows_of AuthSheet cl ++ rows_of StudentsSheet cl ++ rows_of TestsSheet cl)%list.
Proof.
  induction cl as [|[r k] cl IH]; [done|]. unfold rows_of in *.
  destruct k; cbn; rewrite IH; solve_Permutation.
Qed.

Lemma classify_fst rows cl : classify rows = inr cl -> fst <$> cl = rows.
Proof.
  induction rows as [|r rows IH] in cl |- *; [by intros [= <-]|].
  rewrite classify_cons. destruct (sheet_of r); [done|]. cbn.
  destruct (classify rows) as [|cl'] eqn:E; [done|]. intros [= <-]. cbn. by rewrite IH.
Qed.

(** ** Fuel *)

Lemma sum_list_with_elem {A} (f : A -> nat) x l : x ∈ l -> f x <= sum_list_with f l.
Proof. induction 1; cbn; lia. Qed.

Lemma get_prop_found fs k :
  get_prop (JObj fs) k = JUndefined \/ (k, get_prop (JObj fs) k) ∈ fs.
Proof.
  cbn. assert (Hgen : forall acc,
    let r := fold_left (fun acc '(k', x) => if String.eqb k' k then x else acc) fs acc in
    r = acc \/ (k, r) ∈ fs).
  { induction fs as [|[k' x] fs IH]; intros acc; [by left|]. cbn.
    destruct (IH (if String.eqb k' k then x else acc)) as [->|H];
      [|right; by apply elem_of_cons; right].
    destruct (String.eqb_spec k' k) as [->|]; [right; by apply elem_of_cons; left|by left]. }
  apply Hgen.
Qed.

Lemma get_prop_arr_size v k subs :
  get_prop v k = JArr subs -> sum_list_with jsize subs < jsize v.
Proof.
  destruct v as [| | | | | |fs]; try done.
  destruct (get_prop_found fs k) as [->|Hin]; [done|]. intros Hs. rewrite Hs in Hin.
  apply (sum_list_with_elem (fun kv => jsize kv.2)) in Hin. cbn in *. lia.
Qed.

Lemma collect_cons f p item l :
  collect (S f) p (item :: l) =
    (sub ← read_prop item "item";
     here ← (match sub with
             | JArr subs => collect f (js_or (get_prop item "name") p) subs
             | _ => r ← make_row item p; inr [r]
             end);
     rest ← collect (S f) p l;
     inr (here ++ rest)%list).
Proof. reflexivity. Qed.

Create HintDb xlsx discriminated.

Lemma no_oof_bind {A B} (m : xres A) (k : A -> xres B) :
  no_oof m -> (forall x, m = inr x -> no_oof (k x)) -> no_oof (m ≫= k).
Proof. unfold no_oof. intros Hm Hk. destruct m; cbn; [congruence|by apply Hk]. Qed.

(** Two computations agree when the first does not run out of fuel and
    each part of the second agrees with the first's wherever that part
    does not. *)
Lemma bind_fuel_congr {A B} (m1 m2 : xres A) (k1 k2 : A -> xres B) :
  no_oof (m1 ≫= k1) -> (no_oof m1 -> m2 = m1) ->
  (forall x, no_oof (k1 x) -> k2 x = k1 x) -> m2 ≫= k2 = m1 ≫= k1.
Proof.
  unfold no_oof. destruct m1 as [e|x]; intros H Hm Hk; cbn in *.
  - rewrite Hm by congruence. done.
  - rewrite Hm by done. cbn. by apply Hk.
Qed.

Lemma no_oof_inr {A} (x : A) : no_oof (inr x).
Proof. done. Qed.

Lemma no_oof_type_error {A} msg : no_oof (A:=A) (inl (TypeError msg)).
Proof. done. Qed.

#[export] Hint Resolve no_oof_inr no_oof_type_error : xlsx.

Ltac no_oof_tac :=
  repeat first [ solve [auto with xlsx] | apply no_oof_inr | apply no_oof_type_error
               | progress (apply no_oof_bind; [|intros ? ?]) | case_match ];
  auto with xlsx.

Lemma read_prop_no_oof v k : no_oof (read_prop v k).
Proof. unfold read_prop. no_oof_tac. Qed.

Lemma js_includes_no_oof v t : no_oof (js_includes v t).
Proof. unfold js_includes. no_oof_tac. Qed.

Lemma js_lower_no_oof v : no_oof (js_lower v).
Proof. unfold js_lower. no_oof_tac. Qed.

#[export] Hint Resolve read_prop_no_oof js_includes_no_oof js_lower_no_oof : xlsx.

Lemma find_event_no_oof n evs : no_oof (find_event n evs).
Proof. induction evs; cbn; no_oof_tac. Qed.

#[export] Hint Resolve find_event_no_oof : xlsx.

Lemma safeJoinExec_no_oof v n : no_oof (safeJoinExec v n).
Proof. unfold safeJoinExec. no_oof_tac. Qed.

Lemma request_url_no_oof v : no_oof (request_url v).
Proof. unfold request_url. no_oof_tac. Qed.

Lemma row_notes_no_oof u n : no_oof (row_notes u n).
Proof. unfold row_notes. no_oof_tac. Qed.

#[export] Hint Resolve safeJoinExec_no_oof request_url_no_oof row_notes_no_oof : xlsx.

Lemma make_row_no_oof i p : no_oof (make_row i p).
Proof. unfold make_row. no_oof_tac. Qed.

Lemma sheet_of_no_oof r : no_oof (sheet_of r).
Proof. unfold sheet_of. no_oof_tac. Qed.

#[export] Hint Resolve make_row_no_oof sheet_of_no_oof : xlsx.

Lemma sort_rows_no_oof rows a s t : no_oof (sort_rows rows a s t).
Proof. induction rows in a, s, t |- *; cbn [sort_rows]; no_oof_tac. Qed.

Lemma read_prop_inr v k x : read_prop v k = inr x -> x = get_prop v k.
Proof. unfold read_prop. by destruct v; intros [= <-]. Qed.

Lemma collect_total f p items : sum_list_with jsize items < f -> no_oof (collect f p items).
Proof.
  induction f as [|f IHf] in p, items |- *; [lia|]. intros Hs.
  induction items as [|item l IHl]; [done|]. cbn [sum_list_with] in Hs.
  rewrite collect_cons. apply no_oof_bind; [auto with xlsx|]. intros sub ->%read_prop_inr.
  apply no_oof_bind; [|intros; apply no_oof_bind; [apply IHl; lia|auto with xlsx]].
  destruct (get_prop item "item") as [| | | | |subs|] eqn:E; try no_oof_tac.
  apply IHf. apply get_prop_arr_size in E. lia.
Qed.

Lemma collect_fuel_mono f g p items :
  f <= g -> no_oof (collect f p items) -> collect g p items = collect f p items.
Proof.
  induction f as [|f IHf] in g, p, items |- *; [by intros _ []|].
  destruct g as [|g]; [lia|]. intros Hle.
  induction items as [|item l IHl]; [done|]. intros Hno.
  rewrite !collect_cons in Hno |- *. apply bind_fuel_congr; [done..|]. intros sub Hsub.
  apply bind_fuel_congr; [exact Hsub| |].
  - destruct sub; try done. intros Hf. apply IHf; [lia|done].
  - intros here Hh. apply bind_fuel_congr; [exact Hh| |done].
    intros Hl. apply IHl, Hl.
Qed.

(** ** The expected status *)

Lemma is_digit_char c :
  is_digit c = true -> exists d, (0 <= d < 10)%Z /\ c = char_of_digit d.
Proof.
  unfold is_digit. intros [H1 H2]%andb_prop. apply Nat.leb_le in H1, H2.
  exists (Z.of_nat (nat_of_ascii c) - 48)%Z. split; [lia|].
  unfold char_of_digit. rewrite <- (ascii_nat_embedding c) at 1. f_equal. lia.
Qed.

Lemma match_here_digits p s g :
  match_here p s = Some g ->
  Forall (fun c => is_digit c = true) g /\
  length g = length (List.filter (fun t => match t with Digit => true | _ => false end) p).
Proof.
  induction p as [|t p IH] in s, g |- *; [intros [= <-]; split; by constructor|].
  destruct s as [|x s]; [by destruct t|].
  destruct t as [c| |]; cbn.
  - destruct (Ascii.eqb x c); [apply IH|intros [=]].
  - destruct (is_line_terminator x); [intros [=]|apply IH].
  - destruct (is_digit x) eqn:Hx; [|intros [=]].
    destruct (match_here p s) as [g'|] eqn:E; [|intros [=]]. intros [= <-].
    destruct (IH _ _ E). cbn. split; [by constructor|lia].
Qed.

Lemma regex_search_here s g :
  regex_search s = Some g -> exists s', match_here status_pattern s' = Some g.
Proof.
  induction s as [|x s IH]; cbn [regex_search];
    destruct (match_here status_pattern _) eqn:E; intros H; simplify_eq; eauto.
Qed.

(** The group of a match is three digits. *)
Lemma regex_search_digits s g :
  regex_search s = Some g ->
  exists a b c, Forall (fun d => (0 <= d < 10)%Z) [a; b; c] /\ g = map char_of_digit [a; b; c].
Proof.
  intros [s' [Hg Hlen]%match_here_digits]%regex_search_here.
  destruct g as [|x1 [|x2 [|x3 [|]]]]; try done.
  apply Forall_cons_iff in Hg as [[a [Ha ->]]%is_digit_char Hg].
  apply Forall_cons_iff in Hg as [[b [Hb ->]]%is_digit_char Hg].
  apply Forall_cons_iff in Hg as [[c [Hc ->]]%is_digit_char _].
  exists a, b, c. split; [repeat constructor; lia|done].
Qed.

Lemma num_int_value_fin z : num_int_value (NFin z 0) = z.
Proof. cbn. lia. Qed.

Lemma status_group_value a b c :
  Forall (fun d => (0 <= d < 10)%Z) [a; b; c] ->
  num_int_value (js_Number (String.string_of_list_ascii (map char_of_digit [a; b; c]))) =
    (100 * a + 10 * b + c)%Z.
Proof.
  intros H. change (String.string_of_list_ascii _) with (digits_string [a; b; c]).
  rewrite js_Number_digit_string by done. rewrite num_int_value_fin. cbn. lia.
Qed.

Lemma is_digit_of_digit d : (0 <= d < 10)%Z -> is_digit (char_of_digit d) = true.
Proof. intros Hd. apply digit_cases in Hd. by destruct_or! Hd; subst. Qed.

(** ** Sheets *)

Lemma workbook_shape a s t :
  (forall n rs, (n, rs) ∈ workbook a s t -> rs <> []) /\
  (fst <$> workbook a s t) `sublist_of` ["Auth"; "Students"; "Tests"].
Proof.
  unfold workbook.
  repeat case_bool_decide; cbn;
    (split; [intros ?? Hin; repeat (apply elem_of_cons in Hin as [Hin|Hin]; [by simplify_eq|]);
             by apply elem_of_nil in Hin
            |repeat first [apply sublist_nil_l | apply sublist_skip | apply sublist_cons]]).
Qed.

(** The main script up to its sheets, for a parsed collection. *)
Lemma main_some coll :
  main (Some coll) =
    match (items_v ← read_prop coll "item";
           let items := js_or items_v (JArr []) in
           let info := get_prop coll "info" in
           let parent := if truthy info && truthy (get_prop info "name") then get_prop info "name"
                         else JStr "Collection" in
           allRows ← (match items with
                      | JArr its => collect (jsize items) parent its
                      | _ => inl (TypeError "items.forEach is not a function")
                      end);
           sorted ← sort_rows allRows [] [] [];
           let '(a, s, t) := sorted in
           inr (workbook a s t)) with
    | inl e => Crash e
    | inr sheets => Wrote sheets
    end.
Proof. reflexivity. Qed.

Lemma bind_inr_inv {A B} (m : xres A) (k : A -> xres B) y :
  m ≫= k = inr y -> exists x, m = inr x /\ k x = inr y.
Proof. destruct m as [e|x]; cbn; [done|eauto]. Qed.

(** ** Properties of the export script *)

(** C32: [collectItems] terminates: with more fuel than the size of the
    items it never runs out, and any larger fuel gives the same rows or
    the same exception. *)
Theorem collect_terminates f p items :
  sum_list_with jsize items < f ->
  no_oof (collect f p items) /\ forall g, f <= g -> collect g p items = collect f p items.
Proof.
  intros Hf. pose proof (collect_total f p items Hf) as Ht.
  split; [done|]. intros g Hg. by apply collect_fuel_mono.
Qed.

(** Every row lands in exactly one sheet: the three sheets together
    are a permutation of the rows. *)
Theorem sort_rows_partition rows a s t :
  sort_rows rows [] [] [] = inr (a, s, t) -> rows ≡ₚ (a ++ s ++ t)%list.
Proof.
  rewrite sort_rows_acc. destruct (classify rows) as [|cl] eqn:E; [done|]. cbn.
  intros [= <- <- <-]. rewrite <- (classify_fst _ _ E). apply rows_of_partition.
Qed.

(** C33: the workbook the script writes has no empty sheet, and its
    sheets are among Auth, Students and Tests, in that order, each at most
    once. *)
Theorem main_sheets_shape coll sheets :
  main (Some coll) = Wrote sheets ->
  (forall n rs, (n, rs) ∈ sheets -> rs <> []) /\
  (fst <$> sheets) `sublist_of` ["Auth"; "Students"; "Tests"].
Proof.
  rewrite main_some. intros Hw.
  match type of Hw with
  | match ?m with inl _ => _ | inr _ => _ end = _ => destruct m as [|sh] eqn:H; [done|]
  end.
  injection Hw as <-.
  apply bind_inr_inv in H as (items & _ & H). cbv zeta in H.
  apply bind_inr_inv in H as (rows & _ & H).
  apply bind_inr_inv in H as ([[a s] t] & _ & [= <-]).
  apply workbook_shape.
Qed.

(** The expected status read from a test script is a number from 1
    to 999 when there is one. *)
Theorem expected_status_range ts n : expected_status ts = Some n -> (1 <= n <= 999)%Z.
Proof.
  unfold expected_status. destruct (regex_search _) as [g|] eqn:E; [|done].
  destruct (regex_search_digits _ _ E) as (a & b & c & Hd & ->).
  rewrite status_group_value by done.
  apply Forall_cons_iff in Hd as [Ha [Hb [Hc _]%Forall_cons_iff]%Forall_cons_iff].
  destruct (Z.eqb_spec (100 * a + 10 * b + c) 0); intros [= <-]; lia.
Qed.

(** C34: a test script that begins with [to.have.status(abc)] has the
    expected status [abc]; the dots of the pattern match any character
    but a line terminator, and the status [000] gives the empty cell. *)
Theorem expected_status_match x y a b c rest :
  is_line_terminator x = false -> is_line_terminator y = false ->
  Forall (fun d => (0 <= d < 10)%Z) [a; b; c] ->
  expected_status (Some (String.string_of_list_ascii
    (["t"; "o"; x; "h"; "a"; "v"; "e"; y; "s"; "t"; "a"; "t"; "u"; "s"; "("]%char
     ++ map char_of_digit [a; b; c] ++ [")"%char] ++ rest)%list)) =
  (if (100 * a + 10 * b + c =? 0)%Z then None else Some (100 * a + 10 * b + c)%Z).
Proof.
  intros Hx Hy Hd. unfold expected_status. cbn [from_option id].
  rewrite String.list_ascii_of_string_of_list_ascii.
  pose proof Hd as [Ha [Hb [Hc _]%Forall_cons_iff]%Forall_cons_iff]%Forall_cons_iff.
  cbn [regex_search app map].
  assert (Hm : match_here status_pattern
     ("t" :: "o" :: x :: "h" :: "a" :: "v" :: "e" :: y :: "s" :: "t" :: "a" :: "t" :: "u" :: "s"
      :: "(" :: char_of_digit a :: char_of_digit b :: char_of_digit c :: ")" :: rest)%char
     = Some (map char_of_digit [a; b; c])).
  { cbn. rewrite Hx, Hy, !is_digit_of_digit by lia. reflexivity. }
  rewrite Hm. cbv match. by rewrite status_group_value.
Qed.

(** C35: the notes search the URL as it is written while the sheet is
    chosen on the URL in lower case: a request whose URL has [/AUTH] but
    not [/auth] goes to the Auth sheet without the note [Auth]. *)
Theorem make_row_auth_note item p r u :
  make_row item p = inr r -> r_url r = JStr u ->
  str_includes u "/auth" = false -> str_includes (js_toLowerCase u) "/auth" = true ->
  sheet_of r = inr AuthSheet /\ str_includes (r_notes r) "Auth" = false.
Proof.
  unfold make_row. intros H Hu Hl Hlow.
  destruct (request_url _) as [|url]; [done|]. cbn in H.
  destruct (safeJoinExec _ "prerequest"); [done|]. cbn in H.
  destruct (safeJoinExec _ "test"); [done|]. cbn in H.
  destruct (row_notes url _) as [|notes] eqn:En; [done|]. cbn in H.
  case_match; simplify_eq. cbn in Hu. subst url. split.
  - unfold sheet_of, js_or. cbn [r_url truthy].
    destruct (String.eqb_spec u "") as [->|]; cbn; [done|by rewrite Hlow].
  - unfold row_notes in En. cbn in En. rewrite Hl in En.
    destruct (str_includes u "/students"), (_ || _ || _); cbn in En; simplify_eq; reflexivity.
Qed.

(** ** Witnesses *)

Lemma collect_terminates_witness :
  sum_list_with jsize sample_items < 60 /\
  (no_oof (collect 60 (JStr "API") sample_items) /\
   forall g, 60 <= g -> collect g (JStr "API") sample_items = collect 60 (JStr "API") sample_items).
Proof.
  assert (H : sum_list_with jsize sample_items < 60) by (apply Nat.ltb_lt; vm_compute; reflexivity).
  split; [exact H|]. apply collect_terminates, H.
Defined.

Lemma sort_rows_partition_witness :
  sort_rows sample_rows [] [] [] = inr sample_sorted /\
  sample_rows ≡ₚ (sample_sorted.1.1 ++ sample_sorted.1.2 ++ sample_sorted.2)%list.
Proof.
  assert (H : sort_rows sample_rows [] [] [] = inr (sample_sorted.1.1, sample_sorted.1.2, sample_sorted.2))
    by (vm_compute; reflexivity).
  split; [exact H|]. exact (sort_rows_partition _ _ _ _ H).
Defined.

Lemma main_sheets_shape_witness :
  main (Some sample_collection) = Wrote sample_sheets /\
  ((forall n rs, (n, rs) ∈ sample_sheets -> rs <> []) /\
   (fst <$> sample_sheets) `sublist_of` ["Auth"; "Students"; "Tests"]).
Proof.
  assert (H : main (Some sample_collection) = Wrote sample_sheets) by (vm_compute; reflexivity).
  split; [exact H|]. exact (main_sheets_shape _ _ H).
Defined.

Lemma expected_status_range_witness :
  expected_status (Some "pm.response.to.have.status(404);") = Some 404%Z /\ (1 <= 404 <= 999)%Z.
Proof.
  assert (H : expected_status (Some "pm.response.to.have.status(404);") = Some 404%Z)
    by (vm_compute; reflexivity).
  split; [exact H|]. exact (expected_status_range _ _ H).
Defined.

Lemma expected_status_match_witness :
  expected_status (Some (String.string_of_list_ascii
    (["t"; "o"; "_"; "h"; "a"; "v"; "e"; "_"; "s"; "t"; "a"; "t"; "u"; "s"; "("]%char
     ++ map char_of_digit [2; 0; 1]%Z ++ [")"%char] ++ [])%list)) = Some 201%Z.
Proof.
  apply (expected_status_match "_" "_" 2 0 1 []); [reflexivity|reflexivity|].
  repeat constructor; lia.
Defined.

Lemma make_row_auth_note_witness :
  let r := mk_row (JStr "API") "Invalid thing" (JStr "GET") (JStr "{{base}}/AUTH/x") "" "" None
             "Error case" in
  make_row sample_auth_item (JStr "API") = inr r /\
  (sheet_of r = inr AuthSheet /\ str_includes (r_notes r) "Auth" = false).
Proof.
  intros r. assert (H : make_row sample_auth_item (JStr "API") = inr r) by (vm_compute; reflexivity).
  split; [exact H|]. apply (make_row_auth_note _ _ r "{{base}}/AUTH/x" H); reflexivity.
Defined.
