(* ===== verification/Process.v ===== *)
(** * The server process (server.js lines 2, 9-15, 252-256)

    [require("dotenv").config()] fills [process.env] from .env
    ([dotenv_config]); [PORT] and
    [JWT_SECRET] are read from it once, with the defaults [3000] and
    ["super-secret-key-change-me"] for an absent or empty variable;
    requiring routes/students.js runs [loadStudents()] once; then
    [app.listen] logs two lines and serves the requests one after the
    other, each at the time it arrives, against the store the previous
    one left.  A process is modelled by its environment, the content of
    data/students.json at start-up and the sequence of arrivals.

    The last part is a client: the DELETE requests a holder of a valid
    token sends to empty the store, used by the liveness theorem. *)

From S2P Require Import Prelude JsValue JsNumber Http Jwt JwtModel Auth Student Store Samples Students Server.

Local Open Scope string_scope.

(** ** Configuration *)

(** [process.env] once dotenv has run: the first binding of a name. *)
Definition process_env : Type := list (string * string).

Definition env_var (pe : process_env) (k : string) : option string := assoc_first k pe.

(** [require("dotenv").config()]: the lines [KEY=VALUE] of the file .env
    ([None] when there is none) are added after the variables the process
    already has, which therefore win; of two lines with the same key the
    later one counts.  A line is a key of letters, digits, [_], [.] and
    [-] and a value up to a [#], both trimmed; other lines are skipped.
    dotenv's quoted and multi-line values are not modelled. *)
Definition is_key_char (c : ascii) : bool :=
  let n := nat_of_ascii c in
  (((48 <=? n) && (n <=? 57)) || ((65 <=? n) && (n <=? 90)) || ((97 <=? n) && (n <=? 122))
   || (n =? 95) || (n =? 46) || (n =? 45))%nat.

(** The characters before the first [sep] and those after it. *)
Fixpoint break_at (sep : ascii) (l : list ascii) : option (list ascii * list ascii) :=
  match l with
  | [] => None
  | c :: l' =>
      if Ascii.eqb c sep then Some ([], l')
      else match break_at sep l' with
           | Some (a, b) => Some (c :: a, b)
           | None => None
           end
  end.

Definition dotenv_line (line : string) : option (string * string) :=
  match break_at "="%char (trim (String.list_ascii_of_string line)) with
  | Some (k, v) =>
      let k' := trim k in
      let v' := match break_at "#"%char v with Some (a, _) => a | None => v end in
      if negb (bool_decide (k' = []%list)) && forallb is_key_char k'
      then Some (String.string_of_list_ascii k', String.string_of_list_ascii (trim v'))
      else None
  | None => None
  end.

Definition dotenv_parse (text : string) : process_env :=
  omap dotenv_line (js_split "010"%char text).

Definition dotenv_config (existing : process_env) (file : option string) : process_env :=
  (existing ++ match file with Some text => reverse (dotenv_parse text) | None => [] end)%list.

(** [process.env.PORT || 3000]: the variable's text, or the number. *)
Definition PORT (pe : process_env) : jsval :=
  match env_var pe "PORT" with
  | Some s => if String.eqb s "" then JNum 3000 else JStr s
  | None => JNum 3000
  end.

(** [process.env.JWT_SECRET || "super-secret-key-change-me"] *)
Definition secret_of (pe : process_env) : string := JWT_SECRET (env_var pe "JWT_SECRET").

(** [${PORT}] in a template literal. *)
Definition port_text (p : jsval) : string :=
  match p with
  | JStr s => s
  | JNum n => num_to_string (NFin n 0)
  | _ => ""
  end.

(** The two lines the [app.listen] callback logs. *)
Definition listen_log (pe : process_env) : list string :=
  ["API Practice Server running on http://localhost:" +:+ port_text (PORT pe);
   "Try GET /health"].

(** ** Runs of the process *)

(** A request and the clock when it arrives. *)
Record arrival : Type := mk_arrival {
  arr_now : Z;          (** seconds since the epoch *)
  arr_iso : string;     (** [new Date().toISOString()] *)
  arr_req : request
}.

Definition request_env (pe : process_env) (a : arrival) : env :=
  mk_env (secret_of pe) (arr_now a) (arr_iso a).

(** [loadStudents()] when server.js requires routes/students.js. *)
Definition initial_db (file : option (list Student)) : db := loadStudents file.

Section Process.
  Context `{TokenScheme}.

  (** The requests served in arrival order: the responses and the store
      left. *)
Fixpoint serve_all (pe : process_env) (arrs : list arrival) (d : db) : list response * db :=
    match arrs with
    | [] => ([], d)
    | a :: arrs' =>
        let '(r, d1) := serve (request_env pe a) (arr_req a) d in
        let '(rs, d2) := serve_all pe arrs' d1 in
        (r :: rs, d2)
    end.

Definition run_server (pe : process_env) (file : option (list Student)) (arrs : list arrival)
    : list response * db :=
    serve_all pe arrs (initial_db file).
End Process.

(** ** A client *)

(** The signed decimal text of an id, as a client writes it in a URL. *)
Definition id_text (z : Z) : string := (if (z <? 0)%Z then "-" else "") +:+ z_to_dec (Z.abs z).

(** [DELETE /students/:id] with a bearer token and no body. *)
Definition delete_request (token idt : string) : request :=
  mk_request DELETE ("/students/" +:+ idt) ["students"; idt]
             [("authorization", "Bearer " +:+ token)] [] (BodyJson (JObj [])).

(** One DELETE per record, at time [now], with a token signed with
    [secret] at [now]. *)
Definition drain_requests `{TokenScheme} (secret : string) (now : Z) (iso : string)
    (l : list Student) : list arrival :=
  (fun s => mk_arrival now iso
              (delete_request (jwt_sign DEMO_USER secret now TOKEN_LIFETIME) (id_text (sid s)))) <$> l.

(** A token a client signs itself with the fallback key, for the toy
    token scheme of JwtModel.v. *)
Definition forged_token : string :=
  @jwt_sign toy_token_scheme (mk_claims "mallory" "admin") "super-secret-key-change-me" 0 3600.

(** ** Lemmas *)

Lemma id_text_number z : js_Number (id_text z) = NFin z 0.
Proof. apply js_Number_dec_text. Qed.

Lemma id_text_nonempty z : id_text z <> "".
Proof.
  unfold id_text, z_to_dec. destruct (z <? 0)%Z; [done|].
  destruct (Z.leb_spec (Z.abs z) 0); [done|].
  destruct (digits_lsf_head (Z.abs z)) as (d & D & -> & _); [lia|]. done.
Qed.

Lemma assoc_first_app k l1 l2 :
  assoc_first k (l1 ++ l2) =
    match assoc_first k l1 with Some v => Some v | None => assoc_first k l2 end.
Proof. induction l1 as [|[k' v] l1 IH]; cbn; [done|]. by destruct (String.eqb k' k). Qed.

(** dotenv never overrides a variable the process already has, and
    without a .env file the environment is the process's own. *)
Lemma dotenv_keeps_existing pe file k v :
  env_var pe k = Some v -> env_var (dotenv_config pe file) k = Some v.
Proof. unfold env_var, dotenv_config. rewrite assoc_first_app. by intros ->. Qed.

Lemma dotenv_no_file pe : dotenv_config pe None = pe.
Proof. apply app_nil_r. Qed.

(** A variable the process lacks takes the value of the last line of
    .env that sets it. *)
Lemma dotenv_file_value pe text k :
  env_var pe k = None ->
  env_var (dotenv_config pe (Some text)) k = assoc_first k (reverse (dotenv_parse text)).
Proof. unfold env_var, dotenv_config. rewrite assoc_first_app. by intros ->. Qed.

(** Without [PORT], or with an empty one, the server listens on 3000. *)
Example listen_log_default :
  listen_log [] = ["API Practice Server running on http://localhost:3000"; "Try GET /health"] /\
  listen_log [("PORT", "")] = listen_log [] /\
  listen_log [("PORT", "8080")] = ["API Practice Server running on http://localhost:8080"; "Try GET /health"].
Proof. split_and!; reflexivity. Qed.

Section Client.
  Context `{TokenScheme}.

Lemma serve_delete e token idt d :
  idt <> "" ->
  serve e (delete_request token idt) d =
    run_prog (guarded (requireJwt (env_secret e) (env_now e)) (delete_request token idt)
                      (fun _ => delete_student idt)) d.
Proof.
  intros Hne. destruct idt as [|c idt]; [done|].
  unfold serve, app. cbn [req_body req_method req_path delete_request].
  cbv [bool_decide decide_rel is_get andb].
  destruct (http_method_eq_dec DELETE OPTIONS); [discriminate|].
  destruct (http_method_eq_dec DELETE POST); [discriminate|].
  cbn [students_mount].
  assert (Hs : ci_eqb "students" "students" = true) by reflexivity. rewrite Hs.
  by unfold students_router, strip_trailing_slash; cbn [rev app String.eqb is_get].
Qed.

Lemma requireJwt_signed secret now c sec iat life idt :
  requireJwt secret now (delete_request (jwt_sign c sec iat life) idt) =
    match jwt_verify (jwt_sign c sec iat life) secret now with
    | inl msg => inl (invalid_token msg)
    | inr decoded => inr decoded
    end.
Proof. apply requireJwt_bearer; [reflexivity|apply jwt_sign_no_space]. Qed.

Lemma delete_first d s l :
  students d = s :: l ->
  run_prog (delete_student (id_text (sid s))) d =
    (with_student 200 "Student deleted" (student_to_js s), save (set_students l d)).
Proof.
  intros Hd. unfold delete_student. rewrite id_text_number. cbn [js_isNaN]. handler_unfold.
  rewrite Hd. unfold id_matches, num_eq_int. cbn.
  rewrite Z.mul_1_r, Z.eqb_refl. reflexivity.
Qed.

Lemma serve_all_app pe a b d :
  serve_all pe (a ++ b) d =
    let '(rs1, d1) := serve_all pe a d in
    let '(rs2, d2) := serve_all pe b d1 in
    ((rs1 ++ rs2)%list, d2).
Proof.
  induction a as [|x a IH] in d |- *; cbn; [by destruct (serve_all pe b d)|].
  destruct (serve _ _ d) as [r d1]. rewrite IH.
  destruct (serve_all pe a d1) as [rs1 d2]. by destruct (serve_all pe b d2).
Qed.

(** The DELETE requests of [drain_requests] empty any store, each
    answered 200, and the emptied store is written to the file. *)
Lemma drain_run pe now iso d :
  exists rs,
    serve_all pe (drain_requests (secret_of pe) now iso (students d)) d =
      (rs, match students d with [] => d | _ => mk_db [] (Some []) end) /\
    Forall (fun r => status r = 200%Z) rs.
Proof.
  destruct d as [l f]. cbn [students]. induction l as [|s l IH] in f |- *; [by exists []|].
  cbn [drain_requests fmap list_fmap serve_all arr_req].
  rewrite serve_delete by apply id_text_nonempty. unfold guarded.
  cbn [request_env env_secret env_now arr_req arr_now].
  rewrite requireJwt_signed, jwt_verify_sign by (unfold TOKEN_LIFETIME; lia).
  rewrite (delete_first _ s l) by done.
  change (save (set_students l (mk_db (s :: l) f))) with (mk_db l (Some l)).
  destruct (IH (Some l)) as [rs [Hl Hrs]]. unfold drain_requests in Hl. rewrite Hl.
  exists (with_student 200 "Student deleted" (student_to_js s) :: rs). split.
  - by destruct l.
  - by constructor.
Qed.
(** Every state of a process run is a state [reachable] from the file:
    the invariants of Server.v hold along processes. *)
Lemma run_server_reachable pe file arrs : reachable file (snd (run_server pe file arrs)).
Proof.
  unfold run_server. generalize (reach_init file). unfold initial_db.
  generalize (loadStudents file) as d.
  induction arrs as [|a arrs IH]; intros d Hd; cbn; [done|].
  destruct (serve _ _ d) as [r d1] eqn:E.
  specialize (IH d1). destruct (serve_all pe arrs d1). apply IH.
  replace d1 with (snd (serve (request_env pe a) (arr_req a) d)) by by rewrite E.
  by apply reach_step.
Qed.

(** C6: liveness of the store: from every state a run of the process
    reaches, a client holding a token signed with the process's secret
    empties the store by one DELETE per record, each answered 200; the
    emptied store is written to the file (a store already empty is left
    as it is). *)
Theorem process_can_drain pe file arrs now iso :
  let d := snd (run_server pe file arrs) in
  exists rs,
    run_server pe file (arrs ++ drain_requests (secret_of pe) now iso (students d)) =
      ((fst (run_server pe file arrs) ++ rs)%list,
       match students d with [] => d | _ => mk_db [] (Some []) end) /\
    Forall (fun r => status r = 200%Z) rs.
Proof.
  intros d. subst d. unfold run_server. rewrite serve_all_app.
  destruct (serve_all pe arrs (initial_db file)) as [rs1 d1]. cbn [fst snd].
  destruct (drain_run pe now iso d1) as [rs [-> Hrs]]. by exists rs.
Qed.

(** C14: the fallback secret: when [JWT_SECRET] is unset or empty, a
    client that never logged in signs a token of its own, for any
    identity, with the published key ["super-secret-key-change-me"], and
    its DELETE reaches the handler; with any other secret set, the same
    request is answered 401 and the store is unchanged. *)
Theorem default_secret_forgery pe c iat life now iso idt d :
  idt <> "" -> (now < iat + life)%Z ->
  let a := mk_arrival now iso
             (delete_request (jwt_sign c "super-secret-key-change-me" iat life) idt) in
  ((env_var pe "JWT_SECRET" = None \/ env_var pe "JWT_SECRET" = Some "") ->
     serve (request_env pe a) (arr_req a) d = run_prog (delete_student idt) d) /\
  (forall s, env_var pe "JWT_SECRET" = Some s -> s <> "" -> s <> "super-secret-key-change-me" ->
     exists msg, serve (request_env pe a) (arr_req a) d = (invalid_token msg, d)).
Proof.
  intros Hne Hnow a. subst a. cbn [arr_req]. rewrite serve_delete by done.
  unfold guarded. cbn [request_env env_secret env_now arr_now]. rewrite requireJwt_signed.
  unfold secret_of, JWT_SECRET. split.
  - intros [-> | ->]; cbn; by rewrite jwt_verify_sign.
  - intros s Henv Hs Hs'. rewrite Henv. apply String.eqb_neq in Hs as ->. cbv iota.
    destruct (jwt_verify_secret c "super-secret-key-change-me" s iat life now) as [msg ->];
      [congruence|]. by exists msg.
Qed.
End Client.

Section Examples.
#[local] Existing Instance toy_token_scheme.

Lemma default_secret_forgery_witness :
  serve (request_env [] (mk_arrival 10 "1970-01-01T00:00:10.000Z" (delete_request forged_token "1")))
        (delete_request forged_token "1") sample_db =
    run_prog (delete_student "1") sample_db.
Proof.
  apply (proj1 (default_secret_forgery [] (mk_claims "mallory" "admin") 0 3600 10
                  "1970-01-01T00:00:10.000Z" "1" sample_db ltac:(done) ltac:(lia))).
  by left.
Defined.
End Examples.
