(* ===== verification/DataFile.v ===== *)
(** * The shipped data file (data/students.json)

    The repository ships data/students.json with three students; its
    text is quoted in the setup guide appended to routes/students.js
    (lines 1022-1046).  [loadStudents] parses it when the server starts,
    so it is the store every run begins with.  This file holds that text
    and checks that it is exactly what [saveStudents] writes for its
    three records, that [loadStudents] reads them back, and that the
    records meet the hypotheses of the run invariants of Server.v.

    The guide also shows two .env files (lines 363-366 and 1254-1257)
    and the output the server prints on start (lines 385-388); the
    examples at the end run [dotenv_config] and [listen_log] of Process.v
    on them. *)

From S2P Require Import Prelude JsValue Student JsonText Store Process.

Local Open Scope string_scope.

(** The records of the file. *)
Definition shipped_students : list Student :=
  [mk_student 1 "Alice Johnson" 20 "alice@example.com" true;
   mk_student 2 "Bob Smith" 22 "bob@example.com" true;
   mk_student 3 "Charlie Brown" 19 "charlie@example.com" false].

(** The text of the file as the guide quotes it, with ['] written for
    the double quote. *)
Definition students_json_quoted : string :=
"[
  {
    'id': 1,
    'name': 'Alice Johnson',
    'age': 20,
    'email': 'alice@example.com',
    'isActive': true
  },
  {
    'id': 2,
    'name': 'Bob Smith',
    'age': 22,
    'email': 'bob@example.com',
    'isActive': true
  },
  {
    'id': 3,
    'name': 'Charlie Brown',
    'age': 19,
    'email': 'charlie@example.com',
    'isActive': false
  }
]".

Definition students_json : string :=
  String.string_of_list_ascii
    (map (fun c => if Ascii.eqb c "'"%char then dq else c)
         (String.list_ascii_of_string students_json_quoted)).

(** The .env of the guide's setup step (lines 363-366) and of its
    custom-port tip (lines 1254-1257). *)
Definition guide_env_file : string :=
"PORT=3000
JWT_SECRET=your-super-secret-key-here".

Definition custom_env_file : string :=
"PORT=3001
JWT_SECRET=my-custom-secret".

(** The expected output of the guide (lines 385-388). *)
Definition guide_output : list string :=
  ["API Practice Server running on http://localhost:3000"; "Try GET /health"].

(** The shipped file is the text [saveStudents] writes for its three
    records, [loadStudents] reads them back from it, and they have
    distinct ids, e-mails distinct up to case and positive ages: the
    hypotheses of the run invariants of Server.v hold from the start. *)
Example shipped_file_text :
  save_text shipped_students = students_json /\
  load_text (Some students_json) = JArr (student_to_js <$> shipped_students) /\
  store_wf shipped_students /\ Forall (fun s => (0 < age s)%Z) shipped_students.
Proof.
  split; [vm_compute; reflexivity|]. split; [vm_compute; reflexivity|].
  split; [apply (bool_decide_eq_true_1 _); vm_compute; reflexivity|].
  repeat constructor.
Qed.

(** With the guide's .env, or without one ("Defaults are already
    configured"), the server prints the guide's expected output; the
    guide's file changes the secret the tokens are signed with. *)
Example guide_env_output :
  listen_log (dotenv_config [] (Some guide_env_file)) = guide_output /\
  listen_log (dotenv_config [] None) = guide_output /\
  secret_of (dotenv_config [] (Some guide_env_file)) = "your-super-secret-key-here" /\
  secret_of (dotenv_config [] None) = "super-secret-key-change-me".
Proof. split_and!; reflexivity. Qed.

(** The custom-port tip moves the server to 3001, unless the shell
    already sets [PORT], which dotenv leaves alone. *)
Example custom_env_output :
  listen_log (dotenv_config [] (Some custom_env_file)) =
    ["API Practice Server running on http://localhost:3001"; "Try GET /health"] /\
  listen_log (dotenv_config [("PORT", "8080")] (Some custom_env_file)) =
    ["API Practice Server running on http://localhost:8080"; "Try GET /health"].
Proof. split; reflexivity. Qed.
